(** * Blackbird MCP server: the authenticated API client of [server.py]

    A shallow embedding of [BlackbirdApiClient]: construction and credential
    selection, token acquisition and refresh, resource submission, status
    checks with the [backoff] retry decorator, and the polling loop of
    [submit_and_wait_resource] with its result normalisation.

    Conventions of the embedding.
    - JSON values (what [response.json()] returns) are the inductive [Json];
      a Python [dict] is an association list in insertion order, read with
      [dict_get] and written with [dict_set] (an existing key keeps its
      place, a new key goes last).
    - Python [int] is [Z]; timestamps ([time.time()], a float in the source)
      are rationals [Q], and [0.5] is [1#2].
    - Effects are explicit: every method is a state-and-exception
      computation [M S A].  The outside world (clock, identity provider,
      remote API) is a set of oracles inside [World], together with counters
      and a trace of the effects performed, most recent first.
    - An f-string with one formatted value is kept symbolic ([PyStr]); an
      exception carries the values its message is built from.
    - One task at a time: [await] is sequencing.  The module-level client
      and the two tools [check_context] and [check_vision] come after the
      class, with [os.environ] and [json.dumps] taken as parameters. *)

From Stdlib Require Import ZArith QArith String List Bool Lia Lqa.
Import ListNotations.

Set Warnings "-register-all".

Local Open Scope string_scope.
Local Open Scope list_scope.

(** ** JSON values and Python dictionaries *)

Inductive Json : Type :=
| JNull
| JBool (b : bool)
| JNum (q : Q)
| JStr (s : string)
| JArr (l : list Json)
| JObj (d : list (string * Json)).

Definition Dict : Type := list (string * Json).

Fixpoint dict_get (k : string) (d : Dict) : option Json :=
  match d with
  | [] => None
  | (k', v) :: rest => if String.eqb k k' then Some v else dict_get k rest
  end.

(** [d[k] = v]: an existing key is overwritten where it stands, a new key is
    appended. *)
Fixpoint dict_set (k : string) (v : Json) (d : Dict) : Dict :=
  match d with
  | [] => [(k, v)]
  | (k', v') :: rest =>
      if String.eqb k k' then (k', v) :: rest else (k', v') :: dict_set k v rest
  end.

(** Truth value of a [dict] and of a [str | None] argument. *)
Definition dict_truthy (d : Dict) : bool :=
  match d with [] => false | _ :: _ => true end.

Definition str_truthy (s : option string) : bool :=
  match s with
  | None => false
  | Some s => negb (String.eqb s "")
  end.

(** The value of an f-string: a literal, or a literal prefix followed by one
    formatted value. *)
Inductive PyStr : Type :=
| Lit (s : string)
| Fmt (prefix : string) (v : Json).

(** ** Comparisons on timestamps *)

Definition Qltb (a b : Q) : bool := negb (Qle_bool b a).
Definition Qgtb (a b : Q) : bool := Qltb b a.

(** ** Module constants *)

Definition BASE_URL : string := "https://api.blackbird.ai".
Definition BLACKBIRD_CONTEXT_MAX_RETRIES : Z := 60.
Definition BLACKBIRD_CONTEXT_MAX_TIME : Z := 600.
Definition BLACKBIRD_CONTEXT_CHECK_INTERVAL : Z := 10.

(** ** [class ResourceType(enum.Enum)] *)

Inductive ResourceType : Type := CONTEXT | VISION.

Definition value (r : ResourceType) : string :=
  match r with
  | CONTEXT => "compass/contextChecks"
  | VISION => "compass/visionAnalyses"
  end.

(** ** HTTP *)

Record Response : Type := mkResponse {
  status_code : Z;
  body : option Json   (* [None]: the body is not JSON, [response.json()] raises *)
}.

(** What a request comes back with: a response, or a transport failure
    raised by [httpx]. *)
Inductive NetReply : Type :=
| Reply (r : Response)
| NetFail.

Definition Headers : Type := list (string * PyStr).

Inductive Request : Type :=
| POST (url : string) (hdrs : Headers) (json : Dict)
| GET (url : PyStr) (hdrs : Headers).

(** ** Exceptions *)

Inductive RuntimeInfo : Type :=
| TokenRejected (data : Json)              (* [RuntimeError(data)] *)
| TokenFailed (response : Response)        (* "Failed to get token with ..." *)
| SubmitFailed (response : Response)       (* "Failed to submit context with ..." *)
| NotFound (rt : ResourceType) (resource_id : Json) (response : Response)
| Retried (retries : Z) (max_time : Z) (error : Json).
                                           (* "Retried ... times for ...s with error=..." *)

(** [RetryableError] is a subclass of [RuntimeError] that the [backoff]
    decorator catches; it is a constructor of its own, the other
    [RuntimeError]s are never caught by the decorator. *)
Inductive RetryableInfo : Type :=
| SubmitRetry (response : Response)        (* "Failed to submit context with ..." *)
| CheckRetry (rt : ResourceType) (resource_id : Json).
                                           (* "Failed to check..." *)

Inductive Exn : Type :=
| ValueError (msg : string)
| RuntimeError (info : RuntimeInfo)
| RetryableError (info : RetryableInfo)
| JSONDecodeError
| KeyError (key : string)
| TypeError
| TransportError.

(** ** The world: oracles, counters and the trace of effects *)

Inductive Event : Type :=
| EvAuthPost (url : string) (data : Dict)
| EvRequest (r : Request)
| EvSleep (seconds : Z)            (* [asyncio.sleep(check_interval)] *)
| EvBackoff (bound : Z)            (* wait of the [backoff] decorator, jittered in [0, bound] *)
| EvInfoSubmitted (resource_id : Json)
| EvWarnFailed (check : Json) (err : Json)
| EvWarnUnknown (check : Json).

Record World : Type := mkWorld {
  clock : nat -> Q;                              (* successive values of [time.time()] *)
  ticks : nat;                                   (* readings taken so far *)
  auth_server : nat -> string -> Dict -> NetReply;
  auth_calls : nat;
  api_server : nat -> Request -> NetReply;
  api_calls : nat;
  trace : list Event
}.

(** ** State and exception monad *)

Inductive Res (A : Type) : Type :=
| Ok (a : A)
| Raise (e : Exn).
Arguments Ok {A} a.
Arguments Raise {A} e.

Definition M (S A : Type) : Type := S -> Res A * S.

Definition ret {S A} (a : A) : M S A := fun s => (Ok a, s).
Definition raise {S A} (e : Exn) : M S A := fun s => (Raise e, s).
Definition bind {S A B} (m : M S A) (k : A -> M S B) : M S B :=
  fun s => match m s with
           | (Ok a, s') => k a s'
           | (Raise e, s') => (Raise e, s')
           end.

Notation "x <- c ;; k" := (bind c (fun x => k))
  (at level 61, c at next level, right associativity).
Notation "c ;;; k" := (bind c (fun _ => k))
  (at level 61, right associativity).

(** *** Primitive effects *)

Definition emit (e : Event) (w : World) : World :=
  mkWorld (clock w) (ticks w) (auth_server w) (auth_calls w)
          (api_server w) (api_calls w) (e :: trace w).

(** The world after one more reading of the clock. *)
Definition tick (w : World) : World :=
  mkWorld (clock w) (S (ticks w)) (auth_server w) (auth_calls w)
          (api_server w) (api_calls w) (trace w).

(** The world after one more request to the identity provider. *)
Definition auth_called (url : string) (data : Dict) (w : World) : World :=
  mkWorld (clock w) (ticks w) (auth_server w) (S (auth_calls w))
          (api_server w) (api_calls w) (EvAuthPost url data :: trace w).

(** The world after one more request on the API session. *)
Definition api_called (r : Request) (w : World) : World :=
  mkWorld (clock w) (ticks w) (auth_server w) (auth_calls w)
          (api_server w) (S (api_calls w)) (EvRequest r :: trace w).

(** [time.time()] *)
Definition time_time : M World Q :=
  fun w => (Ok (clock w (ticks w)), tick w).

Definition of_reply (r : NetReply) : Res Response :=
  match r with
  | Reply resp => Ok resp
  | NetFail => Raise TransportError
  end.

(** [httpx.post(url, data=payload)] *)
Definition httpx_post (url : string) (data : Dict) : M World Response :=
  fun w => (of_reply (auth_server w (auth_calls w) url data),
            auth_called url data w).

(** [self._session.post(...)] and [self._session.get(...)] *)
Definition session_send (r : Request) : M World Response :=
  fun w => (of_reply (api_server w (api_calls w) r), api_called r w).

Definition log (e : Event) : M World unit := fun w => (Ok tt, emit e w).

(** [asyncio.sleep(seconds)] *)
Definition asyncio_sleep (seconds : Z) : M World unit := log (EvSleep seconds).

(** [response.json()] *)
Definition response_json {S} (r : Response) : M S Json :=
  match body r with
  | Some j => ret j
  | None => raise JSONDecodeError
  end.

(** [time.time() + expires_in]: defined on numbers (and on [bool], an [int]
    in Python), a [TypeError] otherwise. *)
Definition float_add {S} (t : Q) (j : Json) : M S Q :=
  match j with
  | JNum q => ret (t + q)%Q
  | JBool b => ret (t + (if b then 1 else 0))%Q
  | _ => raise TypeError
  end.

(** ** [@dataclass class Token] *)

Module Token.
Record t : Type := mk {
  token : Json;
  expiration_time : Q
}.
End Token.

(** ** [class BlackbirdApiClient] *)

Module BlackbirdApiClient.

Record t : Type := mk {
  _auth_url : string;
  _auth_payload : Dict;
  token : Token.t
}.

(** A method runs on the client object and the world. *)
Record St : Type := mkSt {
  self : t;
  world : World
}.

Definition lift {A} (m : M World A) : M St A :=
  fun s => match m (world s) with
           | (r, w') => (r, mkSt (self s) w')
           end.

Definition on_world (f : World -> World) (s : St) : St :=
  mkSt (self s) (f (world s)).

Definition get_self : M St t := fun s => (Ok (self s), s).

Definition set_token (tok : Token.t) : M St unit :=
  fun s => (Ok tt,
            mkSt (mk (_auth_url (self s)) (_auth_payload (self s)) tok) (world s)).

(** [__new_token]: reads [self._auth_url] and [self._auth_payload] only, so
    that it can run from [__init__] before [self.token] exists. *)
Definition __new_token (auth_url : string) (auth_payload : Dict)
  : M World Token.t :=
  response <- httpx_post auth_url auth_payload ;;
  data <- response_json response ;;
  match data with
  | JObj d =>
      match dict_get "error" d with
      | Some _ => raise (RuntimeError (TokenRejected data))
      | None =>
          match dict_get "access_token" d, dict_get "expires_in" d with
          | Some token, Some expires_in =>
              now <- time_time ;;
              expiry <- float_add now expires_in ;;
              ret (Token.mk token expiry)
          | _, _ => raise (RuntimeError (TokenFailed response))
          end
      end
  | _ => raise (RuntimeError (TokenFailed response))
  end.

Definition __init__ (client_id client_secret username password : option string)
  : M World t :=
  if str_truthy username && str_truthy password then
    let auth_url := (BASE_URL ++ "/compass/token")%string in
    let auth_payload :=
      [("username", JStr (match username with Some u => u | None => "" end));
       ("password", JStr (match password with Some p => p | None => "" end));
       ("grant_type", JStr "password")] in
    tok <- __new_token auth_url auth_payload ;;
    ret (mk auth_url auth_payload tok)
  else if str_truthy client_id && str_truthy client_secret then
    let auth_url :=
      "https://blackbird-ai.auth.us-west-2.amazoncognito.com/oauth2/token" in
    let auth_payload :=
      [("client_id", JStr (match client_id with Some c => c | None => "" end));
       ("client_secret",
        JStr (match client_secret with Some c => c | None => "" end));
       ("grant_type", JStr "client_credentials")] in
    tok <- __new_token auth_url auth_payload ;;
    ret (mk auth_url auth_payload tok)
  else
    raise (ValueError
      "Either username and password or client_id and client_secret must be provided").

(** [bearer_token] (a property) *)
Definition bearer_token : M St PyStr :=
  now <- lift time_time ;;
  me <- get_self ;;
  (if Qgtb (now - (1#2)) (Token.expiration_time (token me)) then
     (* buffer of 0.5 seconds for safety *)
     tok <- lift (__new_token (_auth_url me) (_auth_payload me)) ;;
     set_token tok
   else ret tt) ;;;
  me <- get_self ;;
  ret (Fmt "Bearer " (Token.token (token me))).

(** [headers] (a property) *)
Definition headers : M St Headers :=
  auth <- bearer_token ;;
  ret [("Authorization", auth); ("Content-Type", Lit "application/json")].

(** [@backoff.on_exception(backoff.expo, RetryableError, max_tries=...)]:
    the target is called again after a [RetryableError], with an
    exponentially growing jittered wait in between, until [max_tries] calls
    have been made; the last [RetryableError] and every other exception
    propagate.  [more] is the number of calls still allowed after this
    one, [n] the number of waits so far. *)
Fixpoint backoff_retry {A} (more : nat) (n : nat) (target : M St A) : M St A :=
  fun s =>
    match target s with
    | (Raise (RetryableError e), s') =>
        match more with
        | O => (Raise (RetryableError e), s')
        | S more' =>
            (lift (log (EvBackoff (2 ^ Z.of_nat n))) ;;;
             backoff_retry more' (S n) target) s'
        end
    | r => r
    end.

Definition on_exception {A} (max_tries : nat) (target : M St A) : M St A :=
  backoff_retry (pred max_tries) 0 target.

(** [data[key]] on a parsed JSON value. *)
Definition subscript {S} (data : Json) (key : string) : M S Json :=
  match data with
  | JObj d =>
      match dict_get key d with
      | Some v => ret v
      | None => raise (KeyError key)
      end
  | _ => raise TypeError
  end.

Definition is_200_or_202 (c : Z) : bool := (c =? 200)%Z || (c =? 202)%Z.

(** The body of [_submit_resource_type], before decoration. *)
Definition _submit_resource_type_wrapped
    (resource : string) (resource_type : ResourceType) (opts : Dict)
  : M St Json :=
  let data := [("input", JStr resource)] in
  let data := if dict_truthy opts then dict_set "options" (JObj opts) data
              else data in
  let url := (BASE_URL ++ "/" ++ value resource_type)%string in
  hdrs <- headers ;;
  response <- lift (session_send (POST url hdrs data)) ;;
  if is_200_or_202 (status_code response) then
    data <- response_json response ;;
    subscript data "id"
  else if (status_code response =? 500)%Z then
    raise (RetryableError (SubmitRetry response))
  else
    raise (RuntimeError (SubmitFailed response)).

Definition _submit_resource_type
    (resource : string) (resource_type : ResourceType) (opts : Dict)
  : M St Json :=
  on_exception 3 (_submit_resource_type_wrapped resource resource_type opts).

(** The body of [_check_resource_type], before decoration. *)
Definition _check_resource_type_wrapped
    (resource_id : Json) (resource_type : ResourceType) : M St Json :=
  let url := Fmt (BASE_URL ++ "/" ++ value resource_type ++ "/")%string
                 resource_id in
  hdrs <- headers ;;
  response <- lift (session_send (GET url hdrs)) ;;
  if is_200_or_202 (status_code response) then
    response_json response
  else if (status_code response =? 500)%Z then
    raise (RetryableError (CheckRetry resource_type resource_id))
  else if (status_code response <? 500)%Z && (400 <=? status_code response)%Z then
    raise (RuntimeError (NotFound resource_type resource_id response))
  else
    raise (RuntimeError (SubmitFailed response)).

Definition _check_resource_type
    (resource_id : Json) (resource_type : ResourceType) : M St Json :=
  on_exception 3 (_check_resource_type_wrapped resource_id resource_type).

(** *** The [match check] statement of [submit_and_wait_resource]

    One function per [case] pattern, giving the captured values when the
    pattern matches.  A mapping pattern matches a [dict] that has every
    listed key; a literal sub-pattern compares with [==], a name captures
    whatever value is there. *)

Definition status_is (d : Dict) (s : string) : bool :=
  match dict_get "status" d with
  | Some (JStr s') => String.eqb s' s
  | _ => false
  end.

(** [case {"status": "success", "context": data, "input": _input}] *)
Definition case_context (check : Json) : option (Json * Json) :=
  match check with
  | JObj d =>
      if status_is d "success" then
        match dict_get "context" d, dict_get "input" d with
        | Some data, Some _input => Some (data, _input)
        | _, _ => None
        end
      else None
  | _ => None
  end.

(** [case {"status": "success", "options": options, "input": _input,
           "analysis": analysis}] *)
Definition case_analysis (check : Json) : option (Json * Json * Json) :=
  match check with
  | JObj d =>
      if status_is d "success" then
        match dict_get "options" d, dict_get "input" d, dict_get "analysis" d with
        | Some options, Some _input, Some analysis =>
            Some (options, _input, analysis)
        | _, _, _ => None
        end
      else None
  | _ => None
  end.

(** [case {"status": "processing"}] *)
Definition case_processing (check : Json) : bool :=
  match check with
  | JObj d => status_is d "processing"
  | _ => false
  end.

(** [case {"status": "failed", "error": err}] *)
Definition case_failed (check : Json) : option Json :=
  match check with
  | JObj d => if status_is d "failed" then dict_get "error" d else None
  | _ => None
  end.

(** [{**data, k1: v1, ...}]: [data] has to be a mapping. *)
Definition unpack {S} (data : Json) : M S Dict :=
  match data with
  | JObj d => ret d
  | _ => raise TypeError
  end.

(** The [while] loop of [submit_and_wait_resource].  [None] is returned
    when [fuel] runs out, never by the source. *)
Fixpoint poll (fuel : nat) (resource_id : Json) (resource_type : ResourceType)
    (max_retries max_time check_interval : Z) (cutoff : Q)
    (retries : Z) (error : Json) {struct fuel} : M St (option Json) :=
  match fuel with
  | O => ret None
  | S fuel' =>
      go <- (if (retries <=? max_retries)%Z then
               now <- lift time_time ;; ret (Qltb now cutoff)
             else ret false) ;;
      if go : bool then
        check <- _check_resource_type resource_id resource_type ;;
        match case_context check with
        | Some (data, _input) =>
            d <- unpack data ;;
            ret (Some (JObj (dict_set "input" _input d)))
        | None =>
        match case_analysis check with
        | Some (options, _input, analysis) =>
            d <- unpack analysis ;;
            ret (Some (JObj (dict_set "input" _input
                               (dict_set "options" options d))))
        | None =>
        if case_processing check then
          lift (asyncio_sleep check_interval) ;;;
          poll fuel' resource_id resource_type max_retries max_time
               check_interval cutoff (retries + 1)%Z error
        else
        match case_failed check with
        | Some err =>
            lift (log (EvWarnFailed check err)) ;;;
            lift (asyncio_sleep check_interval) ;;;
            poll fuel' resource_id resource_type max_retries max_time
                 check_interval cutoff (retries + 1)%Z err
        | None =>
            lift (log (EvWarnUnknown check)) ;;;
            lift (asyncio_sleep check_interval) ;;;
            poll fuel' resource_id resource_type max_retries max_time
                 check_interval cutoff (retries + 1)%Z error
        end end end
      else
        raise (RuntimeError (Retried retries max_time error))
  end.

(** Every pass through the loop that does not leave it adds one to
    [retries], so the loop body runs at most [max_retries + 1] times and
    the guard is evaluated once more. *)
Definition poll_fuel (max_retries : Z) : nat := S (Z.to_nat (max_retries + 1)).

Definition submit_and_wait_resource
    (resource : string) (resource_type : ResourceType) (opts : Dict)
    (max_retries max_time check_interval : Z) : M St (option Json) :=
  resource_id <- _submit_resource_type resource resource_type opts ;;
  lift (log (EvInfoSubmitted resource_id)) ;;;
  let retries := 0%Z in
  let error := JStr "" in
  now <- lift time_time ;;
  let cutoff := (now + inject_Z max_time)%Q in
  poll (poll_fuel max_retries) resource_id resource_type max_retries max_time
       check_interval cutoff retries error.

End BlackbirdApiClient.

Import BlackbirdApiClient.

(** ** Vocabulary of the statements *)

(** [n] successive reads of the [bearer_token] property, results in order. *)
Fixpoint bearer_calls (n : nat) : M St (list PyStr) :=
  match n with
  | O => ret []
  | S n' =>
      v <- bearer_token ;;
      vs <- bearer_calls n' ;;
      ret (v :: vs)
  end.

(** The cached token is inside its validity window at clock reading [i]:
    its expiry less the buffer is still ahead. *)
Definition in_window (s : St) (i : nat) : Prop :=
  (clock (world s) i < Token.expiration_time (token (self s)) - (1#2))%Q.

(** The cached token is never judged expired by [bearer_token], whatever
    reading of the clock it is compared with. *)
Definition never_stale (s : St) : Prop :=
  forall i : nat,
    (clock (world s) i - (1#2) <= Token.expiration_time (token (self s)))%Q.

(** Number of status checks ([GET] requests) and of submissions ([POST]
    requests) recorded in a trace. *)
Fixpoint status_checks (tr : list Event) : nat :=
  match tr with
  | [] => 0
  | EvRequest (GET _ _) :: rest => S (status_checks rest)
  | _ :: rest => status_checks rest
  end.

Fixpoint submissions (tr : list Event) : nat :=
  match tr with
  | [] => 0
  | EvRequest (POST _ _ _) :: rest => S (submissions rest)
  | _ :: rest => submissions rest
  end.

(** The headers sent while the cached token is [tok]. *)
Definition headers_of (tok : Json) : Headers :=
  [("Authorization", Fmt "Bearer " tok); ("Content-Type", Lit "application/json")].

(** ** Stub worlds for the examples *)

(** A token grant of the identity provider. *)
Definition grant (tok : string) (expires_in : Q) : NetReply :=
  Reply (mkResponse 200
           (Some (JObj [("access_token", JStr tok); ("expires_in", JNum expires_in)]))).

(** A world whose clock stands still at [now], whose identity provider
    always grants, and whose API answers as [api] says. *)
Definition frozen_world (now : Q) (api : nat -> Request -> NetReply) : World :=
  mkWorld (fun _ => now) 0 (fun _ _ _ => grant "fresh" 3600) 0 api 0 [].

(** A password-mode client holding the token ["cached"] that expires at
    [expiry]. *)
Definition cached_client (expiry : Q) : BlackbirdApiClient.t :=
  BlackbirdApiClient.mk "https://api.blackbird.ai/compass/token"
     [("username", JStr "alice"); ("password", JStr "secret");
      ("grant_type", JStr "password")]
     (Token.mk (JStr "cached") expiry).

Definition answer (code : Z) (j : Json) : NetReply :=
  Reply (mkResponse code (Some j)).

(** An API that answers every request with status [code] and no JSON body. *)
Definition api_status (code : Z) : nat -> Request -> NetReply :=
  fun _ _ => Reply (mkResponse code None).

(** ** Requests and replies in the statements *)

(** The request body built by [_submit_resource_type]. *)
Definition submit_body (resource : string) (opts : Dict) : Dict :=
  if dict_truthy opts then dict_set "options" (JObj opts) [("input", JStr resource)]
  else [("input", JStr resource)].

(** The requests sent by [_submit_resource_type] and [_check_resource_type]
    while the cached token is [tok]. *)
Definition submit_request (resource : string) (rt : ResourceType) (opts : Dict)
    (tok : Json) : Request :=
  POST (BASE_URL ++ "/" ++ value rt)%string (headers_of tok)
       (submit_body resource opts).

Definition check_request (resource_id : Json) (rt : ResourceType) (tok : Json)
    : Request :=
  GET (Fmt (BASE_URL ++ "/" ++ value rt ++ "/")%string resource_id) (headers_of tok).

(** The [k]-th request from now on the API session is answered with [r],
    whatever it asks. *)
Definition api_replies (s : St) (k : nat) (r : Response) : Prop :=
  forall req : Request,
    api_server (world s) (api_calls (world s) + k) req = Reply r.

(** The state after an attempt of a request: the clock has been read once
    (by [bearer_token]) and the request has been sent. *)
Definition attempted (req : Request) (s : St) : St :=
  on_world (api_called req) (on_world tick s).

(** The state after a wait of the [backoff] decorator. *)
Definition backed_off (bound : Z) (s : St) : St :=
  on_world (emit (EvBackoff bound)) s.

(** A stub API that answers the successive requests with the status codes
    of [codes] (and 200 once they are used up), each with body [j]. *)
Definition api_script (codes : list Z) (j : Json) : nat -> Request -> NetReply :=
  fun n _ => answer (nth n codes 200%Z) j.

(** ** The polling loop in the statements *)

(** The state after the loop has slept [seconds]. *)
Definition slept (seconds : Z) (s : St) : St :=
  on_world (emit (EvSleep seconds)) s.

(** The state after the loop has logged an event. *)
Definition logged (e : Event) (s : St) : St := on_world (emit e) s.

(** A status payload tagged "success" that has neither the keys of the
    context shape nor those of the analysis shape. *)
Definition unmatched_success (d : Dict) : Prop :=
  dict_get "status" d = Some (JStr "success") /\
  (dict_get "context" d = None \/ dict_get "input" d = None) /\
  (dict_get "options" d = None \/ dict_get "input" d = None
   \/ dict_get "analysis" d = None).

Definition processing (d : Dict) : Prop :=
  dict_get "status" d = Some (JStr "processing").

(** Every status check is answered 200 or 202 with an object that
    satisfies [P]. *)
Definition always_answers (P : Dict -> Prop) (w : World) : Prop :=
  forall (n : nat) (url : PyStr) (hdrs : Headers),
  exists (c : Z) (d : Dict),
    api_server w n (GET url hdrs) = answer c (JObj d) /\
    is_200_or_202 c = true /\
    P d.

(** Every status check is answered with status "processing". *)
Definition always_processing (w : World) : Prop := always_answers processing w.

(** The next request [req] on the API session is accepted and given the
    identifier [resource_id]. *)
Definition accepted (s : St) (req : Request) (resource_id : Json) : Prop :=
  exists (c : Z) (d : Dict),
    api_server (world s) (api_calls (world s)) req = answer c (JObj d) /\
    is_200_or_202 c = true /\
    dict_get "id" d = Some resource_id.

(** The clock never advances by [max_time] or more between two readings. *)
Definition within_budget (w : World) (max_time : Z) : Prop :=
  forall i j : nat, (clock w j < clock w i + inject_Z max_time)%Q.

(** The error recorded by the most recent "failed" warning of a trace
    (most recent event first), [dflt] when there is none. *)
Fixpoint last_error (tr : list Event) (dflt : Json) : Json :=
  match tr with
  | [] => dflt
  | EvWarnFailed _ err :: _ => err
  | _ :: rest => last_error rest dflt
  end.

(** Number of sleeps of the polling loop recorded in a trace. *)
Fixpoint sleeps (tr : list Event) : nat :=
  match tr with
  | [] => 0
  | EvSleep _ :: rest => S (sleeps rest)
  | _ :: rest => sleeps rest
  end.

(** A stub API that accepts every submission with [on_post] and answers
    the [n]-th request, when it is a status check, with [on_get n]. *)
Definition api_stub (on_post : Json) (on_get : nat -> Json)
    : nat -> Request -> NetReply :=
  fun n req =>
    match req with
    | POST _ _ _ => answer 200 on_post
    | GET _ _ => answer 200 (on_get n)
    end.

(** ** Effects that leave the loop's bookkeeping alone *)

(** Events other than the loop's own sleeps and "failed" warnings. *)
Definition quiet_event (e : Event) : bool :=
  match e with
  | EvSleep _ | EvWarnFailed _ _ => false
  | _ => true
  end.

(** Any exception but the timeout error of the polling loop. *)
Definition not_timeout (e : Exn) : Prop :=
  match e with
  | RuntimeError (Retried _ _ _) => False
  | _ => True
  end.

(** A computation is tame when it only adds quiet events to the trace and
    never raises the timeout error. *)
Definition tame {S A : Type} (tr : S -> list Event) (m : M S A) : Prop :=
  forall (s : S) (r : Res A) (s' : S),
    m s = (r, s') ->
    (exists new, tr s' = new ++ tr s /\ forallb quiet_event new = true) /\
    match r with
    | Raise e => not_timeout e
    | Ok _ => True
    end.

Definition trace_of (s : St) : list Event := trace (world s).

(** ** The server: start-up and the two tools

    [os.environ] and [json.dumps] are taken as parameters: the environment
    is a lookup from names to values, the serialiser any function from JSON
    values to text. *)

Section Server.
Variable environ : string -> option string.
Variable json_dumps : Json -> string.

(** [os.environ.get(name, default)] *)
Definition environ_get (name default : string) : string :=
  match environ name with
  | Some v => v
  | None => default
  end.

Definition BLACKBIRD_CLIENT_KEY : string := environ_get "BLACKBIRD_CLIENT_KEY" "".
Definition BLACKBIRD_SECRET_KEY : string := environ_get "BLACKBIRD_SECRET_KEY" "".
Definition BLACKBIRD_USERNAME : string := environ_get "BLACKBIRD_USERNAME" "".
Definition BLACKBIRD_PASSWORD : string := environ_get "BLACKBIRD_PASSWORD" "".

(** The module-level client, built when the module is loaded. *)
Definition blackbird_api : M World BlackbirdApiClient.t :=
  __init__ (Some BLACKBIRD_CLIENT_KEY) (Some BLACKBIRD_SECRET_KEY)
           (Some BLACKBIRD_USERNAME) (Some BLACKBIRD_PASSWORD).

(** [check_context], run on the module-level client. *)
Definition check_context (context : string) : M St (option string) :=
  result <- submit_and_wait_resource context CONTEXT []
              BLACKBIRD_CONTEXT_MAX_RETRIES BLACKBIRD_CONTEXT_MAX_TIME
              BLACKBIRD_CONTEXT_CHECK_INTERVAL ;;
  ret (option_map json_dumps result).

(** [check_vision], run on the module-level client. *)
Definition check_vision (url : string) : M St (option string) :=
  result <- submit_and_wait_resource url VISION [("explain", JBool true)]
              BLACKBIRD_CONTEXT_MAX_RETRIES BLACKBIRD_CONTEXT_MAX_TIME
              BLACKBIRD_CONTEXT_CHECK_INTERVAL ;;
  ret (option_map json_dumps result).

End Server.

(** ** Counting and describing the effects of a call *)

Inductive Kind : Type := KAuth | KPost | KGet | KSleep | KBackoff | KLog.

Definition kind (e : Event) : Kind :=
  match e with
  | EvAuthPost _ _ => KAuth
  | EvRequest (POST _ _ _) => KPost
  | EvRequest (GET _ _) => KGet
  | EvSleep _ => KSleep
  | EvBackoff _ => KBackoff
  | EvInfoSubmitted _ | EvWarnFailed _ _ | EvWarnUnknown _ => KLog
  end.

Definition Kind_eqb (a b : Kind) : bool :=
  match a, b with
  | KAuth, KAuth | KPost, KPost | KGet, KGet | KSleep, KSleep
  | KBackoff, KBackoff | KLog, KLog => true
  | _, _ => false
  end.

(** Number of events of kind [k] in a trace. *)
Fixpoint count (k : Kind) (tr : list Event) : nat :=
  match tr with
  | [] => 0
  | e :: rest => (if Kind_eqb (kind e) k then 1 else 0) + count k rest
  end.

(** A budget gives, for each kind of event, how many a call may add. *)
Definition Budget : Type := Kind -> nat.

Definition within (b : Budget) (new : list Event) : Prop :=
  forall k : Kind, (count k new <= b k)%nat.

Definition budget_zero : Budget := fun _ => 0%nat.

Definition budget_add (a b : Budget) : Budget := fun k => (a k + b k)%nat.

Definition budget_scale (n : nat) (b : Budget) : Budget := fun k => (n * b k)%nat.

Definition budget_one (k0 : Kind) : Budget :=
  fun k => if Kind_eqb k0 k then 1%nat else 0%nat.

(** One reading of [bearer_token]: at most one credential exchange. *)
Definition bearer_budget : Budget := budget_one KAuth.

(** One attempt of a request of kind [k]. *)
Definition attempt_budget (k : Kind) : Budget :=
  budget_add bearer_budget (budget_one k).

(** A call retried up to [more] times: one attempt, then a wait and an
    attempt for each retry. *)
Fixpoint retry_budget (more : nat) (b : Budget) : Budget :=
  match more with
  | O => b
  | S more' => budget_add b (budget_add (budget_one KBackoff) (retry_budget more' b))
  end.

(** A decorated call: three attempts and two waits. *)
Definition call_budget (k : Kind) : Budget := retry_budget 2 (attempt_budget k).

(** One pass through the polling loop: a status check, a log line, a sleep. *)
Definition pass_budget : Budget :=
  budget_add (call_budget KGet) (budget_add (budget_one KLog) (budget_one KSleep)).

(** The client is configured with the identity endpoint [url] and the
    credential payload [data]. *)
Definition configured (url : string) (data : Dict) (s : St) : Prop :=
  _auth_url (self s) = url /\ _auth_payload (self s) = data.

(** What a call on behalf of [resource], [rt], [opts] may do, event by
    event: exchange the configured credentials, submit the resource to the
    endpoint of its kind, check a resource of that kind, sleep
    [check_interval], wait with bound 1 or 2, log. *)
Definition expected (url : string) (data : Dict) (resource : string)
    (rt : ResourceType) (opts : Dict) (check_interval : Z) (e : Event) : Prop :=
  match e with
  | EvAuthPost url' data' => url' = url /\ data' = data
  | EvRequest (POST to hdrs json) =>
      to = (BASE_URL ++ "/" ++ value rt)%string /\
      json = submit_body resource opts /\
      exists tok, hdrs = headers_of tok
  | EvRequest (GET to hdrs) =>
      (exists resource_id,
          to = Fmt (BASE_URL ++ "/" ++ value rt ++ "/")%string resource_id) /\
      exists tok, hdrs = headers_of tok
  | EvSleep seconds => seconds = check_interval
  | EvBackoff bound => bound = 1%Z \/ bound = 2%Z
  | EvInfoSubmitted _ | EvWarnFailed _ _ | EvWarnUnknown _ => True
  end.

(** A block of events stays within the budget [b] and every event of it
    satisfies [E]. *)
Definition fits (b : Budget) (E : Event -> Prop) (new : list Event) : Prop :=
  within b new /\ Forall E new.

(** A computation run on a client configured with [url] and [data] leaves
    the configuration alone, adds to the trace a block of events that
    satisfies [P], and returns only values that satisfy [Q]. *)
Definition yields {A : Type} (url : string) (data : Dict)
    (P : list Event -> Prop) (Q : A -> Prop) (m : M St A) : Prop :=
  forall (s : St) (r : Res A) (s' : St),
    configured url data s ->
    m s = (r, s') ->
    configured url data s' /\
    (exists new, trace_of s' = new ++ trace_of s /\ P new) /\
    (forall a, r = Ok a -> Q a).

(** The number of seconds a JSON value stands for in
    [time.time() + expires_in]. *)
Definition seconds_of (j : Json) : option Q :=
  match j with
  | JNum q => Some q
  | JBool b => Some (if b then 1 else 0)%Q
  | _ => None
  end.

(** A normalised result: a mapping that has an [input]. *)
Definition has_input (result : option Json) : Prop :=
  exists d i, result = Some (JObj d) /\ dict_get "input" d = Some i.

(** The cached token changes only through a credential exchange; the
    exchanges made so far are never forgotten. *)
Definition token_frame (s s' : St) : Prop :=
  (auth_calls (world s) <= auth_calls (world s'))%nat /\
  (token (self s') = token (self s)
   \/ (auth_calls (world s) < auth_calls (world s'))%nat).

(** While the cached token is never stale, nothing about the client
    changes and no credential exchange is made. *)
Definition valid_frame (s s' : St) : Prop :=
  never_stale s ->
  self s' = self s /\
  clock (world s') = clock (world s) /\
  auth_calls (world s') = auth_calls (world s).

(** A computation relates every state to the state it leaves. *)
Definition preserves {A : Type} (R : St -> St -> Prop) (m : M St A) : Prop :=
  forall (s : St) (r : Res A) (s' : St), m s = (r, s') -> R s s'.

(** A stub identity provider that answers every request with [reply]. *)
Definition provider_world (now : Q) (reply : NetReply) : World :=
  mkWorld (fun _ => now) 0 (fun _ _ _ => reply) 0 (api_status 200) 0 [].

(** A status payload that no [case] but the last can take, for a reason
    other than being an incomplete "success": it is not an object, or its
    [status] is missing or not a string, or is a string other than the three
    known ones, or is "failed" without an [error]. *)
Definition unrecognised (check : Json) : Prop :=
  match check with
  | JObj d =>
      match dict_get "status" d with
      | Some (JStr st) =>
          (st = "failed" /\ dict_get "error" d = None) \/
          (st <> "success" /\ st <> "processing" /\ st <> "failed")
      | _ => True
      end
  | _ => True
  end.

(** An environment given by a list of bindings. *)
Definition environ_of (bindings : list (string * string)) : string -> option string :=
  fun name =>
    match find (fun b => String.eqb (fst b) name) bindings with
    | Some b => Some (snd b)
    | None => None
    end.

(** ** The success shapes as the specification words them

    The specification speaks of a [context] object and of an [analysis]
    object; the patterns of the source only ask for the keys.  These
    definitions follow the words, to be compared with [case_context] and
    [case_analysis]. *)

Definition worded_context_shape (d : Dict) : Prop :=
  exists c i,
    dict_get "context" d = Some (JObj c) /\ dict_get "input" d = Some i.

Definition worded_analysis_shape (d : Dict) : Prop :=
  exists o i a,
    dict_get "options" d = Some o /\ dict_get "input" d = Some i /\
    dict_get "analysis" d = Some (JObj a).

(** Tagged "success" and of neither shape, in the words of the
    specification. *)
Definition worded_neither_shape (d : Dict) : Prop :=
  dict_get "status" d = Some (JStr "success") /\
  ~ worded_context_shape d /\
  ~ worded_analysis_shape d.

(** The cached token is not judged stale at the next reading of the
    clock. *)
Definition fresh_now (s : St) : Prop :=
  (clock (world s) (ticks (world s)) - (1#2)
   <= Token.expiration_time (token (self s)))%Q.

(** * Properties *)

(** ** Resource kinds *)

(** C2, as the code has it: the path segments bound to the two resource
    kinds are [compass/contextChecks] and [compass/visionAnalyses], and the
    submission URL of a kind is the base URL followed by its segment. *)
Theorem resource_type_paths :
  value CONTEXT = "compass/contextChecks" /\
  value VISION = "compass/visionAnalyses" /\
  (BASE_URL ++ "/" ++ value CONTEXT)%string
    = "https://api.blackbird.ai/compass/contextChecks" /\
  (BASE_URL ++ "/" ++ value VISION)%string
    = "https://api.blackbird.ai/compass/visionAnalyses".
Proof. repeat split. Qed.

(** C2, as the specification words it, does not hold: neither segment is
    [context-checks] or [vision-analyses]. *)
Lemma resource_type_paths_not_kebab :
  ~ (value CONTEXT = "context-checks" /\ value VISION = "vision-analyses").
Proof. intros [H _]. discriminate H. Qed.

(** ** Construction *)

Lemma init_password_grant (client_id client_secret username password : option string)
    (w : World) :
  str_truthy username = true ->
  str_truthy password = true ->
  __init__ client_id client_secret username password w
  = __init__ None None username password w.
Proof.
  intros Hu Hp. unfold __init__. rewrite Hu, Hp. reflexivity.
Qed.

Lemma new_token_trace (url : string) (data : Dict) (w : World) :
  trace (snd (__new_token url data w)) = EvAuthPost url data :: trace w.
Proof.
  unfold __new_token, bind, httpx_post.
  destruct (auth_server w (auth_calls w) url data) as [[c [j|]]|]; simpl; try reflexivity.
  destruct j; simpl; try reflexivity.
  destruct (dict_get "error" d); simpl; try reflexivity.
  destruct (dict_get "access_token" d); simpl; try reflexivity.
  destruct (dict_get "expires_in" d) as [e|]; simpl; try reflexivity.
  destruct e; reflexivity.
Qed.

(** C7: with neither credential pair populated, the constructor raises
    [ValueError] and leaves the world as it found it: no request is sent to
    an identity provider, nothing is read, nothing is logged. *)
Theorem init_without_credentials
    (client_id client_secret username password : option string) (w : World) :
  str_truthy username && str_truthy password = false ->
  str_truthy client_id && str_truthy client_secret = false ->
  __init__ client_id client_secret username password w
  = (Raise (ValueError
       "Either username and password or client_id and client_secret must be provided"),
     w).
Proof.
  intros Hup Hcc. unfold __init__. rewrite Hup, Hcc. reflexivity.
Qed.

Lemma init_without_credentials_witness :
  __init__ (Some "") None None (Some "secret") (frozen_world 0 (api_status 200))
  = (Raise (ValueError
       "Either username and password or client_id and client_secret must be provided"),
     frozen_world 0 (api_status 200)).
Proof.
  apply init_without_credentials; reflexivity.
Defined.

(** C9: when both credential pairs are given non-empty, the constructor
    takes the password grant.  It behaves as if the client pair had not been
    given at all; it sends exactly one request, to the service's own token
    endpoint with body [{username, password, grant_type: "password"}]; and a
    client that comes out of it is configured with that endpoint and body. *)
Theorem init_prefers_password_grant
    (client_id client_secret username password : string) (w : World) :
  client_id <> "" -> client_secret <> "" -> username <> "" -> password <> "" ->
  let url := "https://api.blackbird.ai/compass/token" in
  let payload := [("username", JStr username); ("password", JStr password);
                  ("grant_type", JStr "password")] in
  let run := __init__ (Some client_id) (Some client_secret)
                      (Some username) (Some password) w in
  run = __init__ None None (Some username) (Some password) w /\
  run = (tok <- __new_token url payload ;; ret (mk url payload tok)) w /\
  trace (snd run) = EvAuthPost url payload :: trace w /\
  (forall c : t, fst run = Ok c -> _auth_url c = url /\ _auth_payload c = payload).
Proof.
  intros _ _ Hu Hp url payload run.
  assert (Tu : str_truthy (Some username) = true)
    by (simpl; apply negb_true_iff, String.eqb_neq; exact Hu).
  assert (Tp : str_truthy (Some password) = true)
    by (simpl; apply negb_true_iff, String.eqb_neq; exact Hp).
  assert (E : run = (tok <- __new_token url payload ;; ret (mk url payload tok)) w).
  { unfold run, __init__. rewrite Tu, Tp. reflexivity. }
  split; [apply init_password_grant; assumption|].
  split; [exact E|].
  rewrite E. unfold bind.
  pose proof (new_token_trace url payload w) as T.
  destruct (__new_token url payload w) as [[tok|e] w']; simpl in *.
  - split; [exact T|]. intros c Hc. injection Hc as <-. split; reflexivity.
  - split; [exact T|]. intros c Hc. discriminate Hc.
Qed.

Lemma init_prefers_password_grant_witness :
  fst (__init__ (Some "id") (Some "key") (Some "alice") (Some "secret")
         (frozen_world 0 (api_status 200)))
  = Ok (mk "https://api.blackbird.ai/compass/token"
           [("username", JStr "alice"); ("password", JStr "secret");
            ("grant_type", JStr "password")]
           (Token.mk (JStr "fresh") (0 + 3600))).
Proof.
  destruct (init_prefers_password_grant "id" "key" "alice" "secret"
              (frozen_world 0 (api_status 200)))
    as (_ & E & _); try discriminate.
  rewrite E. reflexivity.
Defined.

(** ** The bearer token *)

Lemma Qgtb_false (a b : Q) : (a <= b)%Q -> Qgtb a b = false.
Proof.
  intro H. unfold Qgtb, Qltb. apply negb_false_iff, Qle_bool_iff. exact H.
Qed.

Lemma Qltb_true (a b : Q) : (a < b)%Q -> Qltb a b = true.
Proof.
  intro H. unfold Qltb. apply negb_true_iff.
  destruct (Qle_bool b a) eqn:E; [|reflexivity].
  apply Qle_bool_iff in E. exfalso. apply (Qlt_not_le _ _ H E).
Qed.

(** When the guard of [bearer_token] is false the cached value is returned
    and only the clock has been read. *)
Lemma bearer_token_cached (s : St) :
  Qgtb (clock (world s) (ticks (world s)) - (1#2))
       (Token.expiration_time (token (self s))) = false ->
  bearer_token s
  = (Ok (Fmt "Bearer " (Token.token (token (self s)))), on_world tick s).
Proof.
  intro G. unfold bearer_token, bind, lift, time_time, get_self. simpl.
  rewrite G. reflexivity.
Qed.

(** The refresh is due only once the token has been expired for more than
    half a second: up to then the cached value is returned. *)
Lemma bearer_token_grace (s : St) :
  (clock (world s) (ticks (world s))
   <= Token.expiration_time (token (self s)) + (1#2))%Q ->
  bearer_token s
  = (Ok (Fmt "Bearer " (Token.token (token (self s)))), on_world tick s).
Proof.
  intro H. apply bearer_token_cached, Qgtb_false. lra.
Qed.

Lemma on_world_iter_tick (n : nat) (s : St) :
  on_world (Nat.iter n tick) (on_world tick s) = on_world (Nat.iter (S n) tick) s.
Proof.
  unfold on_world. simpl self. simpl world. f_equal.
  induction n as [|n IH]; simpl; [reflexivity|].
  simpl in IH. rewrite IH. reflexivity.
Qed.

Lemma iter_tick_fields (n : nat) (w : World) :
  clock (Nat.iter n tick w) = clock w /\
  ticks (Nat.iter n tick w) = (n + ticks w)%nat /\
  auth_calls (Nat.iter n tick w) = auth_calls w /\
  api_calls (Nat.iter n tick w) = api_calls w /\
  trace (Nat.iter n tick w) = trace w.
Proof.
  induction n as [|n (C & T & A & P & R)]; simpl; [tauto|].
  rewrite C, T, A, P, R. tauto.
Qed.

(** C8: while the cached token is inside its validity window at every
    reading of the clock, [n] successive reads of [bearer_token] return [n]
    times the same value, built from the cached token; the cached token is
    left as it was, no request reaches the identity provider and the trace
    of effects does not grow: only the clock has been read, [n] times. *)
Theorem bearer_token_idempotent (n : nat) (s : St) :
  (forall i : nat, (ticks (world s) <= i < ticks (world s) + n)%nat -> in_window s i) ->
  bearer_calls n s
  = (Ok (repeat (Fmt "Bearer " (Token.token (token (self s)))) n),
     on_world (Nat.iter n tick) s) /\
  self (snd (bearer_calls n s)) = self s /\
  auth_calls (world (snd (bearer_calls n s))) = auth_calls (world s) /\
  trace (world (snd (bearer_calls n s))) = trace (world s).
Proof.
  intro W.
  assert (E : bearer_calls n s
              = (Ok (repeat (Fmt "Bearer " (Token.token (token (self s)))) n),
                 on_world (Nat.iter n tick) s)).
  { revert s W. induction n as [|n IH]; intros s W.
    - destruct s as [c w]. reflexivity.
    - cbn [bearer_calls]. unfold bind at 1.
      rewrite bearer_token_cached.
      + unfold bind at 1. rewrite IH.
        * unfold ret. rewrite on_world_iter_tick. reflexivity.
        * intros i Hi. apply (W i). simpl in Hi. lia.
      + apply Qgtb_false.
        assert (H := W (ticks (world s))). unfold in_window in H.
        assert (H' := H ltac:(lia)). lra. }
  rewrite E. simpl.
  destruct (iter_tick_fields n (world s)) as (_ & _ & A & _ & R).
  auto.
Qed.

Lemma bearer_token_idempotent_witness :
  bearer_calls 3 (mkSt (cached_client 100) (frozen_world 7 (api_status 200)))
  = (Ok [Fmt "Bearer " (JStr "cached"); Fmt "Bearer " (JStr "cached");
         Fmt "Bearer " (JStr "cached")],
     on_world (Nat.iter 3 tick)
       (mkSt (cached_client 100) (frozen_world 7 (api_status 200)))).
Proof.
  apply (bearer_token_idempotent 3
           (mkSt (cached_client 100) (frozen_world 7 (api_status 200)))).
  intros i _. unfold in_window. simpl. reflexivity.
Defined.

(** C1, at a failing input: the cached token expired at 100, the clock
    reads 100.25.  The expiry less the buffer is not in the future, the
    token is even past its expiry, and [bearer_token] still returns it
    without a refresh: no request is made, the cache is untouched. *)
Theorem bearer_token_returns_expired_token :
  let s := mkSt (cached_client 100) (frozen_world (401#4) (api_status 200)) in
  let now := clock (world s) (ticks (world s)) in
  (Token.expiration_time (token (self s)) - (1#2) <= now)%Q /\
  (Token.expiration_time (token (self s)) < now)%Q /\
  bearer_token s = (Ok (Fmt "Bearer " (JStr "cached")), on_world tick s) /\
  auth_calls (world (snd (bearer_token s))) = 0%nat.
Proof.
  cbv zeta. repeat split; discriminate.
Qed.

(** ** Requests under a token that stays valid *)

Lemma never_stale_on_world (f : World -> World) (s : St) :
  (forall w, clock (f w) = clock w) ->
  never_stale s -> never_stale (on_world f s).
Proof.
  intros Hf H i. unfold on_world. simpl. rewrite Hf. apply H.
Qed.

Lemma never_stale_attempted (req : Request) (s : St) :
  never_stale s -> never_stale (attempted req s).
Proof. intros H i. apply H. Qed.

Lemma never_stale_backed_off (b : Z) (s : St) :
  never_stale s -> never_stale (backed_off b s).
Proof. intros H i. apply H. Qed.

Lemma headers_cached (s : St) :
  never_stale s ->
  headers s = (Ok (headers_of (Token.token (token (self s)))), on_world tick s).
Proof.
  intro H. unfold headers, bind. rewrite bearer_token_cached.
  - reflexivity.
  - apply Qgtb_false, H.
Qed.

(** One attempt of a submission, by the reply it gets. *)
Lemma submit_wrapped_reply (resource : string) (rt : ResourceType) (opts : Dict)
    (s : St) :
  never_stale s ->
  let req := submit_request resource rt opts (Token.token (token (self s))) in
  _submit_resource_type_wrapped resource rt opts s
  = match api_server (world s) (api_calls (world s)) req with
    | NetFail => (Raise TransportError, attempted req s)
    | Reply response =>
        if is_200_or_202 (status_code response) then
          (data <- response_json response ;; subscript data "id") (attempted req s)
        else if (status_code response =? 500)%Z then
          (Raise (RetryableError (SubmitRetry response)), attempted req s)
        else
          (Raise (RuntimeError (SubmitFailed response)), attempted req s)
    end.
Proof.
  intros H req. unfold _submit_resource_type_wrapped.
  fold (submit_body resource opts). unfold bind at 1.
  rewrite (headers_cached s H). unfold bind at 1, lift, session_send.
  cbn [world self on_world tick api_server api_calls].
  subst req. unfold submit_request, attempted, on_world.
  cbn [world self].
  destruct (api_server (world s) (api_calls (world s)) _) as [response|];
    cbn [of_reply]; [|reflexivity].
  destruct (is_200_or_202 (status_code response)); [reflexivity|].
  destruct (status_code response =? 500)%Z; reflexivity.
Qed.

(** ** The retry decorator *)

Section Backoff.
Context {A : Type} (target : M St A).

Lemma backoff_retry_ok (more n : nat) (s s' : St) (v : A) :
  target s = (Ok v, s') -> backoff_retry more n target s = (Ok v, s').
Proof. intro H. destruct more; simpl; rewrite H; reflexivity. Qed.

Lemma backoff_retry_fatal (more n : nat) (s s' : St) (e : Exn) :
  target s = (Raise e, s') ->
  (forall i, e <> RetryableError i) ->
  backoff_retry more n target s = (Raise e, s').
Proof.
  intros H N. destruct more; simpl; rewrite H;
    destruct e; try reflexivity; exfalso; eapply N; reflexivity.
Qed.

Lemma backoff_retry_again (more n : nat) (s s' : St) (i : RetryableInfo) :
  target s = (Raise (RetryableError i), s') ->
  backoff_retry (S more) n target s
  = backoff_retry more (S n) target (backed_off (2 ^ Z.of_nat n) s').
Proof. intro H. simpl. rewrite H. reflexivity. Qed.

Lemma backoff_retry_giveup (n : nat) (s s' : St) (i : RetryableInfo) :
  target s = (Raise (RetryableError i), s') ->
  backoff_retry 0 n target s = (Raise (RetryableError i), s').
Proof. intro H. simpl. rewrite H. reflexivity. Qed.

(** With [max_tries=3]: what the decorated call does after a first
    [RetryableError]. *)
Lemma on_exception_3_retry (s s1 : St) (i1 : RetryableInfo) :
  target s = (Raise (RetryableError i1), s1) ->
  on_exception 3 target s
  = match target (backed_off 1 s1) with
    | (Raise (RetryableError _), s2) => target (backed_off 2 s2)
    | r => r
    end.
Proof.
  intro H. unfold on_exception. cbn [pred].
  rewrite (backoff_retry_again _ _ _ _ _ H). cbn [Z.of_nat Z.pow Z.pow_pos Pos.iter].
  destruct (target (backed_off 1 s1)) as [[v|e] s2] eqn:E2.
  - apply backoff_retry_ok. exact E2.
  - destruct e;
      try (apply backoff_retry_fatal; [exact E2 | intros j; discriminate]).
    rewrite (backoff_retry_again _ _ _ _ _ E2).
    change (2 ^ Z.of_nat 1)%Z with 2%Z.
    destruct (target (backed_off 2 s2)) as [[v|e] s3] eqn:E3.
    + apply backoff_retry_ok. exact E3.
    + destruct e;
        try (apply backoff_retry_fatal; [exact E3 | intros j; discriminate]).
      apply backoff_retry_giveup. exact E3.
Qed.

End Backoff.

(** ** Where [RetryableError] comes from *)

Ltac break_match :=
  match goal with
  | |- context [match ?x with _ => _ end] => destruct x eqn:?
  | H : context [match ?x with _ => _ end] |- _ => destruct x eqn:?
  end.

Lemma new_token_not_retryable (url : string) (data : Dict) (w w' : World) (e : Exn) :
  __new_token url data w = (Raise e, w') -> forall i, e <> RetryableError i.
Proof.
  unfold __new_token, bind, httpx_post, of_reply, response_json, float_add,
    time_time, raise, ret.
  intros H i ->.
  repeat (break_match; try congruence).
Qed.

Lemma bearer_token_not_retryable (s s' : St) (e : Exn) :
  bearer_token s = (Raise e, s') -> forall i, e <> RetryableError i.
Proof.
  unfold bearer_token, bind, lift, time_time, get_self, set_token, ret.
  cbn [world self].
  intros H i ->.
  destruct (Qgtb _ _); [|discriminate].
  destruct (__new_token _ _ _) as [[tok|e] w1] eqn:E; [discriminate|].
  injection H as -> _.
  exact (new_token_not_retryable _ _ _ _ _ E i eq_refl).
Qed.

Lemma headers_not_retryable (s s' : St) (e : Exn) :
  headers s = (Raise e, s') -> forall i, e <> RetryableError i.
Proof.
  unfold headers, bind. intros H.
  destruct (bearer_token s) as [[v|e1] s1] eqn:E; [discriminate|].
  injection H as <- _. exact (bearer_token_not_retryable _ _ _ E).
Qed.

(** An attempt of a submission raises [RetryableError] only for a response
    with status 500. *)
Lemma submit_wrapped_retryable (resource : string) (rt : ResourceType) (opts : Dict)
    (s s' : St) (i : RetryableInfo) :
  _submit_resource_type_wrapped resource rt opts s = (Raise (RetryableError i), s') ->
  exists response, i = SubmitRetry response /\ status_code response = 500%Z.
Proof.
  unfold _submit_resource_type_wrapped, bind at 1. intro H.
  destruct (headers s) as [[h|e] s1] eqn:E.
  - unfold bind at 1, lift, session_send in H.
    destruct (api_server _ _ _) as [response|]; cbn [of_reply] in H;
      [|discriminate].
    destruct (is_200_or_202 (status_code response)).
    + exfalso. unfold bind, response_json, subscript, raise, ret in H.
      repeat (break_match; try congruence).
    + destruct (status_code response =? 500)%Z eqn:C; [|discriminate].
      injection H as <- _. exists response. split; [reflexivity|].
      apply Z.eqb_eq. exact C.
  - injection H as -> _. exfalso.
    exact (headers_not_retryable _ _ _ E i eq_refl).
Qed.

(** ** Submission *)

(** C5: the retry policy of [_submit_resource_type].
    - An attempt that returns ends the call with that value.
    - A failed attempt is retried only when it raised [RetryableError], and
      an attempt raises it only for a response with status 500; any other
      exception propagates from the first attempt.
    - After a [RetryableError] the call waits (bound 1), tries again, after a
      second one waits (bound 2) and tries a third and last time, whose
      outcome is final.
    - Responses 500, 500, 200: the identifier of the third response is
      returned after exactly three requests, with the waits 1 and 2 between
      them.
    - Response 404: the call fails with the non-retryable error after
      exactly one request.
    The two scenarios are stated while the cached token stays valid, so
    that the requests of the submission are the only ones. *)
Theorem submit_retry_policy (resource : string) (rt : ResourceType) (opts : Dict) :
  let attempt := _submit_resource_type_wrapped resource rt opts in
  let submit := _submit_resource_type resource rt opts in
  (forall s v s', attempt s = (Ok v, s') -> submit s = (Ok v, s')) /\
  (forall s e s',
      attempt s = (Raise e, s') ->
      (forall i, e <> RetryableError i) ->
      submit s = (Raise e, s')) /\
  (forall s i s',
      attempt s = (Raise (RetryableError i), s') ->
      exists response, i = SubmitRetry response /\ status_code response = 500%Z) /\
  (forall s i1 s1,
      attempt s = (Raise (RetryableError i1), s1) ->
      submit s = match attempt (backed_off 1 s1) with
                 | (Raise (RetryableError _), s2) => attempt (backed_off 2 s2)
                 | r => r
                 end) /\
  (forall s r1 r2 r3 d resource_id,
      never_stale s ->
      api_replies s 0 r1 -> api_replies s 1 r2 -> api_replies s 2 r3 ->
      status_code r1 = 500%Z -> status_code r2 = 500%Z -> status_code r3 = 200%Z ->
      body r3 = Some (JObj d) -> dict_get "id" d = Some resource_id ->
      let req := submit_request resource rt opts (Token.token (token (self s))) in
      exists s',
        submit s = (Ok resource_id, s') /\
        trace (world s')
        = [EvRequest req; EvBackoff 2; EvRequest req; EvBackoff 1; EvRequest req]
            ++ trace (world s) /\
        submissions (trace (world s')) = (3 + submissions (trace (world s)))%nat /\
        api_calls (world s') = (api_calls (world s) + 3)%nat) /\
  (forall s r,
      never_stale s ->
      api_replies s 0 r -> status_code r = 404%Z ->
      let req := submit_request resource rt opts (Token.token (token (self s))) in
      exists s',
        submit s = (Raise (RuntimeError (SubmitFailed r)), s') /\
        trace (world s') = EvRequest req :: trace (world s) /\
        submissions (trace (world s')) = S (submissions (trace (world s))) /\
        api_calls (world s') = S (api_calls (world s))).
Proof.
  intros attempt submit.
  split; [intros s v s' H; apply backoff_retry_ok; exact H|].
  split; [intros s e s' H N; apply backoff_retry_fatal; assumption|].
  split; [intros s i s' H; exact (submit_wrapped_retryable _ _ _ _ _ _ H)|].
  split; [intros s i1 s1 H; exact (on_exception_3_retry _ _ _ _ H)|].
  split.
  - intros s r1 r2 r3 d rid V R1 R2 R3 C1 C2 C3 B I req.
    set (s1 := attempted req s).
    set (s2 := attempted req (backed_off 1 s1)).
    set (s3 := attempted req (backed_off 2 s2)).
    assert (A1 : attempt s = (Raise (RetryableError (SubmitRetry r1)), s1)).
    { unfold attempt. rewrite (submit_wrapped_reply _ _ _ _ V). fold req.
      specialize (R1 req). rewrite Nat.add_0_r in R1. rewrite R1.
      unfold is_200_or_202. rewrite C1. reflexivity. }
    assert (V1 : never_stale (backed_off 1 s1))
      by (apply never_stale_backed_off, never_stale_attempted, V).
    assert (A2 : attempt (backed_off 1 s1)
                 = (Raise (RetryableError (SubmitRetry r2)), s2)).
    { unfold attempt. rewrite (submit_wrapped_reply _ _ _ _ V1).
      change (self (backed_off 1 s1)) with (self s). fold req.
      change (api_server (world (backed_off 1 s1))
                (api_calls (world (backed_off 1 s1))) req)
        with (api_server (world s) (S (api_calls (world s))) req).
      specialize (R2 req). rewrite Nat.add_1_r in R2. rewrite R2.
      unfold is_200_or_202. rewrite C2. reflexivity. }
    assert (V2 : never_stale (backed_off 2 s2))
      by (apply never_stale_backed_off, never_stale_attempted, V1).
    assert (A3 : attempt (backed_off 2 s2) = (Ok rid, s3)).
    { unfold attempt. rewrite (submit_wrapped_reply _ _ _ _ V2).
      change (self (backed_off 2 s2)) with (self s). fold req.
      change (api_server (world (backed_off 2 s2))
                (api_calls (world (backed_off 2 s2))) req)
        with (api_server (world s) (S (S (api_calls (world s)))) req).
      specialize (R3 req).
      replace (api_calls (world s) + 2)%nat with (S (S (api_calls (world s))))
        in R3 by lia.
      rewrite R3. unfold is_200_or_202. rewrite C3. cbn [Z.eqb orb].
      unfold bind, response_json. rewrite B. unfold ret, subscript.
      rewrite I. reflexivity. }
    exists s3. split.
    + unfold submit, _submit_resource_type. fold attempt.
      rewrite (on_exception_3_retry _ _ _ _ A1).
      rewrite A2, A3. reflexivity.
    + split; [reflexivity|]. split; [reflexivity|]. simpl. lia.
  - intros s r V R C req. exists (attempted req s).
    assert (A1 : attempt s = (Raise (RuntimeError (SubmitFailed r)), attempted req s)).
    { unfold attempt. rewrite (submit_wrapped_reply _ _ _ _ V). fold req.
      specialize (R req). rewrite Nat.add_0_r in R. rewrite R.
      unfold is_200_or_202. rewrite C. reflexivity. }
    split.
    + apply backoff_retry_fatal; [exact A1 | intros i; discriminate].
    + repeat split.
Qed.

Lemma submit_retry_policy_witness :
  let submit := _submit_resource_type "some text" CONTEXT [] in
  let client := cached_client 100 in
  let accepting := mkSt client (frozen_world 7 (api_script [200]%Z
                                                  (JObj [("id", JStr "r-1")]))) in
  let recovering := mkSt client (frozen_world 7 (api_script [500; 500; 200]%Z
                                                   (JObj [("id", JStr "r-1")]))) in
  let failing := mkSt client (frozen_world 7 (api_status 500)) in
  let missing := mkSt client (frozen_world 7 (api_status 404)) in
  fst (submit accepting) = Ok (JStr "r-1") /\
  fst (submit missing) = Raise (RuntimeError (SubmitFailed (mkResponse 404 None))) /\
  (exists response,
      SubmitRetry (mkResponse 500 None) = SubmitRetry response /\
      status_code response = 500%Z) /\
  fst (submit failing) = Raise (RetryableError (SubmitRetry (mkResponse 500 None))) /\
  fst (submit recovering) = Ok (JStr "r-1") /\
  api_calls (world (snd (submit missing))) = 1%nat.
Proof.
  intros submit client accepting recovering failing missing. subst submit.
  set (req := submit_request "some text" CONTEXT [] (JStr "cached")).
  destruct (submit_retry_policy "some text" CONTEXT [])
    as (Returns & Propagates & Only500 & Again & Retry & Fatal).
  split; [|split; [|split; [|split; [|split]]]].
  - rewrite (Returns accepting (JStr "r-1") (attempted req accepting) eq_refl).
    reflexivity.
  - rewrite (Propagates missing
               (RuntimeError (SubmitFailed (mkResponse 404 None)))
               (attempted req missing) eq_refl);
      [reflexivity | intros i; discriminate].
  - exact (Only500 failing (SubmitRetry (mkResponse 500 None))
             (attempted req failing) eq_refl).
  - rewrite (Again failing (SubmitRetry (mkResponse 500 None))
               (attempted req failing) eq_refl).
    reflexivity.
  - assert (V : never_stale recovering) by (intros i; simpl; discriminate).
    assert (R1 : api_replies recovering 0
                   (mkResponse 500 (Some (JObj [("id", JStr "r-1")]))))
      by (intros r; reflexivity).
    assert (R2 : api_replies recovering 1
                   (mkResponse 500 (Some (JObj [("id", JStr "r-1")]))))
      by (intros r; reflexivity).
    assert (R3 : api_replies recovering 2
                   (mkResponse 200 (Some (JObj [("id", JStr "r-1")]))))
      by (intros r; reflexivity).
    destruct (Retry recovering _ _ _ [("id", JStr "r-1")] (JStr "r-1") V R1 R2 R3
                eq_refl eq_refl eq_refl eq_refl eq_refl) as (s' & E & _).
    rewrite E. reflexivity.
  - assert (V : never_stale missing) by (intros i; simpl; discriminate).
    assert (R : api_replies missing 0 (mkResponse 404 None))
      by (intros r; reflexivity).
    destruct (Fatal missing _ V R eq_refl) as (s' & E & _ & _ & Calls).
    rewrite E. exact Calls.
Defined.

(** ** Status checks *)

Lemma check_wrapped_reply (resource_id : Json) (rt : ResourceType) (s : St) :
  never_stale s ->
  let req := check_request resource_id rt (Token.token (token (self s))) in
  _check_resource_type_wrapped resource_id rt s
  = match api_server (world s) (api_calls (world s)) req with
    | NetFail => (Raise TransportError, attempted req s)
    | Reply response =>
        if is_200_or_202 (status_code response) then
          response_json response (attempted req s)
        else if (status_code response =? 500)%Z then
          (Raise (RetryableError (CheckRetry rt resource_id)), attempted req s)
        else if (status_code response <? 500)%Z && (400 <=? status_code response)%Z
        then (Raise (RuntimeError (NotFound rt resource_id response)),
              attempted req s)
        else (Raise (RuntimeError (SubmitFailed response)), attempted req s)
    end.
Proof.
  intros H req. unfold _check_resource_type_wrapped. unfold bind at 1.
  rewrite (headers_cached s H). unfold bind at 1, lift, session_send.
  cbn [world self on_world tick api_server api_calls].
  subst req. unfold check_request, attempted, on_world.
  cbn [world self].
  destruct (api_server (world s) (api_calls (world s)) _) as [response|];
    cbn [of_reply]; [|reflexivity].
  destruct (is_200_or_202 (status_code response)); [reflexivity|].
  destruct (status_code response =? 500)%Z; [reflexivity|].
  destruct ((status_code response <? 500)%Z && (400 <=? status_code response)%Z);
    reflexivity.
Qed.

(** A status check answered 200 or 202 with JSON returns that JSON after one
    request. *)
Lemma check_answered (resource_id : Json) (rt : ResourceType) (s : St)
    (c : Z) (j : Json) :
  never_stale s ->
  let req := check_request resource_id rt (Token.token (token (self s))) in
  api_server (world s) (api_calls (world s)) req = answer c j ->
  is_200_or_202 c = true ->
  _check_resource_type resource_id rt s = (Ok j, attempted req s).
Proof.
  intros V req R C. apply backoff_retry_ok.
  rewrite (check_wrapped_reply _ _ _ V). fold req. rewrite R.
  unfold answer. cbn [status_code]. rewrite C. reflexivity.
Qed.

(** ** The cases of the [match] statement *)

Lemma status_is_exclusive (d : Dict) (a b : string) :
  dict_get "status" d = Some (JStr a) -> a <> b -> status_is d b = false.
Proof.
  intros H N. unfold status_is. rewrite H. apply String.eqb_neq. exact N.
Qed.

Lemma status_is_here (d : Dict) (a : string) :
  dict_get "status" d = Some (JStr a) -> status_is d a = true.
Proof.
  intros H. unfold status_is. rewrite H. apply String.eqb_refl.
Qed.

(** A payload that is "processing" or an unmatched "success" is taken by
    neither success [case] nor by the "failed" one. *)
Lemma pending_cases (d : Dict) :
  processing d \/ unmatched_success d ->
  case_context (JObj d) = None /\
  case_analysis (JObj d) = None /\
  (case_processing (JObj d) = true \/
   (case_processing (JObj d) = false /\ case_failed (JObj d) = None)).
Proof.
  intros [St | (St & Hc & Ha)]; cbn [case_context case_analysis case_processing
                                     case_failed].
  - rewrite (status_is_exclusive d "processing" "success" St) by discriminate.
    rewrite (status_is_here d "processing" St). auto.
  - rewrite (status_is_here d "success" St).
    rewrite (status_is_exclusive d "success" "processing" St) by discriminate.
    rewrite (status_is_exclusive d "success" "failed" St) by discriminate.
    split; [|split; [|right; split; reflexivity]].
    + destruct Hc as [-> | ->]; [reflexivity|].
      destruct (dict_get "context" d); reflexivity.
    + destruct Ha as [-> | [-> | ->]]; [reflexivity| |].
      * destruct (dict_get "options" d); reflexivity.
      * destruct (dict_get "options" d); [|reflexivity].
        destruct (dict_get "input" d); reflexivity.
Qed.

(** ** One pass through the polling loop *)

Section Poll.
Variables (resource_id : Json) (rt : ResourceType).
Variables (max_retries max_time check_interval : Z) (cutoff : Q).

Local Abbreviation loop fuel :=
  (poll fuel resource_id rt max_retries max_time check_interval cutoff).

(** The guard fails: the loop is left and the timeout error is raised, with
    the current [retries] and [error]. *)
Lemma poll_exhausted_retries (fuel : nat) (retries : Z) (error : Json) (s : St) :
  (max_retries < retries)%Z ->
  loop (S fuel) retries error s
  = (Raise (RuntimeError (Retried retries max_time error)), s).
Proof.
  intro H. cbn [poll].
  replace (retries <=? max_retries)%Z with false
    by (symmetry; apply Z.leb_gt; exact H).
  reflexivity.
Qed.

Lemma poll_exhausted_time (fuel : nat) (retries : Z) (error : Json) (s : St) :
  (retries <= max_retries)%Z ->
  (cutoff <= clock (world s) (ticks (world s)))%Q ->
  loop (S fuel) retries error s
  = (Raise (RuntimeError (Retried retries max_time error)), on_world tick s).
Proof.
  intros H T. cbn [poll].
  replace (retries <=? max_retries)%Z with true
    by (symmetry; apply Z.leb_le; exact H).
  unfold bind at 1. unfold bind at 1. unfold lift, time_time. cbn [world self].
  unfold ret at 1. unfold Qltb.
  replace (Qle_bool cutoff (clock (world s) (ticks (world s)))) with true
    by (symmetry; apply Qle_bool_iff; exact T).
  reflexivity.
Qed.

(** The guard holds and the status check returns [check]: the [match]
    statement runs on [check] in the state the check left. *)
Lemma poll_checked (fuel : nat) (retries : Z) (error : Json) (s s1 : St)
    (check : Json) :
  (retries <= max_retries)%Z ->
  (clock (world s) (ticks (world s)) < cutoff)%Q ->
  _check_resource_type resource_id rt (on_world tick s) = (Ok check, s1) ->
  loop (S fuel) retries error s
  = match case_context check with
    | Some (data, _input) =>
        (d <- unpack data ;; ret (Some (JObj (dict_set "input" _input d)))) s1
    | None =>
    match case_analysis check with
    | Some (options, _input, analysis) =>
        (d <- unpack analysis ;;
         ret (Some (JObj (dict_set "input" _input (dict_set "options" options d)))))
          s1
    | None =>
    if case_processing check then
      loop fuel (retries + 1)%Z error (slept check_interval s1)
    else
    match case_failed check with
    | Some err =>
        loop fuel (retries + 1)%Z err
             (slept check_interval (logged (EvWarnFailed check err) s1))
    | None =>
        loop fuel (retries + 1)%Z error
             (slept check_interval (logged (EvWarnUnknown check) s1))
    end end end.
Proof.
  intros H T C. cbn [poll].
  replace (retries <=? max_retries)%Z with true
    by (symmetry; apply Z.leb_le; exact H).
  unfold bind at 1. unfold bind at 1. unfold lift at 1, time_time.
  cbn [world self]. unfold ret at 1.
  rewrite (Qltb_true _ _ T).
  change (mkSt (self s) (tick (world s))) with (on_world tick s).
  unfold bind at 1. rewrite C.
  destruct (case_context check) as [[data _input]|]; [reflexivity|].
  destruct (case_analysis check) as [[[options _input] analysis]|]; [reflexivity|].
  destruct (case_processing check); [reflexivity|].
  destruct (case_failed check) as [err|]; reflexivity.
Qed.

(** The guard holds and the status check raises: the exception leaves the
    loop. *)
Lemma poll_check_raised (fuel : nat) (retries : Z) (error : Json) (s s1 : St)
    (e : Exn) :
  (retries <= max_retries)%Z ->
  (clock (world s) (ticks (world s)) < cutoff)%Q ->
  _check_resource_type resource_id rt (on_world tick s) = (Raise e, s1) ->
  loop (S fuel) retries error s = (Raise e, s1).
Proof.
  intros L T C. cbn [poll].
  replace (retries <=? max_retries)%Z with true
    by (symmetry; apply Z.leb_le; exact L).
  unfold bind at 1. unfold bind at 1. unfold lift at 1, time_time.
  cbn [world self]. unfold ret at 1. rewrite (Qltb_true _ _ T).
  change (mkSt (self s) (tick (world s))) with (on_world tick s).
  unfold bind at 1. rewrite C. reflexivity.
Qed.

(** The loop always ends: given more fuel than the retries left, [poll]
    returns a result or raises, it never runs out of fuel. *)
Lemma poll_total (fuel : nat) :
  forall (retries : Z) (error : Json) (s : St),
    (Z.to_nat (max_retries + 1 - retries) < fuel)%nat ->
    fst (loop fuel retries error s) <> Ok None.
Proof.
  induction fuel as [|fuel IH]; intros retries error s F; [lia|].
  destruct (Z.leb_spec retries max_retries) as [L|L].
  2: { rewrite poll_exhausted_retries by exact L. discriminate. }
  destruct (Qlt_le_dec (clock (world s) (ticks (world s))) cutoff) as [T|T].
  2: { rewrite poll_exhausted_time by assumption. discriminate. }
  destruct (_check_resource_type resource_id rt (on_world tick s))
    as [[check|e] s1] eqn:C.
  - rewrite (poll_checked _ _ _ _ _ _ L T C).
    assert (F' : (Z.to_nat (max_retries + 1 - (retries + 1)) < fuel)%nat) by lia.
    destruct (case_context check) as [[data _input]|].
    { destruct data; discriminate. }
    destruct (case_analysis check) as [[[options _input] analysis]|].
    { destruct analysis; discriminate. }
    destruct (case_processing check); [apply IH; exact F'|].
    destruct (case_failed check); apply IH; exact F'.
  - rewrite (poll_check_raised _ _ _ _ _ _ L T C). discriminate.
Qed.

(** Every status check is answered with a payload that is either
    "processing" or an unmatched "success", and neither the budget of time
    nor the validity of the token interferes: the loop makes one check per
    retry left, sleeping after each, and then raises the timeout error with
    the recorded error it started with. *)
Lemma poll_always_pending (m : nat) :
  forall (fuel : nat) (retries : Z) (error : Json) (s : St),
    (m < fuel)%nat ->
    retries = (max_retries + 1 - Z.of_nat m)%Z ->
    never_stale s ->
    always_answers (fun d => processing d \/ unmatched_success d) (world s) ->
    (forall i : nat, (clock (world s) i < cutoff)%Q) ->
    exists s',
      loop fuel retries error s
      = (Raise (RuntimeError (Retried (max_retries + 1) max_time error)), s') /\
      status_checks (trace (world s')) = (m + status_checks (trace (world s)))%nat /\
      sleeps (trace (world s')) = (m + sleeps (trace (world s)))%nat /\
      submissions (trace (world s')) = submissions (trace (world s)).
Proof.
  induction m as [|m IH]; intros fuel retries error s F R V P T;
    (destruct fuel as [|fuel]; [lia|]).
  - exists s. rewrite poll_exhausted_retries by lia.
    replace retries with (max_retries + 1)%Z by lia. auto.
  - set (req := check_request resource_id rt (Token.token (token (self s)))).
    destruct (P (api_calls (world s))
                (Fmt (BASE_URL ++ "/" ++ value rt ++ "/")%string resource_id)
                (headers_of (Token.token (token (self s)))))
      as (c & d & A & C & Pd).
    assert (V1 : never_stale (on_world tick s)) by (intros i; apply V).
    assert (K : _check_resource_type resource_id rt (on_world tick s)
                = (Ok (JObj d), attempted req (on_world tick s))).
    { apply (check_answered resource_id rt (on_world tick s) c (JObj d) V1);
        [exact A | exact C]. }
    assert (L : (retries <= max_retries)%Z) by lia.
    rewrite (poll_checked fuel retries error s _ _ L (T _) K).
    destruct (pending_cases d Pd) as (C1 & C2 & [C3 | [C3 C4]]);
      rewrite C1, C2, C3; [|rewrite C4].
    + destruct (IH fuel (retries + 1)%Z error
                  (slept check_interval (attempted req (on_world tick s))))
        as (s' & E & N & Sl & Su); [lia | lia | exact V | exact P | exact T |].
      exists s'. split; [exact E|].
      rewrite N, Sl, Su. cbn. repeat split; lia.
    + destruct (IH fuel (retries + 1)%Z error
                  (slept check_interval
                     (logged (EvWarnUnknown (JObj d))
                        (attempted req (on_world tick s)))))
        as (s' & E & N & Sl & Su); [lia | lia | exact V | exact P | exact T |].
      exists s'. split; [exact E|].
      rewrite N, Sl, Su. cbn. repeat split; lia.
Qed.

End Poll.

Theorem submit_and_wait_resource_total
    (resource : string) (rt : ResourceType) (opts : Dict)
    (max_retries max_time check_interval : Z) (s : St) :
  fst (submit_and_wait_resource resource rt opts max_retries max_time
         check_interval s) <> Ok None.
Proof.
  unfold submit_and_wait_resource. unfold bind at 1.
  destruct (_submit_resource_type resource rt opts s) as [[rid|e] s1];
    [|discriminate].
  unfold bind at 1. unfold lift at 1, log. cbn [world self].
  unfold bind at 1. unfold lift at 1, time_time. cbn [world self].
  apply poll_total. unfold poll_fuel. lia.
Qed.

(** ** The orchestrator *)

(** An accepted submission returns its identifier after one request. *)
Lemma submit_accepted (resource : string) (rt : ResourceType) (opts : Dict)
    (s : St) (resource_id : Json) :
  never_stale s ->
  let req := submit_request resource rt opts (Token.token (token (self s))) in
  accepted s req resource_id ->
  _submit_resource_type resource rt opts s = (Ok resource_id, attempted req s).
Proof.
  intros V req (c & d & A & C & I). apply backoff_retry_ok.
  rewrite (submit_wrapped_reply _ _ _ _ V). fold req. rewrite A.
  unfold answer. cbn [status_code]. rewrite C.
  unfold bind, response_json. cbn [body]. unfold ret, subscript.
  rewrite I. reflexivity.
Qed.

(** The state in which the polling loop starts after an accepted
    submission: one request sent, the identifier logged, the clock read
    twice (for the token and for the cutoff). *)
Lemma submit_and_wait_enters_loop (resource : string) (rt : ResourceType)
    (opts : Dict) (max_retries max_time check_interval : Z) (s : St)
    (resource_id : Json) :
  never_stale s ->
  let req := submit_request resource rt opts (Token.token (token (self s))) in
  accepted s req resource_id ->
  let s1 := logged (EvInfoSubmitted resource_id) (attempted req s) in
  submit_and_wait_resource resource rt opts max_retries max_time check_interval s
  = poll (poll_fuel max_retries) resource_id rt max_retries max_time
         check_interval
         (clock (world s1) (ticks (world s1)) + inject_Z max_time)%Q
         0 (JStr "") (on_world tick s1).
Proof.
  intros V req A s1. unfold submit_and_wait_resource. unfold bind at 1.
  rewrite (submit_accepted _ _ _ _ _ V A). reflexivity.
Qed.

Lemma submit_and_wait_pending (resource : string) (rt : ResourceType)
    (opts : Dict) (max_retries max_time check_interval : Z) (s : St)
    (resource_id : Json) :
  (0 <= max_retries + 1)%Z ->
  never_stale s ->
  accepted s (submit_request resource rt opts (Token.token (token (self s))))
           resource_id ->
  always_answers (fun d => processing d \/ unmatched_success d) (world s) ->
  within_budget (world s) max_time ->
  exists s',
    submit_and_wait_resource resource rt opts max_retries max_time
      check_interval s
    = (Raise (RuntimeError (Retried (max_retries + 1) max_time (JStr ""))), s') /\
    status_checks (trace (world s'))
    = (Z.to_nat (max_retries + 1) + status_checks (trace (world s)))%nat /\
    sleeps (trace (world s'))
    = (Z.to_nat (max_retries + 1) + sleeps (trace (world s)))%nat /\
    submissions (trace (world s')) = S (submissions (trace (world s))).
Proof.
  intros M V A P B.
  rewrite (submit_and_wait_enters_loop _ _ _ _ _ _ _ _ V A).
  set (req := submit_request resource rt opts (Token.token (token (self s)))).
  set (s1 := logged (EvInfoSubmitted resource_id) (attempted req s)).
  destruct (poll_always_pending resource_id rt max_retries max_time
              check_interval
              (clock (world s1) (ticks (world s1)) + inject_Z max_time)%Q
              (Z.to_nat (max_retries + 1)) (poll_fuel max_retries) 0 (JStr "")
              (on_world tick s1))
    as (s' & E & N & Sl & Su).
  - unfold poll_fuel. lia.
  - lia.
  - intros i. apply V.
  - exact P.
  - intros i. apply B.
  - exists s'. split; [exact E|]. rewrite N, Sl, Su. repeat split.
Qed.

Lemma always_answers_weaken (P Q : Dict -> Prop) (w : World) :
  (forall d, P d -> Q d) -> always_answers P w -> always_answers Q w.
Proof.
  intros PQ H n url hdrs. destruct (H n url hdrs) as (c & d & A & C & Pd).
  exists c, d. auto.
Qed.

(** C3: with [max_retries = 2], [check_interval = 0] and a status endpoint
    that always reports "processing", after an accepted submission
    [submit_and_wait_resource] makes exactly three status checks, sleeping
    after each, and then fails with the timeout error that reports three
    retries (and no failure message).  The scenario is that of a stub: the
    cached token stays valid and the clock stays inside the time budget. *)
Theorem submit_and_wait_three_checks (resource : string) (rt : ResourceType)
    (opts : Dict) (max_time : Z) (s : St) (resource_id : Json) :
  never_stale s ->
  accepted s (submit_request resource rt opts (Token.token (token (self s))))
           resource_id ->
  always_processing (world s) ->
  within_budget (world s) max_time ->
  exists s',
    submit_and_wait_resource resource rt opts 2 max_time 0 s
    = (Raise (RuntimeError (Retried 3 max_time (JStr ""))), s') /\
    status_checks (trace (world s')) = (3 + status_checks (trace (world s)))%nat /\
    sleeps (trace (world s')) = (3 + sleeps (trace (world s)))%nat /\
    submissions (trace (world s')) = S (submissions (trace (world s))).
Proof.
  intros V A P B.
  apply (submit_and_wait_pending resource rt opts 2 max_time 0 s resource_id);
    try assumption; [lia|].
  apply (always_answers_weaken processing); [|exact P].
  intros d Pd. left. exact Pd.
Qed.

Lemma submit_and_wait_three_checks_witness :
  let s := mkSt (cached_client 1000)
                (frozen_world 7
                   (api_stub (JObj [("id", JStr "r-1")])
                             (fun _ => JObj [("status", JStr "processing")]))) in
  fst (submit_and_wait_resource "some text" CONTEXT [] 2 600 0 s)
  = Raise (RuntimeError (Retried 3 600 (JStr ""))) /\
  status_checks (trace (world (snd
    (submit_and_wait_resource "some text" CONTEXT [] 2 600 0 s)))) = 3%nat.
Proof.
  intro s.
  assert (V : never_stale s) by (intros i; simpl; discriminate).
  assert (A : accepted s
                (submit_request "some text" CONTEXT []
                   (Token.token (token (self s)))) (JStr "r-1")).
  { exists 200%Z, [("id", JStr "r-1")]. repeat split. }
  assert (P : always_processing (world s)).
  { intros n url hdrs. exists 200%Z, [("status", JStr "processing")].
    repeat split. }
  assert (B : within_budget (world s) 600) by (intros i j; reflexivity).
  destruct (submit_and_wait_three_checks "some text" CONTEXT [] 600 s
              (JStr "r-1") V A P B) as (s' & E & N & _).
  rewrite E. split; [reflexivity | exact N].
Defined.

(** ** Result normalisation *)

(** What [dict_set] means for lookups: the key written reads as the new
    value, every other key reads as before. *)
Lemma dict_get_set (k k' : string) (v : Json) (d : Dict) :
  dict_get k' (dict_set k v d)
  = if String.eqb k' k then Some v else dict_get k' d.
Proof.
  induction d as [|[k0 v0] rest IH]; cbn [dict_set dict_get].
  - destruct (String.eqb k' k); reflexivity.
  - destruct (String.eqb_spec k k0) as [->|N]; cbn [dict_get].
    + destruct (String.eqb k' k0); reflexivity.
    + rewrite IH. destruct (String.eqb_spec k' k0) as [->|N'].
      * replace (String.eqb k0 k) with false
          by (symmetry; apply String.eqb_neq; congruence).
        reflexivity.
      * reflexivity.
Qed.

(** C4: normalisation of the two success shapes.  In a pass of the loop
    whose status check returns the object [d] tagged "success":
    - if [d] has a [context] object [c] and an [input] [i], the loop returns
      [c] with [input] set to [i];
    - if [d] has no [context] but [options] [o], [input] [i] and an
      [analysis] object [a], the loop returns [a] with [options] set to [o]
      and [input] set to [i].
    Setting a key of a mapping gives that key the new value and leaves every
    other key as it was, so the results are the merges the claim describes.
    The two examples of the specification, run through
    [submit_and_wait_resource] against a stub, give the listed mappings. *)
Theorem normalization_exact :
  (forall fuel resource_id rt max_retries max_time check_interval cutoff
          retries error s s1 d c i,
      (retries <= max_retries)%Z ->
      (clock (world s) (ticks (world s)) < cutoff)%Q ->
      _check_resource_type resource_id rt (on_world tick s) = (Ok (JObj d), s1) ->
      dict_get "status" d = Some (JStr "success") ->
      dict_get "context" d = Some (JObj c) ->
      dict_get "input" d = Some i ->
      poll (S fuel) resource_id rt max_retries max_time check_interval cutoff
           retries error s
      = (Ok (Some (JObj (dict_set "input" i c))), s1)) /\
  (forall fuel resource_id rt max_retries max_time check_interval cutoff
          retries error s s1 d o i a,
      (retries <= max_retries)%Z ->
      (clock (world s) (ticks (world s)) < cutoff)%Q ->
      _check_resource_type resource_id rt (on_world tick s) = (Ok (JObj d), s1) ->
      dict_get "status" d = Some (JStr "success") ->
      dict_get "context" d = None ->
      dict_get "options" d = Some o ->
      dict_get "input" d = Some i ->
      dict_get "analysis" d = Some (JObj a) ->
      poll (S fuel) resource_id rt max_retries max_time check_interval cutoff
           retries error s
      = (Ok (Some (JObj (dict_set "input" i (dict_set "options" o a)))), s1)) /\
  (forall k k' v d,
      dict_get k' (dict_set k v d)
      = if String.eqb k' k then Some v else dict_get k' d) /\
  fst (submit_and_wait_resource "claim text" CONTEXT []
         BLACKBIRD_CONTEXT_MAX_RETRIES BLACKBIRD_CONTEXT_MAX_TIME
         BLACKBIRD_CONTEXT_CHECK_INTERVAL
         (mkSt (cached_client 1000)
            (frozen_world 7
               (api_stub (JObj [("id", JStr "r-1")])
                  (fun _ => JObj [("status", JStr "success");
                                  ("context", JObj [("verdict", JStr "false");
                                                    ("score", JNum (9#10))]);
                                  ("input", JStr "claim text")])))))
  = Ok (Some (JObj [("verdict", JStr "false"); ("score", JNum (9#10));
                    ("input", JStr "claim text")])) /\
  fst (submit_and_wait_resource "http://img" VISION [("explain", JBool true)]
         BLACKBIRD_CONTEXT_MAX_RETRIES BLACKBIRD_CONTEXT_MAX_TIME
         BLACKBIRD_CONTEXT_CHECK_INTERVAL
         (mkSt (cached_client 1000)
            (frozen_world 7
               (api_stub (JObj [("id", JStr "r-2")])
                  (fun _ => JObj [("status", JStr "success");
                                  ("options", JObj [("explain", JBool true)]);
                                  ("input", JStr "http://img");
                                  ("analysis", JObj [("fake", JBool true)])])))))
  = Ok (Some (JObj [("fake", JBool true);
                    ("options", JObj [("explain", JBool true)]);
                    ("input", JStr "http://img")])).
Proof.
  split; [|split; [|split; [|split]]].
  - intros fuel rid rt mr mt ci cutoff retries error s s1 d c i L T K St C I.
    rewrite (poll_checked _ _ _ _ _ _ _ _ _ _ _ _ L T K).
    cbn [case_context]. rewrite (status_is_here d "success" St), C, I.
    reflexivity.
  - intros fuel rid rt mr mt ci cutoff retries error s s1 d o i a L T K St C O I A.
    rewrite (poll_checked _ _ _ _ _ _ _ _ _ _ _ _ L T K).
    cbn [case_context case_analysis].
    rewrite (status_is_here d "success" St), C, O, I, A.
    reflexivity.
  - intros k k' v d. apply dict_get_set.
  - vm_compute. reflexivity.
  - vm_compute. reflexivity.
Qed.

Lemma normalization_exact_witness :
  let context_payload := [("status", JStr "success");
                          ("context", JObj [("verdict", JStr "false")]);
                          ("input", JStr "claim text")] in
  let analysis_payload := [("status", JStr "success");
                           ("options", JObj [("explain", JBool true)]);
                           ("input", JStr "http://img");
                           ("analysis", JObj [("fake", JBool true)])] in
  let world_of payload :=
    frozen_world 7 (api_stub (JObj [("id", JStr "r-1")]) (fun _ => JObj payload)) in
  let s := mkSt (cached_client 1000) (world_of context_payload) in
  let s' := mkSt (cached_client 1000) (world_of analysis_payload) in
  poll 1 (JStr "r-1") CONTEXT 60 600 10 100 0 (JStr "") s
  = (Ok (Some (JObj [("verdict", JStr "false"); ("input", JStr "claim text")])),
     attempted (check_request (JStr "r-1") CONTEXT (JStr "cached"))
       (on_world tick s)) /\
  poll 1 (JStr "r-1") VISION 60 600 10 100 0 (JStr "") s'
  = (Ok (Some (JObj [("fake", JBool true);
                     ("options", JObj [("explain", JBool true)]);
                     ("input", JStr "http://img")])),
     attempted (check_request (JStr "r-1") VISION (JStr "cached"))
       (on_world tick s')).
Proof.
  intros context_payload analysis_payload world_of s s'.
  destruct normalization_exact as (Ctx & Ana & _).
  split.
  - apply (Ctx 0%nat (JStr "r-1") CONTEXT 60%Z 600%Z 10%Z 100%Q 0%Z (JStr "") s
               (attempted (check_request (JStr "r-1") CONTEXT (JStr "cached"))
                  (on_world tick s))
               context_payload [("verdict", JStr "false")] (JStr "claim text"));
      [discriminate | reflexivity ..].
  - apply (Ana 0%nat (JStr "r-1") VISION 60%Z 600%Z 10%Z 100%Q 0%Z (JStr "") s'
               (attempted (check_request (JStr "r-1") VISION (JStr "cached"))
                  (on_world tick s'))
               analysis_payload (JObj [("explain", JBool true)])
               (JStr "http://img") [("fake", JBool true)]);
      [discriminate | reflexivity ..].
Defined.

(** ** Tame computations *)

Section Tame.
Context {S : Type} (tr : S -> list Event).

Lemma tame_ret {A} (a : A) : tame tr (ret a).
Proof.
  intros s r s' H. injection H as <- <-. split; [|exact I].
  exists []. split; reflexivity.
Qed.

Lemma tame_raise {A} (e : Exn) : not_timeout e -> tame tr (@raise S A e).
Proof.
  intros N s r s' H. injection H as <- <-. split; [|exact N].
  exists []. split; reflexivity.
Qed.

Lemma tame_bind {A B} (m : M S A) (k : A -> M S B) :
  tame tr m -> (forall a, tame tr (k a)) -> tame tr (bind m k).
Proof.
  intros Hm Hk s r s' H. unfold bind in H.
  destruct (m s) as [[a|e] s1] eqn:E.
  - destruct (Hm _ _ _ E) as ((n1 & T1 & Q1) & _).
    destruct (Hk a _ _ _ H) as ((n2 & T2 & Q2) & R).
    split; [|exact R].
    exists (n2 ++ n1). rewrite T2, T1, app_assoc. split; [reflexivity|].
    rewrite forallb_app, Q1, Q2. reflexivity.
  - injection H as <- <-. exact (Hm _ _ _ E).
Qed.

Lemma tame_response_json (r : Response) : tame tr (response_json r).
Proof.
  unfold response_json. destruct (body r);
    [apply tame_ret | apply tame_raise; exact I].
Qed.

Lemma tame_float_add (t : Q) (j : Json) : tame tr (float_add t j).
Proof.
  destruct j; simpl; first [apply tame_ret | apply tame_raise; exact I].
Qed.

Lemma tame_subscript (data : Json) (key : string) : tame tr (subscript data key).
Proof.
  destruct data; simpl; try (apply tame_raise; exact I).
  destruct (dict_get key d); [apply tame_ret | apply tame_raise; exact I].
Qed.

Lemma tame_unpack (data : Json) : tame tr (unpack data).
Proof.
  destruct data; simpl; first [apply tame_ret | apply tame_raise; exact I].
Qed.

End Tame.

Lemma tame_time_time : tame trace time_time.
Proof.
  intros w r w' H. injection H as <- <-. split; [|exact I].
  exists []. split; reflexivity.
Qed.

Lemma tame_httpx_post (url : string) (data : Dict) : tame trace (httpx_post url data).
Proof.
  intros w r w' H. injection H as <- <-. split.
  - exists [EvAuthPost url data]. split; reflexivity.
  - destruct (auth_server w (auth_calls w) url data); exact I.
Qed.

Lemma tame_session_send (req : Request) : tame trace (session_send req).
Proof.
  intros w r w' H. injection H as <- <-. split.
  - exists [EvRequest req]. split; reflexivity.
  - destruct (api_server w (api_calls w) req); exact I.
Qed.

Lemma tame_log (e : Event) : quiet_event e = true -> tame trace (log e).
Proof.
  intros Q w r w' H. injection H as <- <-. split; [|exact I].
  exists [e]. simpl. rewrite Q. split; reflexivity.
Qed.

Lemma tame_lift {A} (m : M World A) : tame trace m -> tame trace_of (lift m).
Proof.
  intros Hm s r s' H. unfold lift in H.
  destruct (m (world s)) as [r1 w1] eqn:E. injection H as <- <-.
  exact (Hm _ _ _ E).
Qed.

Lemma tame_new_token (url : string) (data : Dict) : tame trace (__new_token url data).
Proof.
  unfold __new_token.
  apply tame_bind; [apply tame_httpx_post | intro response].
  apply tame_bind; [apply tame_response_json | intro j].
  destruct j; try (apply tame_raise; exact I).
  destruct (dict_get "error" d); [apply tame_raise; exact I|].
  destruct (dict_get "access_token" d); [|apply tame_raise; exact I].
  destruct (dict_get "expires_in" d); [|apply tame_raise; exact I].
  apply tame_bind; [apply tame_time_time | intro now].
  apply tame_bind; [apply tame_float_add | intro expiry].
  apply tame_ret.
Qed.

Lemma tame_get_self : tame trace_of get_self.
Proof.
  intros s r s' H. injection H as <- <-. split; [|exact I].
  exists []. split; reflexivity.
Qed.

Lemma tame_set_token (tok : Token.t) : tame trace_of (set_token tok).
Proof.
  intros s r s' H. injection H as <- <-. split; [|exact I].
  exists []. split; reflexivity.
Qed.

Lemma tame_bearer_token : tame trace_of bearer_token.
Proof.
  unfold bearer_token.
  apply tame_bind; [apply tame_lift, tame_time_time | intro now].
  apply tame_bind; [apply tame_get_self | intro me].
  apply tame_bind.
  - destruct (Qgtb _ _); [|apply tame_ret].
    apply tame_bind; [apply tame_lift, tame_new_token | intro tok].
    apply tame_set_token.
  - intros _. apply tame_bind; [apply tame_get_self | intro me'].
    apply tame_ret.
Qed.

Lemma tame_headers : tame trace_of headers.
Proof.
  unfold headers. apply tame_bind; [apply tame_bearer_token | intro auth].
  apply tame_ret.
Qed.

Lemma tame_submit_wrapped (resource : string) (rt : ResourceType) (opts : Dict) :
  tame trace_of (_submit_resource_type_wrapped resource rt opts).
Proof.
  unfold _submit_resource_type_wrapped.
  apply tame_bind; [apply tame_headers | intro hdrs].
  apply tame_bind; [apply tame_lift, tame_session_send | intro response].
  destruct (is_200_or_202 (status_code response)).
  - apply tame_bind; [apply tame_response_json | intro data].
    apply tame_subscript.
  - destruct (status_code response =? 500)%Z; apply tame_raise; exact I.
Qed.

Lemma tame_check_wrapped (resource_id : Json) (rt : ResourceType) :
  tame trace_of (_check_resource_type_wrapped resource_id rt).
Proof.
  unfold _check_resource_type_wrapped.
  apply tame_bind; [apply tame_headers | intro hdrs].
  apply tame_bind; [apply tame_lift, tame_session_send | intro response].
  destruct (is_200_or_202 (status_code response)); [apply tame_response_json|].
  destruct (status_code response =? 500)%Z; [apply tame_raise; exact I|].
  destruct ((status_code response <? 500)%Z && (400 <=? status_code response)%Z);
    apply tame_raise; exact I.
Qed.

Lemma tame_backoff_retry {A} (target : M St A) (more : nat) :
  tame trace_of target ->
  forall n, tame trace_of (backoff_retry more n target).
Proof.
  intro Ht. induction more as [|more IH]; intros n s r s' H; cbn [backoff_retry] in H.
  - destruct (target s) as [[v|e] s1] eqn:E.
    + injection H as <- <-. exact (Ht _ _ _ E).
    + destruct e; injection H as <- <-; exact (Ht _ _ _ E).
  - destruct (target s) as [[v|e] s1] eqn:E.
    + injection H as <- <-. exact (Ht _ _ _ E).
    + destruct e; try (injection H as <- <-; exact (Ht _ _ _ E)).
      destruct (Ht _ _ _ E) as ((n1 & T1 & Q1) & _).
      assert (K : tame trace_of
                    (lift (log (EvBackoff (2 ^ Z.of_nat n))) ;;;
                     backoff_retry more (Datatypes.S n) target)).
      { apply tame_bind; [apply tame_lift, tame_log; reflexivity|].
        intros _. apply IH. }
      destruct (K _ _ _ H) as ((n2 & T2 & Q2) & R).
      split; [|exact R].
      exists (n2 ++ n1). rewrite T2, T1, app_assoc. split; [reflexivity|].
      rewrite forallb_app, Q1, Q2. reflexivity.
Qed.

Lemma tame_submit (resource : string) (rt : ResourceType) (opts : Dict) :
  tame trace_of (_submit_resource_type resource rt opts).
Proof. apply tame_backoff_retry, tame_submit_wrapped. Qed.

Lemma tame_check (resource_id : Json) (rt : ResourceType) :
  tame trace_of (_check_resource_type resource_id rt).
Proof. apply tame_backoff_retry, tame_check_wrapped. Qed.

(** ** What the timeout error reports *)

Lemma last_error_app (a b : list Event) (dflt : Json) :
  last_error (a ++ b) dflt = last_error a (last_error b dflt).
Proof.
  induction a as [|e a IH]; [reflexivity|].
  destruct e; simpl; auto.
Qed.

Lemma last_error_quiet (new : list Event) (dflt : Json) :
  forallb quiet_event new = true -> last_error new dflt = dflt.
Proof.
  induction new as [|e new IH]; [reflexivity|].
  simpl. intro H. apply andb_true_iff in H as [He Hn].
  destruct e; simpl in *; try discriminate; auto.
Qed.

Lemma sleeps_app (a b : list Event) :
  sleeps (a ++ b) = (sleeps a + sleeps b)%nat.
Proof.
  induction a as [|e a IH]; [reflexivity|].
  destruct e; simpl; auto.
Qed.

Lemma sleeps_quiet (new : list Event) :
  forallb quiet_event new = true -> sleeps new = 0%nat.
Proof.
  induction new as [|e new IH]; [reflexivity|].
  simpl. intro H. apply andb_true_iff in H as [He Hn].
  destruct e; simpl in *; try discriminate; auto.
Qed.

Section Report.
Variables (resource_id : Json) (rt : ResourceType).
Variables (max_retries max_time check_interval : Z) (cutoff : Q).

Local Abbreviation loop fuel :=
  (poll fuel resource_id rt max_retries max_time check_interval cutoff).

(** When the loop ends with the timeout error, the error carries the time
    budget, the error of the last "failed" warning logged since the loop
    was entered (the initial [error] when there was none) and the initial
    [retries] plus the number of sleeps. *)
Lemma poll_timeout_report (fuel : nat) :
  forall (retries : Z) (error : Json) (s s' : St) (n mt : Z) (e : Json),
    loop fuel retries error s = (Raise (RuntimeError (Retried n mt e)), s') ->
    exists new,
      trace_of s' = new ++ trace_of s /\
      mt = max_time /\
      e = last_error new error /\
      n = (retries + Z.of_nat (sleeps new))%Z.
Proof.
  induction fuel as [|fuel IH]; intros retries error s s' n mt e H;
    [discriminate H|].
  destruct (Z.leb_spec retries max_retries) as [L|L].
  2: { rewrite poll_exhausted_retries in H by exact L.
       injection H as <- <- <- <-. exists []. repeat split. simpl. lia. }
  destruct (Qlt_le_dec (clock (world s) (ticks (world s))) cutoff) as [T|T].
  2: { rewrite poll_exhausted_time in H by assumption.
       injection H as <- <- <- <-. exists []. repeat split. simpl. lia. }
  destruct (_check_resource_type resource_id rt (on_world tick s))
    as [[check|e0] s1] eqn:C.
  2: { rewrite (poll_check_raised _ _ _ _ _ _ _ _ _ _ _ _ L T C) in H.
       injection H as -> _. destruct (tame_check _ _ _ _ _ C) as (_ & N).
       destruct N. }
  destruct (tame_check _ _ _ _ _ C) as ((n1 & T1 & Q1) & _).
  change (trace_of (on_world tick s)) with (trace_of s) in T1.
  rewrite (poll_checked _ _ _ _ _ _ _ _ _ _ _ _ L T C) in H.
  destruct (case_context check) as [[data _input]|].
  { destruct data; discriminate H. }
  destruct (case_analysis check) as [[[options _input] analysis]|].
  { destruct analysis; discriminate H. }
  destruct (case_processing check).
  { destruct (IH _ _ _ _ _ _ _ H) as (new & Tn & Hm & He & Hn).
    exists (new ++ EvSleep check_interval :: n1).
    rewrite Tn. unfold slept, trace_of, on_world. cbn [world emit trace].
    fold (trace_of s1). rewrite T1, <- app_assoc. split; [reflexivity|].
    split; [exact Hm|]. split.
    - rewrite last_error_app. cbn [last_error].
      rewrite (last_error_quiet _ _ Q1). exact He.
    - rewrite sleeps_app. cbn [sleeps]. rewrite (sleeps_quiet _ Q1). lia. }
  destruct (case_failed check) as [err|].
  - destruct (IH _ _ _ _ _ _ _ H) as (new & Tn & Hm & He & Hn).
    exists (new ++ EvSleep check_interval :: EvWarnFailed check err :: n1).
    rewrite Tn. unfold slept, logged, trace_of, on_world. cbn [world emit trace].
    fold (trace_of s1). rewrite T1, <- app_assoc. split; [reflexivity|].
    split; [exact Hm|]. split.
    + rewrite last_error_app. cbn [last_error]. exact He.
    + rewrite sleeps_app. cbn [sleeps]. rewrite (sleeps_quiet _ Q1). lia.
  - destruct (IH _ _ _ _ _ _ _ H) as (new & Tn & Hm & He & Hn).
    exists (new ++ EvSleep check_interval :: EvWarnUnknown check :: n1).
    rewrite Tn. unfold slept, logged, trace_of, on_world. cbn [world emit trace].
    fold (trace_of s1). rewrite T1, <- app_assoc. split; [reflexivity|].
    split; [exact Hm|]. split.
    + rewrite last_error_app. cbn [last_error].
      rewrite (last_error_quiet _ _ Q1). exact He.
    + rewrite sleeps_app. cbn [sleeps]. rewrite (sleeps_quiet _ Q1). lia.
Qed.

End Report.

Lemma submit_and_wait_timeout_report
    (resource : string) (rt : ResourceType) (opts : Dict)
    (max_retries max_time check_interval : Z) (s s' : St) (n mt : Z) (e : Json) :
  submit_and_wait_resource resource rt opts max_retries max_time check_interval s
  = (Raise (RuntimeError (Retried n mt e)), s') ->
  exists new,
    trace_of s' = new ++ trace_of s /\
    mt = max_time /\
    e = last_error new (JStr "") /\
    n = Z.of_nat (sleeps new).
Proof.
  unfold submit_and_wait_resource. unfold bind at 1. intro H.
  destruct (_submit_resource_type resource rt opts s) as [[rid|e0] s1] eqn:Su.
  2: { injection H as -> _. destruct (tame_submit _ _ _ _ _ _ Su) as (_ & N).
       destruct N. }
  destruct (tame_submit _ _ _ _ _ _ Su) as ((n1 & T1 & Q1) & _).
  unfold bind at 1 in H. unfold lift at 1, log in H. cbn [world self] in H.
  unfold bind at 1 in H. unfold lift at 1, time_time in H. cbn [world self] in H.
  destruct (poll_timeout_report _ _ _ _ _ _ _ _ _ _ _ _ _ _ H)
    as (new & Tn & Hm & He & Hn).
  exists (new ++ EvInfoSubmitted rid :: n1).
  rewrite Tn. unfold trace_of. cbn [world emit tick trace].
  fold (trace_of s1). rewrite T1, <- app_assoc. split; [reflexivity|].
  split; [exact Hm|]. split.
  - rewrite last_error_app. cbn [last_error].
    rewrite (last_error_quiet _ _ Q1). exact He.
  - rewrite sleeps_app. cbn [sleeps]. rewrite (sleeps_quiet _ Q1). lia.
Qed.

(** A payload with the keys of the context shape whose [context] is not a
    mapping is taken by the first [case]; unpacking it raises [TypeError],
    which leaves the loop. *)
Lemma context_not_a_mapping
    (fuel : nat) (resource_id : Json) (rt : ResourceType)
    (max_retries max_time check_interval : Z) (cutoff : Q)
    (retries : Z) (error : Json) (s s1 : St) (d : Dict) (c i : Json) :
  (retries <= max_retries)%Z ->
  (clock (world s) (ticks (world s)) < cutoff)%Q ->
  _check_resource_type resource_id rt (on_world tick s) = (Ok (JObj d), s1) ->
  dict_get "status" d = Some (JStr "success") ->
  dict_get "context" d = Some c ->
  dict_get "input" d = Some i ->
  (forall o, c <> JObj o) ->
  poll (S fuel) resource_id rt max_retries max_time check_interval cutoff
       retries error s
  = (Raise TypeError, s1).
Proof.
  intros L T K St C I N.
  rewrite (poll_checked _ _ _ _ _ _ _ _ _ _ _ _ L T K).
  cbn [case_context]. rewrite (status_is_here d "success" St), C, I.
  destruct c; try reflexivity. exfalso. exact (N _ eq_refl).
Qed.

(** ** Failed and unrecognised statuses *)

(** C6: a "failed" status is not fatal, and the timeout error reports what
    was last observed.
    - In a pass of the loop whose status check returns an object with
      status "failed" and an [error] [err], a warning is logged, the loop
      sleeps [check_interval] and goes on with [retries + 1] and [err] as the
      recorded error.
    - When the guard fails, on the retry count or on the clock, the loop
      raises the timeout error with the current [retries], [max_time] and
      the recorded error.
    - Whenever [submit_and_wait_resource] ends with the timeout error, the
      error carries [max_time], as retry count the number of sleeps of the
      loop, and as message the error of the last "failed" status warned
      about during the call (the empty string when there was none). *)
Theorem failed_status_is_retried :
  (forall fuel resource_id rt max_retries max_time check_interval cutoff
          retries error s s1 d err,
      (retries <= max_retries)%Z ->
      (clock (world s) (ticks (world s)) < cutoff)%Q ->
      _check_resource_type resource_id rt (on_world tick s) = (Ok (JObj d), s1) ->
      dict_get "status" d = Some (JStr "failed") ->
      dict_get "error" d = Some err ->
      poll (S fuel) resource_id rt max_retries max_time check_interval cutoff
           retries error s
      = poll fuel resource_id rt max_retries max_time check_interval cutoff
             (retries + 1)%Z err
             (slept check_interval (logged (EvWarnFailed (JObj d) err) s1))) /\
  (forall fuel resource_id rt max_retries max_time check_interval cutoff
          retries error s,
      (max_retries < retries)%Z ->
      poll (S fuel) resource_id rt max_retries max_time check_interval cutoff
           retries error s
      = (Raise (RuntimeError (Retried retries max_time error)), s)) /\
  (forall fuel resource_id rt max_retries max_time check_interval cutoff
          retries error s,
      (retries <= max_retries)%Z ->
      (cutoff <= clock (world s) (ticks (world s)))%Q ->
      poll (S fuel) resource_id rt max_retries max_time check_interval cutoff
           retries error s
      = (Raise (RuntimeError (Retried retries max_time error)), on_world tick s)) /\
  (forall resource rt opts max_retries max_time check_interval s s' n mt e,
      submit_and_wait_resource resource rt opts max_retries max_time
        check_interval s
      = (Raise (RuntimeError (Retried n mt e)), s') ->
      exists new,
        trace_of s' = new ++ trace_of s /\
        mt = max_time /\
        e = last_error new (JStr "") /\
        n = Z.of_nat (sleeps new)).
Proof.
  split; [|split; [|split]].
  - intros fuel rid rt mr mt ci cutoff retries error s s1 d err L T K St E.
    rewrite (poll_checked _ _ _ _ _ _ _ _ _ _ _ _ L T K).
    cbn [case_context case_analysis case_processing case_failed].
    rewrite (status_is_exclusive d "failed" "success" St) by discriminate.
    rewrite (status_is_exclusive d "failed" "processing" St) by discriminate.
    rewrite (status_is_here d "failed" St), E. reflexivity.
  - intros. apply poll_exhausted_retries. assumption.
  - intros. apply poll_exhausted_time; assumption.
  - intros resource rt opts mr mt ci s s' n mt' e H.
    exact (submit_and_wait_timeout_report _ _ _ _ _ _ _ _ _ _ _ H).
Qed.

Lemma failed_status_is_retried_witness :
  let failed := [("status", JStr "failed"); ("error", JStr "boom")] in
  let s := mkSt (cached_client 1000)
             (frozen_world 7
                (api_stub (JObj [("id", JStr "r-1")])
                   (fun n => if (n <=? 1)%nat then JObj failed
                             else JObj [("status", JStr "processing")]))) in
  let s1 := attempted (check_request (JStr "r-1") CONTEXT (JStr "cached"))
              (on_world tick s) in
  poll 1 (JStr "r-1") CONTEXT 60 600 10 100 0 (JStr "") s
  = poll 0 (JStr "r-1") CONTEXT 60 600 10 100 1 (JStr "boom")
         (slept 10 (logged (EvWarnFailed (JObj failed) (JStr "boom")) s1)) /\
  poll 1 (JStr "r-1") CONTEXT 60 600 10 100 61 (JStr "boom") s
  = (Raise (RuntimeError (Retried 61 600 (JStr "boom"))), s) /\
  poll 1 (JStr "r-1") CONTEXT 60 600 10 5 3 (JStr "boom") s
  = (Raise (RuntimeError (Retried 3 600 (JStr "boom"))), on_world tick s) /\
  exists new,
    trace_of (snd (submit_and_wait_resource "some text" CONTEXT [] 1 600 0 s))
    = new ++ trace_of s /\
    600%Z = 600%Z /\
    JStr "boom" = last_error new (JStr "") /\
    2%Z = Z.of_nat (sleeps new).
Proof.
  intros failed s s1.
  destruct failed_status_is_retried as (Step & OnRetries & OnClock & Report).
  split; [|split; [|split]].
  - apply (Step 0%nat (JStr "r-1") CONTEXT 60%Z 600%Z 10%Z 100%Q 0%Z (JStr "")
                s s1 failed (JStr "boom"));
      [discriminate | reflexivity ..].
  - apply OnRetries. reflexivity.
  - apply OnClock; discriminate.
  - apply (Report "some text" CONTEXT [] 1%Z 600%Z 0%Z s
             (snd (submit_and_wait_resource "some text" CONTEXT [] 1 600 0 s))).
    vm_compute. reflexivity.
Defined.

(** C10, as amended: a status payload tagged "success" that lacks the keys
    of both success shapes (no [input], or no [context] and not both
    [options] and [analysis]) is not returned.
    - The pass of the loop that receives it logs the "unknown" warning,
      sleeps [check_interval] and goes on polling with [retries + 1] and the
      recorded error unchanged.
    - If every status check is answered with such a payload (token valid,
      clock inside the time budget), [submit_and_wait_resource] returns
      nothing: it makes [max_retries + 1] checks, sleeping after each, and
      raises the timeout error. *)
Theorem unmatched_success_is_retried :
  (forall fuel resource_id rt max_retries max_time check_interval cutoff
          retries error s s1 d,
      (retries <= max_retries)%Z ->
      (clock (world s) (ticks (world s)) < cutoff)%Q ->
      _check_resource_type resource_id rt (on_world tick s) = (Ok (JObj d), s1) ->
      unmatched_success d ->
      poll (S fuel) resource_id rt max_retries max_time check_interval cutoff
           retries error s
      = poll fuel resource_id rt max_retries max_time check_interval cutoff
             (retries + 1)%Z error
             (slept check_interval (logged (EvWarnUnknown (JObj d)) s1))) /\
  (forall resource rt opts max_retries max_time check_interval s resource_id,
      (0 <= max_retries + 1)%Z ->
      never_stale s ->
      accepted s (submit_request resource rt opts (Token.token (token (self s))))
               resource_id ->
      always_answers unmatched_success (world s) ->
      within_budget (world s) max_time ->
      exists s',
        submit_and_wait_resource resource rt opts max_retries max_time
          check_interval s
        = (Raise (RuntimeError (Retried (max_retries + 1) max_time (JStr ""))),
           s') /\
        status_checks (trace (world s'))
        = (Z.to_nat (max_retries + 1) + status_checks (trace (world s)))%nat /\
        sleeps (trace (world s'))
        = (Z.to_nat (max_retries + 1) + sleeps (trace (world s)))%nat).
Proof.
  split.
  - intros fuel rid rt mr mt ci cutoff retries error s s1 d L T K U.
    rewrite (poll_checked _ _ _ _ _ _ _ _ _ _ _ _ L T K).
    destruct (pending_cases d (or_intror U)) as (C1 & C2 & [C3 | [C3 C4]]).
    + exfalso. destruct U as (St & _). cbn [case_processing] in C3.
      rewrite (status_is_exclusive d "success" "processing" St) in C3
        by discriminate.
      discriminate C3.
    + rewrite C1, C2, C3, C4. reflexivity.
  - intros resource rt opts mr mt ci s rid M V A P B.
    destruct (submit_and_wait_pending resource rt opts mr mt ci s rid M V A)
      as (s' & E & N & Sl & _).
    + apply (always_answers_weaken unmatched_success); [|exact P].
      intros d U. right. exact U.
    + exact B.
    + exists s'. auto.
Qed.

Lemma unmatched_success_is_retried_witness :
  let s := mkSt (cached_client 1000)
             (frozen_world 7
                (api_stub (JObj [("id", JStr "r-1")])
                   (fun _ => JObj [("status", JStr "success");
                                   ("context", JObj [("verdict", JStr "false")])]))) in
  let d := [("status", JStr "success");
            ("context", JObj [("verdict", JStr "false")])] in
  let s1 := attempted (check_request (JStr "r-1") CONTEXT (JStr "cached"))
              (on_world tick s) in
  poll 1 (JStr "r-1") CONTEXT 60 600 10 100 0 (JStr "") s
  = poll 0 (JStr "r-1") CONTEXT 60 600 10 100 1 (JStr "")
         (slept 10 (logged (EvWarnUnknown (JObj d)) s1)) /\
  fst (submit_and_wait_resource "some text" CONTEXT [] 1 600 0 s)
  = Raise (RuntimeError (Retried 2 600 (JStr ""))).
Proof.
  intros s d s1.
  destruct unmatched_success_is_retried as (Step & Run).
  assert (U : unmatched_success d).
  { split; [reflexivity|]. split; [right; reflexivity|].
    right. left. reflexivity. }
  split.
  - apply (Step 0%nat (JStr "r-1") CONTEXT 60%Z 600%Z 10%Z 100%Q 0%Z
                (JStr "") s s1 d).
    + discriminate.
    + reflexivity.
    + reflexivity.
    + exact U.
  - assert (V : never_stale s) by (intros i; simpl; discriminate).
    assert (A : accepted s
                  (submit_request "some text" CONTEXT []
                     (Token.token (token (self s)))) (JStr "r-1")).
    { exists 200%Z, [("id", JStr "r-1")]. repeat split. }
    assert (P : always_answers unmatched_success (world s)).
    { intros n url hdrs. exists 200%Z, d.
      split; [reflexivity|]. split; [reflexivity | exact U]. }
    assert (B : within_budget (world s) 600) by (intros i j; reflexivity).
    destruct (Run "some text" CONTEXT [] 1%Z 600%Z 0%Z s (JStr "r-1")
                ltac:(discriminate) V A P B) as (s' & E & _).
    rewrite E. reflexivity.
Defined.

(** C10, as the claim words it, does not hold.  The payload
    [{"status": "success", "context": "oops", "input": "x"}] has no
    [context] object and no [options] and [analysis], so it is of neither
    shape in the words of the specification; but it has the keys of the
    first [case], which takes it, and unpacking the text ["oops"] raises
    [TypeError]: the pass does not log, does not sleep and does not go on
    polling. *)
Lemma success_with_text_context_is_not_retried :
  let d := [("status", JStr "success"); ("context", JStr "oops");
            ("input", JStr "x")] in
  let s := mkSt (cached_client 1000)
             (frozen_world 7
                (api_stub (JObj [("id", JStr "r-1")]) (fun _ => JObj d))) in
  let s1 := attempted (check_request (JStr "r-1") CONTEXT (JStr "cached"))
              (on_world tick s) in
  worded_neither_shape d /\
  _check_resource_type (JStr "r-1") CONTEXT (on_world tick s) = (Ok (JObj d), s1) /\
  poll 1 (JStr "r-1") CONTEXT 60 600 10 100 0 (JStr "") s = (Raise TypeError, s1) /\
  poll 1 (JStr "r-1") CONTEXT 60 600 10 100 0 (JStr "") s
  <> poll 0 (JStr "r-1") CONTEXT 60 600 10 100 1 (JStr "")
          (slept 10 (logged (EvWarnUnknown (JObj d)) s1)).
Proof.
  intros d s s1.
  assert (P : poll 1 (JStr "r-1") CONTEXT 60 600 10 100 0 (JStr "") s
              = (Raise TypeError, s1)) by reflexivity.
  split; [|split; [reflexivity|split; [exact P|]]].
  - split; [reflexivity|]. split.
    + intros (c & i & C & _). discriminate C.
    + intros (o & i & a & O & _). discriminate O.
  - rewrite P. discriminate.
Qed.

(** * Further properties of the client *)

(** ** Credential exchange *)

Lemma float_add_seconds {S : Type} (t : Q) (j : Json) (s : S) :
  float_add t j s
  = match seconds_of j with
    | Some q => (Ok (t + q)%Q, s)
    | None => (Raise TypeError, s)
    end.
Proof. destruct j; reflexivity. Qed.

(** What a returned token tells about the response. *)
Lemma new_token_ok_inv (url : string) (data : Dict) (w w' : World)
    (tok : Token.t) :
  __new_token url data w = (Ok tok, w') ->
  exists (c : Z) (d : Dict) (e : Json) (q : Q),
    auth_server w (auth_calls w) url data = answer c (JObj d) /\
    dict_get "error" d = None /\
    dict_get "access_token" d = Some (Token.token tok) /\
    dict_get "expires_in" d = Some e /\
    seconds_of e = Some q /\
    Token.expiration_time tok = (clock w (ticks w) + q)%Q /\
    w' = tick (auth_called url data w).
Proof.
  unfold __new_token, bind, httpx_post, response_json, time_time.
  intro H.
  destruct (auth_server w (auth_calls w) url data) as [[c [j|]]|] eqn:R;
    cbn [of_reply body] in H; try discriminate H.
  unfold ret at 1 in H. destruct j; try discriminate H.
  destruct (dict_get "error" d) eqn:E; [discriminate H|].
  destruct (dict_get "access_token" d) as [a|] eqn:A; [|discriminate H].
  destruct (dict_get "expires_in" d) as [e|] eqn:X; [|discriminate H].
  rewrite float_add_seconds in H.
  destruct (seconds_of e) as [q|] eqn:Sec; [|discriminate H].
  unfold ret in H. injection H as <- <-.
  exists c, d, e, q. unfold answer. repeat split; assumption.
Qed.

(** A granting response gives a token. *)
Lemma new_token_ok_intro (url : string) (data : Dict) (w w' : World)
    (tok : Token.t) :
  (exists (c : Z) (d : Dict) (e : Json) (q : Q),
    auth_server w (auth_calls w) url data = answer c (JObj d) /\
    dict_get "error" d = None /\
    dict_get "access_token" d = Some (Token.token tok) /\
    dict_get "expires_in" d = Some e /\
    seconds_of e = Some q /\
    Token.expiration_time tok = (clock w (ticks w) + q)%Q /\
    w' = tick (auth_called url data w)) ->
  __new_token url data w = (Ok tok, w').
Proof.
  unfold __new_token, bind, httpx_post, response_json, time_time.
  intros (c & d & e & q & R & E & A & X & Sec & T & ->).
  rewrite R. unfold answer. cbn [of_reply body]. unfold ret at 1.
  rewrite E, A, X, float_add_seconds, Sec. unfold ret.
  destruct tok as [tv te]. cbn [Token.token Token.expiration_time] in *.
  rewrite T. reflexivity.
Qed.

(** X1: [__new_token] returns a token exactly when the response body is a
    JSON object without an [error] key, with an [access_token] and with an
    [expires_in] that is a number.  The HTTP status is not looked at.  The
    token expires [expires_in] seconds after one reading of the clock taken
    once the response is in, and exactly one request has been made. *)
Theorem new_token_returns (url : string) (data : Dict) (w w' : World)
    (tok : Token.t) :
  __new_token url data w = (Ok tok, w') <->
  exists (c : Z) (d : Dict) (e : Json) (q : Q),
    auth_server w (auth_calls w) url data = answer c (JObj d) /\
    dict_get "error" d = None /\
    dict_get "access_token" d = Some (Token.token tok) /\
    dict_get "expires_in" d = Some e /\
    seconds_of e = Some q /\
    Token.expiration_time tok = (clock w (ticks w) + q)%Q /\
    w' = tick (auth_called url data w).
Proof.
  split.
  - apply new_token_ok_inv.
  - apply new_token_ok_intro.
Qed.

Lemma new_token_returns_witness :
  __new_token "https://idp" [] (provider_world 7 (grant "fresh" 3600))
  = (Ok (Token.mk (JStr "fresh") (7 + 3600)),
     tick (auth_called "https://idp" [] (provider_world 7 (grant "fresh" 3600)))).
Proof.
  apply (proj2 (new_token_returns "https://idp" []
                  (provider_world 7 (grant "fresh" 3600)) _
                  (Token.mk (JStr "fresh") (7 + 3600)))).
  exists 200%Z, [("access_token", JStr "fresh"); ("expires_in", JNum 3600)],
    (JNum 3600), 3600%Q.
  repeat split.
Defined.

Lemma new_token_world (url : string) (data : Dict) (w : World) :
  exists r,
    __new_token url data w = (r, auth_called url data w) \/
    __new_token url data w = (r, tick (auth_called url data w)).
Proof.
  unfold __new_token, bind, httpx_post, response_json, float_add, time_time,
    of_reply, raise, ret.
  repeat (cbv beta iota;
          match goal with
          | |- context [match ?x with _ => _ end] =>
              lazymatch x with
              | context [match _ with _ => _ end] => fail
              | (_, _) => fail
              | _ => destruct x
              end
          end);
    cbv beta iota; eexists; first [left; reflexivity | right; reflexivity].
Qed.

Lemma new_token_counters (url : string) (data : Dict) (w : World) :
  auth_calls (snd (__new_token url data w)) = S (auth_calls w) /\
  api_calls (snd (__new_token url data w)) = api_calls w /\
  clock (snd (__new_token url data w)) = clock w /\
  auth_server (snd (__new_token url data w)) = auth_server w /\
  api_server (snd (__new_token url data w)) = api_server w.
Proof.
  destruct (new_token_world url data w) as (r & [-> | ->]); repeat split.
Qed.

Lemma Qgtb_true_iff (a b : Q) : Qgtb a b = true <-> (b < a)%Q.
Proof.
  unfold Qgtb, Qltb. rewrite negb_true_iff. split.
  - intro H. apply Qnot_le_lt. intro L. apply Qle_bool_iff in L. congruence.
  - intro H. destruct (Qle_bool a b) eqn:E; [|reflexivity].
    apply Qle_bool_iff in E. exfalso. exact (Qlt_not_le _ _ H E).
Qed.

(** [bearer_token] on a stale token: the outcome of the credential
    exchange decides. *)
Lemma bearer_token_stale (s : St) :
  (Token.expiration_time (token (self s))
   < clock (world s) (ticks (world s)) - (1#2))%Q ->
  bearer_token s
  = match __new_token (_auth_url (self s)) (_auth_payload (self s))
            (tick (world s)) with
    | (Ok tok, w1) =>
        (Ok (Fmt "Bearer " (Token.token tok)),
         mkSt (BlackbirdApiClient.mk (_auth_url (self s)) (_auth_payload (self s))
                 tok) w1)
    | (Raise e, w1) => (Raise e, mkSt (self s) w1)
    end.
Proof.
  intros Stale.
  unfold bearer_token, bind, lift, time_time, get_self, set_token.
  cbv beta iota. cbn [world self].
  rewrite (proj2 (Qgtb_true_iff _ _) Stale). cbv beta iota. cbn [world self].
  destruct (__new_token _ _ _) as [[tok|e] w1]; reflexivity.
Qed.

(** X2: a stale token is replaced.  When the clock is more than half a
    second past the expiry of the cached token and the identity provider
    grants, [bearer_token] makes one credential exchange with the configured
    endpoint and payload, caches the granted token with an expiry counted
    from a second reading of the clock, and returns the new bearer value;
    the configuration is untouched. *)
Theorem bearer_token_refreshes (s : St) (c : Z) (d : Dict) (tokv e : Json) (q : Q) :
  (Token.expiration_time (token (self s))
   < clock (world s) (ticks (world s)) - (1#2))%Q ->
  auth_server (world s) (auth_calls (world s))
    (_auth_url (self s)) (_auth_payload (self s)) = answer c (JObj d) ->
  dict_get "error" d = None ->
  dict_get "access_token" d = Some tokv ->
  dict_get "expires_in" d = Some e ->
  seconds_of e = Some q ->
  bearer_token s
  = (Ok (Fmt "Bearer " tokv),
     mkSt (BlackbirdApiClient.mk (_auth_url (self s)) (_auth_payload (self s))
             (Token.mk tokv (clock (world s) (S (ticks (world s))) + q)%Q))
          (tick (auth_called (_auth_url (self s)) (_auth_payload (self s))
                   (tick (world s))))).
Proof.
  intros Stale R E A X Sec.
  rewrite (bearer_token_stale s Stale).
  rewrite (new_token_ok_intro (_auth_url (self s)) (_auth_payload (self s))
             (tick (world s))
             (tick (auth_called (_auth_url (self s)) (_auth_payload (self s))
                      (tick (world s))))
             (Token.mk tokv (clock (world s) (S (ticks (world s))) + q)%Q)).
  - reflexivity.
  - exists c, d, e, q. repeat split; assumption.
Qed.

Lemma bearer_token_refreshes_witness :
  bearer_token (mkSt (cached_client 100) (frozen_world 101 (api_status 200)))
  = (Ok (Fmt "Bearer " (JStr "fresh")),
     mkSt (BlackbirdApiClient.mk "https://api.blackbird.ai/compass/token"
             [("username", JStr "alice"); ("password", JStr "secret");
              ("grant_type", JStr "password")]
             (Token.mk (JStr "fresh") (101 + 3600)))
          (tick (auth_called "https://api.blackbird.ai/compass/token"
                   [("username", JStr "alice"); ("password", JStr "secret");
                    ("grant_type", JStr "password")]
                   (tick (frozen_world 101 (api_status 200)))))).
Proof.
  apply (bearer_token_refreshes
           (mkSt (cached_client 100) (frozen_world 101 (api_status 200)))
           200 [("access_token", JStr "fresh"); ("expires_in", JNum 3600)]
           (JStr "fresh") (JNum 3600) 3600%Q); reflexivity.
Defined.

(** X3: a refresh that fails leaves the cache as it was.  When
    [bearer_token] raises, the cached token was stale, exactly one
    credential exchange was attempted and nothing was sent on the API
    session, and the client still holds the same token and configuration,
    so that the next reading attempts the exchange again. *)
Theorem bearer_token_failed_refresh (s s' : St) (e : Exn) :
  bearer_token s = (Raise e, s') ->
  (Token.expiration_time (token (self s))
   < clock (world s) (ticks (world s)) - (1#2))%Q /\
  self s' = self s /\
  auth_calls (world s') = S (auth_calls (world s)) /\
  api_calls (world s') = api_calls (world s).
Proof.
  unfold bearer_token, bind, lift, time_time, get_self, set_token, ret.
  cbv beta iota. cbn [world self]. intro H.
  destruct (Qgtb _ _) eqn:G; [|discriminate H].
  cbv beta iota in H. cbn [world self] in H.
  pose proof (new_token_counters (_auth_url (self s)) (_auth_payload (self s))
                (tick (world s))) as (A & P & _).
  destruct (__new_token _ _ _) as [[tok|e1] w1]; [discriminate H|].
  injection H as _ <-. cbn [snd] in A, P. cbn [self world].
  split; [apply Qgtb_true_iff; exact G|]. auto.
Qed.

Lemma bearer_token_failed_refresh_witness :
  let s := mkSt (cached_client 100)
             (provider_world 101
                (answer 401 (JObj [("error", JStr "invalid_grant")]))) in
  self (snd (bearer_token s)) = self s /\
  auth_calls (world (snd (bearer_token s))) = 1%nat.
Proof.
  intro s.
  destruct (bearer_token_failed_refresh s (snd (bearer_token s))
              (RuntimeError (TokenRejected (JObj [("error", JStr "invalid_grant")])))
              eq_refl) as (_ & Same & Calls & _).
  split; [exact Same | exact Calls].
Defined.

(** ** Effects of a call, in any world *)

Lemma count_app (k : Kind) (a b : list Event) :
  count k (a ++ b) = (count k a + count k b)%nat.
Proof.
  induction a as [|e a IH]; [reflexivity|].
  cbn [app count]. rewrite IH. lia.
Qed.

Section Yields.
Variables (url : string) (data : Dict) (E : Event -> Prop).

Lemma fits_nil : fits budget_zero E [].
Proof. split; [intro k; apply Nat.le_refl | constructor]. Qed.

Lemma fits_one (e : Event) : E e -> fits (budget_one (kind e)) E [e].
Proof.
  intro He. split; [|repeat constructor; exact He].
  intro k. unfold budget_one. cbn [count].
  destruct (Kind_eqb (kind e) k); lia.
Qed.

Lemma fits_app (b1 b2 : Budget) (n1 n2 : list Event) :
  fits b1 E n1 -> fits b2 E n2 -> fits (budget_add b1 b2) E (n2 ++ n1).
Proof.
  intros [W1 F1] [W2 F2]. split.
  - intro k. rewrite count_app. unfold budget_add.
    specialize (W1 k). specialize (W2 k). lia.
  - apply Forall_app. split; assumption.
Qed.

Lemma fits_weaken (b b' : Budget) (new : list Event) :
  (forall k, (b k <= b' k)%nat) -> fits b E new -> fits b' E new.
Proof.
  intros Hb [W F]. split; [|exact F].
  intro k. specialize (W k). specialize (Hb k). lia.
Qed.

Lemma yields_ret {A} (Q : A -> Prop) (a : A) :
  Q a -> yields url data (fits budget_zero E) Q (ret a).
Proof.
  intros Qa s r s' C H. injection H as <- <-. split; [exact C|]. split.
  - exists []. split; [reflexivity | apply fits_nil].
  - intros a' Ha. injection Ha as <-. exact Qa.
Qed.

Lemma yields_raise {A} (Q : A -> Prop) (e : Exn) :
  yields url data (fits budget_zero E) Q (raise e).
Proof.
  intros s r s' C H. injection H as <- <-. split; [exact C|]. split.
  - exists []. split; [reflexivity | apply fits_nil].
  - intros a' Ha. discriminate Ha.
Qed.

Lemma yields_bind {A B} (b1 b2 : Budget) (Q1 : A -> Prop) (Q2 : B -> Prop)
    (m : M St A) (k : A -> M St B) :
  yields url data (fits b1 E) Q1 m ->
  (forall a, Q1 a -> yields url data (fits b2 E) Q2 (k a)) ->
  yields url data (fits (budget_add b1 b2) E) Q2 (bind m k).
Proof.
  intros Hm Hk s r s' C H. unfold bind in H.
  destruct (m s) as [[a|e] s1] eqn:Em.
  - destruct (Hm _ _ _ C Em) as (C1 & (n1 & T1 & F1) & V1).
    destruct (Hk a (V1 a eq_refl) _ _ _ C1 H) as (C2 & (n2 & T2 & F2) & V2).
    split; [exact C2|]. split; [|exact V2].
    exists (n2 ++ n1). rewrite T2, T1, app_assoc. split; [reflexivity|].
    apply fits_app; assumption.
  - injection H as <- <-.
    destruct (Hm _ _ _ C Em) as (C1 & (n1 & T1 & F1) & _).
    split; [exact C1|]. split; [|intros a Ha; discriminate Ha].
    exists n1. split; [exact T1|].
    apply (fits_weaken b1); [|exact F1].
    intro k0. unfold budget_add. lia.
Qed.

Lemma yields_weaken {A} (b b' : Budget) (Q Q' : A -> Prop) (m : M St A) :
  (forall k, (b k <= b' k)%nat) ->
  (forall a, Q a -> Q' a) ->
  yields url data (fits b E) Q m -> yields url data (fits b' E) Q' m.
Proof.
  intros Hb HQ Hm s r s' C H.
  destruct (Hm _ _ _ C H) as (C1 & (n1 & T1 & F1) & V1).
  split; [exact C1|]. split.
  - exists n1. split; [exact T1 | exact (fits_weaken _ _ _ Hb F1)].
  - intros a Ha. apply HQ, V1, Ha.
Qed.

Lemma yields_log (e : Event) :
  E e -> yields url data (fits (budget_one (kind e)) E) (fun _ => True) (lift (log e)).
Proof.
  intros He s r s' C H. injection H as <- <-. split; [exact C|]. split.
  - exists [e]. split; [reflexivity | apply fits_one, He].
  - intros; exact I.
Qed.

Lemma yields_time : yields url data (fits budget_zero E) (fun _ => True) (lift time_time).
Proof.
  intros s r s' C H. injection H as <- <-. split; [exact C|]. split.
  - exists []. split; [reflexivity | apply fits_nil].
  - intros; exact I.
Qed.

Lemma yields_send (req : Request) :
  E (EvRequest req) ->
  yields url data (fits (budget_one (kind (EvRequest req))) E) (fun _ => True)
         (lift (session_send req)).
Proof.
  intros He s r s' C H. injection H as <- <-. split; [exact C|]. split.
  - exists [EvRequest req]. split; [reflexivity | apply fits_one, He].
  - intros; exact I.
Qed.

Lemma yields_response_json (response : Response) :
  yields url data (fits budget_zero E) (fun _ => True) (response_json response).
Proof.
  unfold response_json. destruct (body response);
    [apply yields_ret; exact I | apply yields_raise].
Qed.

Lemma yields_subscript (j : Json) (key : string) :
  yields url data (fits budget_zero E) (fun _ => True) (subscript j key).
Proof.
  destruct j; cbn [subscript]; try apply yields_raise.
  destruct (dict_get key d); [apply yields_ret; exact I | apply yields_raise].
Qed.

Lemma yields_unpack (j : Json) :
  yields url data (fits budget_zero E) (fun _ => True) (unpack j).
Proof.
  destruct j; cbn [unpack]; first [apply yields_raise | apply yields_ret; exact I].
Qed.

Hypothesis E_auth : E (EvAuthPost url data).

Lemma yields_bearer_token :
  yields url data (fits bearer_budget E) (fun v => exists tok, v = Fmt "Bearer " tok)
         bearer_token.
Proof.
  intros s r s' [Cu Cp] H.
  unfold bearer_token, bind, lift, time_time, get_self, set_token, ret in H.
  cbv beta iota in H. cbn [world self] in H.
  destruct (Qgtb _ _).
  - cbv beta iota in H. cbn [world self] in H.
    pose proof (new_token_trace (_auth_url (self s)) (_auth_payload (self s))
                  (tick (world s))) as T.
    destruct (__new_token _ _ _) as [[tok|e] w1]; cbn [snd] in T;
      injection H as <- <-; (split; [split; [exact Cu | exact Cp]|]); split.
    + exists [EvAuthPost url data]. unfold trace_of. cbn [world]. rewrite T, Cu, Cp.
      split; [reflexivity | apply (fits_one (EvAuthPost url data)), E_auth].
    + intros a Ha. injection Ha as <-. eexists. reflexivity.
    + exists [EvAuthPost url data]. unfold trace_of. cbn [world]. rewrite T, Cu, Cp.
      split; [reflexivity | apply (fits_one (EvAuthPost url data)), E_auth].
    + intros a Ha. discriminate Ha.
  - injection H as <- <-. split; [split; assumption|]. split.
    + exists []. split; [reflexivity|].
      apply (fits_weaken budget_zero); [intro k; apply Nat.le_0_l | apply fits_nil].
    + intros a Ha. injection Ha as <-. eexists. reflexivity.
Qed.

Lemma yields_headers :
  yields url data (fits bearer_budget E) (fun h => exists tok, h = headers_of tok)
         headers.
Proof.
  unfold headers.
  apply (yields_weaken (budget_add bearer_budget budget_zero) _
                       (fun h => exists tok, h = headers_of tok)).
  - intro k. unfold budget_add, budget_zero. lia.
  - auto.
  - apply (yields_bind _ _ (fun v => exists tok, v = Fmt "Bearer " tok));
      [apply yields_bearer_token|].
    intros auth [tok ->]. apply yields_ret. exists tok. reflexivity.
Qed.

End Yields.

Section Expected.
Variables (url : string) (data : Dict).
Variables (resource : string) (rt : ResourceType) (opts : Dict) (check_interval : Z).

Local Abbreviation E := (expected url data resource rt opts check_interval).

Lemma yields_backoff_retry {A} (b : Budget) (Q : A -> Prop) (target : M St A) :
  yields url data (fits b E) Q target ->
  forall more n,
    (forall j, (n <= j < n + more)%nat -> E (EvBackoff (2 ^ Z.of_nat j))) ->
    yields url data (fits (retry_budget more b) E) Q (backoff_retry more n target).
Proof.
  intro Ht. induction more as [|more IH]; intros n Hb s r s' C H;
    cbn [backoff_retry] in H.
  - destruct (target s) as [[v|e] s1] eqn:T.
    + injection H as <- <-. exact (Ht _ _ _ C T).
    + destruct e; injection H as <- <-; exact (Ht _ _ _ C T).
  - assert (W : forall k, (b k <= retry_budget (S more) b k)%nat).
    { intro k. cbn [retry_budget]. unfold budget_add. lia. }
    destruct (target s) as [[v|e] s1] eqn:T.
    + injection H as <- <-.
      exact (yields_weaken url data E b _ Q Q target W (fun a q => q) Ht _ _ _ C T).
    + destruct e;
        try (injection H as <- <-;
             exact (yields_weaken url data E b _ Q Q target W (fun a q => q) Ht
                      _ _ _ C T)).
      destruct (Ht _ _ _ C T) as (C1 & (n1 & T1 & F1) & _).
      assert (K : yields url data
                    (fits (budget_add (budget_one KBackoff) (retry_budget more b)) E)
                    Q
                    (lift (log (EvBackoff (2 ^ Z.of_nat n))) ;;;
                     backoff_retry more (S n) target)).
      { apply (yields_bind url data E _ _ (fun _ => True)).
        - apply (yields_log url data E (EvBackoff (2 ^ Z.of_nat n))).
          apply Hb. lia.
        - intros _ _. apply IH. intros j Hj. apply Hb. lia. }
      destruct (K _ _ _ C1 H) as (C2 & (n2 & T2 & F2) & V2).
      split; [exact C2|]. split; [|exact V2].
      exists (n2 ++ n1). rewrite T2, T1, app_assoc. split; [reflexivity|].
      cbn [retry_budget]. apply fits_app; assumption.
Qed.

Lemma expected_backoff (j : nat) : (0 <= j < 0 + 2)%nat -> E (EvBackoff (2 ^ Z.of_nat j)).
Proof.
  intro H. cbn [expected].
  destruct j as [|[|j]]; [left; reflexivity | right; reflexivity | lia].
Qed.

Lemma expected_auth : E (EvAuthPost url data).
Proof. split; reflexivity. Qed.

Lemma yields_submit_wrapped :
  yields url data (fits (attempt_budget KPost) E) (fun _ => True)
         (_submit_resource_type_wrapped resource rt opts).
Proof.
  unfold _submit_resource_type_wrapped. fold (submit_body resource opts).
  unfold attempt_budget.
  apply (yields_bind url data E _ _ (fun h => exists tok, h = headers_of tok));
    [apply yields_headers, expected_auth|].
  intros hdrs [tok ->].
  apply (yields_weaken url data E
           (budget_add (budget_one KPost) budget_zero) _ (fun _ => True));
    [intro k; unfold budget_add, budget_zero; lia | auto |].
  apply (yields_bind url data E _ _ (fun _ => True)).
  - apply (yields_send url data E
             (POST (BASE_URL ++ "/" ++ value rt) (headers_of tok)
                   (submit_body resource opts))).
    cbn [expected]. split; [reflexivity|]. split; [reflexivity|].
    exists tok. reflexivity.
  - intros response _.
    destruct (is_200_or_202 (status_code response)).
    + apply (yields_weaken url data E (budget_add budget_zero budget_zero) _
               (fun _ => True));
        [intro k; unfold budget_add, budget_zero; lia | auto |].
      apply (yields_bind url data E _ _ (fun _ => True));
        [apply yields_response_json | intros j _; apply yields_subscript].
    + destruct (status_code response =? 500)%Z; apply yields_raise.
Qed.

Lemma yields_check_wrapped (resource_id : Json) :
  yields url data (fits (attempt_budget KGet) E) (fun _ => True)
         (_check_resource_type_wrapped resource_id rt).
Proof.
  unfold _check_resource_type_wrapped, attempt_budget.
  apply (yields_bind url data E _ _ (fun h => exists tok, h = headers_of tok));
    [apply yields_headers, expected_auth|].
  intros hdrs [tok ->].
  apply (yields_weaken url data E
           (budget_add (budget_one KGet) budget_zero) _ (fun _ => True));
    [intro k; unfold budget_add, budget_zero; lia | auto |].
  apply (yields_bind url data E _ _ (fun _ => True)).
  - apply (yields_send url data E
             (GET (Fmt (BASE_URL ++ "/" ++ value rt ++ "/") resource_id)
                  (headers_of tok))).
    cbn [expected]. split; [exists resource_id; reflexivity|].
    exists tok. reflexivity.
  - intros response _.
    destruct (is_200_or_202 (status_code response));
      [apply yields_response_json|].
    destruct (status_code response =? 500)%Z; [apply yields_raise|].
    destruct ((status_code response <? 500)%Z && (400 <=? status_code response)%Z);
      apply yields_raise.
Qed.

Lemma yields_submit :
  yields url data (fits (call_budget KPost) E) (fun _ => True)
         (_submit_resource_type resource rt opts).
Proof.
  apply yields_backoff_retry; [apply yields_submit_wrapped | apply expected_backoff].
Qed.

Lemma yields_check (resource_id : Json) :
  yields url data (fits (call_budget KGet) E) (fun _ => True)
         (_check_resource_type resource_id rt).
Proof.
  apply yields_backoff_retry; [apply yields_check_wrapped | apply expected_backoff].
Qed.

Lemma has_input_set (i : Json) (d : Dict) :
  has_input (Some (JObj (dict_set "input" i d))).
Proof.
  exists (dict_set "input" i d), i. split; [reflexivity|].
  rewrite dict_get_set. reflexivity.
Qed.

Ltac budget_arith :=
  let k := fresh "k" in
  intro k;
  unfold budget_add, budget_scale, budget_zero, pass_budget, call_budget,
    attempt_budget, bearer_budget, budget_one;
  cbn [retry_budget]; unfold budget_add, budget_one;
  destruct k; cbn [Kind_eqb]; lia.

(** The polling loop: at most one pass per retry left, each within the
    budget of a pass; what it returns has an [input]. *)
Lemma yields_poll (resource_id : Json) (max_retries max_time : Z) (cutoff : Q)
    (fuel : nat) :
  forall (retries : Z) (error : Json),
    yields url data
      (fits (budget_scale (Z.to_nat (max_retries + 1 - retries)) pass_budget) E)
      (fun r => r = None \/ has_input r)
      (poll fuel resource_id rt max_retries max_time check_interval cutoff
            retries error).
Proof.
  induction fuel as [|fuel IH]; intros retries error; cbn [poll].
  { apply (yields_weaken url data E budget_zero _ (fun r => r = None \/ has_input r));
      [intro k; apply Nat.le_0_l | auto | apply yields_ret; left; reflexivity]. }
  set (Q := fun r : option Json => r = None \/ has_input r).
  destruct (Z.leb_spec retries max_retries) as [L|L].
  2: { apply (yields_weaken url data E (budget_add budget_zero budget_zero) _ Q);
         [intro k; apply Nat.le_0_l | auto |].
       apply (yields_bind url data E _ _ (fun go => go = false));
         [apply yields_ret; reflexivity|].
       intros go ->. apply yields_raise. }
  set (n' := Z.to_nat (max_retries + 1 - (retries + 1))).
  set (tail := budget_add (budget_one KLog)
                 (budget_add (budget_one KSleep) (budget_scale n' pass_budget))).
  assert (Loop : forall err,
             yields url data (fits (budget_scale n' pass_budget) E) Q
               (poll fuel resource_id rt max_retries max_time check_interval
                     cutoff (retries + 1)%Z err))
    by (intro err; apply IH).
  assert (Sleep : forall err,
             yields url data
               (fits (budget_add (budget_one KSleep) (budget_scale n' pass_budget)) E)
               Q
               (lift (asyncio_sleep check_interval) ;;;
                poll fuel resource_id rt max_retries max_time check_interval
                     cutoff (retries + 1)%Z err)).
  { intro err. apply (yields_bind url data E _ _ (fun _ => True)).
    - apply (yields_log url data E (EvSleep check_interval)). reflexivity.
    - intros _ _. apply Loop. }
  apply (yields_weaken url data E
           (budget_add (budget_add budget_zero budget_zero)
              (budget_add (call_budget KGet) tail)) _ Q);
    [subst tail n'; budget_arith | auto |].
  apply (yields_bind url data E _ _ (fun _ => True)).
  { apply (yields_bind url data E _ _ (fun _ => True));
      [apply yields_time | intros now _; apply yields_ret; exact I]. }
  intros go _. destruct go.
  2: { apply (yields_weaken url data E budget_zero _ Q);
         [intro k; apply Nat.le_0_l | auto | apply yields_raise]. }
  apply (yields_bind url data E _ _ (fun _ => True)); [apply yields_check|].
  intros check _.
  destruct (case_context check) as [[cdata _input]|].
  { apply (yields_weaken url data E (budget_add budget_zero budget_zero) _ Q);
      [intro k; apply Nat.le_0_l | auto |].
    apply (yields_bind url data E _ _ (fun _ => True)); [apply yields_unpack|].
    intros d _. apply yields_ret. right. apply has_input_set. }
  destruct (case_analysis check) as [[[options _input] analysis]|].
  { apply (yields_weaken url data E (budget_add budget_zero budget_zero) _ Q);
      [intro k; apply Nat.le_0_l | auto |].
    apply (yields_bind url data E _ _ (fun _ => True)); [apply yields_unpack|].
    intros d _. apply yields_ret. right. apply has_input_set. }
  destruct (case_processing check).
  { apply (yields_weaken url data E
             (budget_add (budget_one KSleep) (budget_scale n' pass_budget)) _ Q);
      [subst tail; intro k; unfold budget_add; lia | auto | apply Sleep]. }
  destruct (case_failed check) as [err|].
  - apply (yields_bind url data E _ _ (fun _ => True));
      [apply (yields_log url data E (EvWarnFailed check err)); exact I|].
    intros _ _. apply Sleep.
  - apply (yields_bind url data E _ _ (fun _ => True));
      [apply (yields_log url data E (EvWarnUnknown check)); exact I|].
    intros _ _. apply Sleep.
Qed.

(** The whole call: a submission, a log line, and the polling loop. *)
Lemma yields_submit_and_wait (max_retries max_time : Z) :
  yields url data
    (fits (budget_add (call_budget KPost)
             (budget_add (budget_one KLog)
                (budget_scale (Z.to_nat (max_retries + 1)) pass_budget))) E)
    (fun r => r = None \/ has_input r)
    (submit_and_wait_resource resource rt opts max_retries max_time
       check_interval).
Proof.
  unfold submit_and_wait_resource.
  apply (yields_bind url data E _ _ (fun _ => True)); [apply yields_submit|].
  intros resource_id _.
  apply (yields_bind url data E _ _ (fun _ => True));
    [apply (yields_log url data E (EvInfoSubmitted resource_id)); exact I|].
  intros _ _.
  apply (yields_weaken url data E
           (budget_add budget_zero
              (budget_scale (Z.to_nat (max_retries + 1 - 0)) pass_budget)) _
           (fun r => r = None \/ has_input r));
    [intro k; unfold budget_add, budget_zero, budget_scale;
     replace (max_retries + 1 - 0)%Z with (max_retries + 1)%Z by lia; lia
    | auto |].
  apply (yields_bind url data E _ _ (fun _ => True)); [apply yields_time|].
  intros now _. apply yields_poll.
Qed.

End Expected.

Lemma sleeps_count (tr : list Event) : sleeps tr = count KSleep tr.
Proof.
  induction tr as [|e tr IH]; [reflexivity|].
  destruct e as [| [] | | | | |]; cbn [sleeps count kind Kind_eqb]; lia.
Qed.

Lemma configured_self (s : St) :
  configured (_auth_url (self s)) (_auth_payload (self s)) s.
Proof. split; reflexivity. Qed.

(** X4: bounds on what one call of [submit_and_wait_resource] can do, in
    any world and whatever its outcome.  With [n = max_retries + 1] passes
    at most ([0] when [max_retries] is negative), the events it adds to the
    trace contain at most 3 submissions, [3 * n] status requests, [n]
    sleeps, [2 + 2 * n] waits of the retry decorator and [3 + 3 * n]
    credential exchanges. *)
Theorem submit_and_wait_bounds
    (resource : string) (rt : ResourceType) (opts : Dict)
    (max_retries max_time check_interval : Z) (s s' : St) (r : Res (option Json)) :
  submit_and_wait_resource resource rt opts max_retries max_time check_interval s
  = (r, s') ->
  let n := Z.to_nat (max_retries + 1) in
  exists new,
    trace_of s' = new ++ trace_of s /\
    (count KPost new <= 3)%nat /\
    (count KGet new <= 3 * n)%nat /\
    (count KSleep new <= n)%nat /\
    (count KBackoff new <= 2 + 2 * n)%nat /\
    (count KAuth new <= 3 + 3 * n)%nat.
Proof.
  intros H n.
  destruct (yields_submit_and_wait _ _ resource rt opts check_interval
              max_retries max_time s r s' (configured_self s) H)
    as (_ & (new & T & W & _) & _).
  exists new. split; [exact T|].
  pose proof (W KPost) as P. pose proof (W KGet) as G.
  pose proof (W KSleep) as Z0. pose proof (W KBackoff) as B.
  pose proof (W KAuth) as A.
  unfold budget_add, budget_scale, budget_zero, pass_budget, call_budget,
    attempt_budget, bearer_budget, budget_one in P, G, Z0, B, A.
  cbn [retry_budget] in P, G, Z0, B, A.
  unfold budget_add, budget_one in P, G, Z0, B, A.
  cbn [Kind_eqb] in P, G, Z0, B, A.
  fold n in P, G, Z0, B, A. repeat split; lia.
Qed.

Lemma submit_and_wait_bounds_witness :
  let s := mkSt (cached_client 1000)
             (frozen_world 7
                (api_stub (JObj [("id", JStr "r-1")])
                   (fun _ => JObj [("status", JStr "processing")]))) in
  let run := submit_and_wait_resource "some text" CONTEXT [] 2 600 0 s in
  exists new,
    trace_of (snd run) = new ++ trace_of s /\
    (count KPost new <= 3)%nat /\
    (count KGet new <= 3 * 3)%nat /\
    (count KSleep new <= 3)%nat /\
    (count KBackoff new <= 2 + 2 * 3)%nat /\
    (count KAuth new <= 3 + 3 * 3)%nat.
Proof.
  intros s run.
  exact (submit_and_wait_bounds "some text" CONTEXT [] 2 600 0 s (snd run)
           (fst run) (surjective_pairing run)).
Defined.

(** X5: what one call of [submit_and_wait_resource] never does, in any
    world and whatever its outcome.  The client keeps its identity endpoint
    and credential payload, and every event the call adds to the trace is
    one of: an exchange of exactly those credentials at that endpoint; a
    [POST] of [{input, options?}] to the endpoint of the resource kind; a
    [GET] below that endpoint; a sleep of exactly [check_interval]; a wait
    of the retry decorator with bound 1 or 2; a log line.  Every request
    carries the two headers built from a bearer value. *)
Theorem submit_and_wait_expected_effects
    (resource : string) (rt : ResourceType) (opts : Dict)
    (max_retries max_time check_interval : Z) (s s' : St) (r : Res (option Json)) :
  submit_and_wait_resource resource rt opts max_retries max_time check_interval s
  = (r, s') ->
  _auth_url (self s') = _auth_url (self s) /\
  _auth_payload (self s') = _auth_payload (self s) /\
  exists new,
    trace_of s' = new ++ trace_of s /\
    Forall (expected (_auth_url (self s)) (_auth_payload (self s))
                     resource rt opts check_interval) new.
Proof.
  intros H.
  destruct (yields_submit_and_wait _ _ resource rt opts check_interval
              max_retries max_time s r s' (configured_self s) H)
    as ((Cu & Cp) & (new & T & _ & F) & _).
  split; [exact Cu|]. split; [exact Cp|].
  exists new. split; [exact T | exact F].
Qed.

Lemma submit_and_wait_expected_effects_witness :
  let s := mkSt (cached_client 100)
             (frozen_world 101
                (api_stub (JObj [("id", JStr "r-1")])
                   (fun _ => JObj [("status", JStr "processing")]))) in
  let run := submit_and_wait_resource "some text" CONTEXT [] 2 600 5 s in
  self (snd run)
  = BlackbirdApiClient.mk "https://api.blackbird.ai/compass/token"
      [("username", JStr "alice"); ("password", JStr "secret");
       ("grant_type", JStr "password")]
      (Token.mk (JStr "fresh") (101 + 3600)) /\
  exists new,
    trace_of (snd run) = new ++ trace_of s /\
    Forall (expected "https://api.blackbird.ai/compass/token"
              [("username", JStr "alice"); ("password", JStr "secret");
               ("grant_type", JStr "password")]
              "some text" CONTEXT [] 5) new.
Proof.
  intros s run.
  destruct (submit_and_wait_expected_effects "some text" CONTEXT [] 2 600 5 s
              (snd run) (fst run) (surjective_pairing run)) as (_ & _ & F).
  split; [vm_compute; reflexivity | exact F].
Defined.

(** What the loop's postcondition and its termination give together. *)
Lemma returned_has_input
    (resource : string) (rt : ResourceType) (opts : Dict)
    (max_retries max_time check_interval : Z) (s s' : St) (v : option Json) :
  submit_and_wait_resource resource rt opts max_retries max_time check_interval s
  = (Ok v, s') ->
  v <> None /\ (v = None \/ has_input v).
Proof.
  intros H. split.
  - intros ->.
    apply (submit_and_wait_resource_total resource rt opts max_retries max_time
             check_interval s).
    rewrite H. reflexivity.
  - destruct (yields_submit_and_wait _ _ resource rt opts check_interval
                max_retries max_time s (Ok v) s' (configured_self s) H)
      as (_ & _ & V).
    exact (V v eq_refl).
Qed.

(** X6: whatever [submit_and_wait_resource] returns is a mapping that has
    an [input] key, in any world: the loop returns only from the two
    success cases, both of which set [input] last. *)
Theorem submit_and_wait_result_has_input
    (resource : string) (rt : ResourceType) (opts : Dict)
    (max_retries max_time check_interval : Z) (s s' : St) (v : option Json) :
  submit_and_wait_resource resource rt opts max_retries max_time check_interval s
  = (Ok v, s') ->
  exists d i, v = Some (JObj d) /\ dict_get "input" d = Some i.
Proof.
  intros H.
  destruct (returned_has_input _ _ _ _ _ _ _ _ _ H) as (N & [E | Hv]).
  - contradiction.
  - exact Hv.
Qed.

Lemma submit_and_wait_result_has_input_witness :
  exists d i,
    Some (JObj [("fake", JBool true); ("options", JObj [("explain", JBool true)]);
                ("input", JStr "http://img")])
    = Some (JObj d) /\ dict_get "input" d = Some i.
Proof.
  set (s := mkSt (cached_client 1000)
              (frozen_world 7
                 (api_stub (JObj [("id", JStr "r-2")])
                    (fun _ => JObj [("status", JStr "success");
                                    ("options", JObj [("explain", JBool true)]);
                                    ("input", JStr "http://img");
                                    ("analysis", JObj [("fake", JBool true)])])))).
  set (run := submit_and_wait_resource "http://img" VISION
                [("explain", JBool true)] 60 600 10 s).
  apply (submit_and_wait_result_has_input "http://img" VISION
           [("explain", JBool true)] 60 600 10 s (snd run)).
  vm_compute. reflexivity.
Defined.

(** X7: the retry count reported by the timeout error is never negative
    and never more than [max_retries + 1], in any world. *)
Theorem timeout_retries_bounded
    (resource : string) (rt : ResourceType) (opts : Dict)
    (max_retries max_time check_interval : Z) (s s' : St) (n mt : Z) (e : Json) :
  submit_and_wait_resource resource rt opts max_retries max_time check_interval s
  = (Raise (RuntimeError (Retried n mt e)), s') ->
  (0 <= n <= Z.max 0 (max_retries + 1))%Z.
Proof.
  intros H.
  destruct (submit_and_wait_timeout_report _ _ _ _ _ _ _ _ _ _ _ H)
    as (new & T & _ & _ & Hn).
  destruct (yields_submit_and_wait _ _ resource rt opts check_interval
              max_retries max_time s _ s' (configured_self s) H)
    as (_ & (new' & T' & W & _) & _).
  rewrite T in T'. apply app_inv_tail in T'. subst new'.
  pose proof (W KSleep) as Sl.
  unfold budget_add, budget_scale, budget_zero, pass_budget, call_budget,
    attempt_budget, bearer_budget, budget_one in Sl.
  cbn [retry_budget] in Sl. unfold budget_add, budget_one in Sl.
  cbn [Kind_eqb] in Sl.
  rewrite sleeps_count in Hn. lia.
Qed.

Lemma timeout_retries_bounded_witness :
  (0 <= 3 <= Z.max 0 (2 + 1))%Z.
Proof.
  set (s := mkSt (cached_client 1000)
              (frozen_world 7
                 (api_stub (JObj [("id", JStr "r-1")])
                    (fun _ => JObj [("status", JStr "processing")])))).
  set (run := submit_and_wait_resource "some text" CONTEXT [] 2 600 0 s).
  apply (timeout_retries_bounded "some text" CONTEXT [] 2 600 0 s (snd run)
           3 600 (JStr "")).
  vm_compute. reflexivity.
Defined.

(** ** Submission and status check, reply by reply *)

(** Three attempts of a call whose first two end in [RetryableError]. *)
Lemma on_exception_3_third {A} (target : M St A) (s s1 s2 : St)
    (i1 i2 : RetryableInfo) :
  target s = (Raise (RetryableError i1), s1) ->
  target (backed_off 1 s1) = (Raise (RetryableError i2), s2) ->
  on_exception 3 target s = target (backed_off 2 s2).
Proof.
  intros A1 A2. rewrite (on_exception_3_retry _ _ _ _ A1), A2. reflexivity.
Qed.

(** X8: a submission that keeps getting status 500 gives up after exactly
    three requests, separated by waits of bound 1 and 2, and raises the
    [RetryableError] of the third response. *)
Theorem submit_gives_up_after_three
    (resource : string) (rt : ResourceType) (opts : Dict) (s : St)
    (r1 r2 r3 : Response) :
  never_stale s ->
  api_replies s 0 r1 -> api_replies s 1 r2 -> api_replies s 2 r3 ->
  status_code r1 = 500%Z -> status_code r2 = 500%Z -> status_code r3 = 500%Z ->
  let req := submit_request resource rt opts (Token.token (token (self s))) in
  exists s',
    _submit_resource_type resource rt opts s
    = (Raise (RetryableError (SubmitRetry r3)), s') /\
    trace_of s'
    = [EvRequest req; EvBackoff 2; EvRequest req; EvBackoff 1; EvRequest req]
        ++ trace_of s /\
    api_calls (world s') = (api_calls (world s) + 3)%nat.
Proof.
  intros V R1 R2 R3 C1 C2 C3 req.
  set (attempt := _submit_resource_type_wrapped resource rt opts).
  set (s1 := attempted req s).
  set (s2 := attempted req (backed_off 1 s1)).
  set (s3 := attempted req (backed_off 2 s2)).
  assert (A1 : attempt s = (Raise (RetryableError (SubmitRetry r1)), s1)).
  { unfold attempt. rewrite (submit_wrapped_reply _ _ _ _ V). fold req.
    specialize (R1 req). rewrite Nat.add_0_r in R1. rewrite R1.
    unfold is_200_or_202. rewrite C1. reflexivity. }
  assert (V1 : never_stale (backed_off 1 s1))
    by (apply never_stale_backed_off, never_stale_attempted, V).
  assert (A2 : attempt (backed_off 1 s1)
               = (Raise (RetryableError (SubmitRetry r2)), s2)).
  { unfold attempt. rewrite (submit_wrapped_reply _ _ _ _ V1).
    change (self (backed_off 1 s1)) with (self s). fold req.
    change (api_server (world (backed_off 1 s1))
              (api_calls (world (backed_off 1 s1))) req)
      with (api_server (world s) (S (api_calls (world s))) req).
    specialize (R2 req). rewrite Nat.add_1_r in R2. rewrite R2.
    unfold is_200_or_202. rewrite C2. reflexivity. }
  assert (V2 : never_stale (backed_off 2 s2))
    by (apply never_stale_backed_off, never_stale_attempted, V1).
  assert (A3 : attempt (backed_off 2 s2)
               = (Raise (RetryableError (SubmitRetry r3)), s3)).
  { unfold attempt. rewrite (submit_wrapped_reply _ _ _ _ V2).
    change (self (backed_off 2 s2)) with (self s). fold req.
    change (api_server (world (backed_off 2 s2))
              (api_calls (world (backed_off 2 s2))) req)
      with (api_server (world s) (S (S (api_calls (world s)))) req).
    specialize (R3 req).
    replace (api_calls (world s) + 2)%nat with (S (S (api_calls (world s))))
      in R3 by lia.
    rewrite R3. unfold is_200_or_202. rewrite C3. reflexivity. }
  exists s3. split.
  - unfold _submit_resource_type. fold attempt.
    rewrite (on_exception_3_third _ _ _ _ _ _ A1 A2). exact A3.
  - split; [reflexivity|]. cbn. lia.
Qed.

Lemma submit_gives_up_after_three_witness :
  let s := mkSt (cached_client 100) (frozen_world 7 (api_status 500)) in
  fst (_submit_resource_type "some text" CONTEXT [] s)
  = Raise (RetryableError (SubmitRetry (mkResponse 500 None))) /\
  api_calls (world (snd (_submit_resource_type "some text" CONTEXT [] s))) = 3%nat.
Proof.
  intro s.
  assert (V : never_stale s) by (intros i; simpl; discriminate).
  assert (R : forall k, api_replies s k (mkResponse 500 None))
    by (intros k req; reflexivity).
  destruct (submit_gives_up_after_three "some text" CONTEXT [] s _ _ _
              V (R 0%nat) (R 1%nat) (R 2%nat) eq_refl eq_refl eq_refl)
    as (s' & E & _ & Calls).
  rewrite E. split; [reflexivity | exact Calls].
Defined.

(** X9: a submission answered 200 or 202 is never retried, whatever the
    body.  After exactly one request it returns the value under [id], any
    JSON value, or raises: [JSONDecodeError] when the body is not JSON,
    [TypeError] when it is JSON but not an object, [KeyError] when the
    object has no [id]. *)
Theorem submit_accepted_body
    (resource : string) (rt : ResourceType) (opts : Dict) (s : St) (r : Response) :
  never_stale s ->
  api_replies s 0 r ->
  is_200_or_202 (status_code r) = true ->
  let req := submit_request resource rt opts (Token.token (token (self s))) in
  _submit_resource_type resource rt opts s
  = (match body r with
     | None => Raise JSONDecodeError
     | Some (JObj d) =>
         match dict_get "id" d with
         | Some resource_id => Ok resource_id
         | None => Raise (KeyError "id")
         end
     | Some _ => Raise TypeError
     end,
     attempted req s).
Proof.
  intros V R C req.
  assert (A : _submit_resource_type_wrapped resource rt opts s
              = (match body r with
                 | None => Raise JSONDecodeError
                 | Some (JObj d) =>
                     match dict_get "id" d with
                     | Some resource_id => Ok resource_id
                     | None => Raise (KeyError "id")
                     end
                 | Some _ => Raise TypeError
                 end,
                 attempted req s)).
  { rewrite (submit_wrapped_reply _ _ _ _ V). fold req.
    specialize (R req). rewrite Nat.add_0_r in R. rewrite R, C.
    unfold bind, response_json. destruct (body r) as [j|]; [|reflexivity].
    unfold ret at 1. destruct j; try reflexivity.
    cbn [subscript]. destruct (dict_get "id" d); reflexivity. }
  unfold _submit_resource_type.
  destruct (body r) as [[| | | | |d]|];
    try (apply backoff_retry_fatal; [exact A | intros i; discriminate]).
  destruct (dict_get "id" d).
  - apply backoff_retry_ok. exact A.
  - apply backoff_retry_fatal; [exact A | intros i; discriminate].
Qed.

Lemma submit_accepted_body_witness :
  let s := mkSt (cached_client 100)
             (frozen_world 7 (api_script [202]%Z (JObj [("job", JStr "r-1")]))) in
  _submit_resource_type "some text" CONTEXT [] s
  = (Raise (KeyError "id"),
     attempted (submit_request "some text" CONTEXT [] (JStr "cached")) s).
Proof.
  intro s.
  assert (V : never_stale s) by (intros i; simpl; discriminate).
  assert (R : api_replies s 0 (mkResponse 202 (Some (JObj [("job", JStr "r-1")]))))
    by (intros req; reflexivity).
  exact (submit_accepted_body "some text" CONTEXT [] s _ V R eq_refl).
Defined.

(** One attempt of a status check that is answered neither 200/202 nor
    500. *)
Lemma check_wrapped_rejected
    (resource_id : Json) (rt : ResourceType) (s : St) (r : Response) :
  never_stale s ->
  api_replies s 0 r ->
  status_code r <> 200%Z -> status_code r <> 202%Z -> status_code r <> 500%Z ->
  _check_resource_type_wrapped resource_id rt s
  = (Raise (RuntimeError
             (if (400 <=? status_code r)%Z && (status_code r <=? 499)%Z
              then NotFound rt resource_id r
              else SubmitFailed r)),
     attempted (check_request resource_id rt (Token.token (token (self s)))) s).
Proof.
  intros V R N200 N202 N500.
  set (req := check_request resource_id rt (Token.token (token (self s)))).
  assert (C : is_200_or_202 (status_code r) = false).
  { unfold is_200_or_202. apply orb_false_iff. split; apply Z.eqb_neq; assumption. }
  rewrite (check_wrapped_reply _ _ _ V). fold req.
  specialize (R req). rewrite Nat.add_0_r in R. rewrite R, C.
  replace (status_code r =? 500)%Z with false
    by (symmetry; apply Z.eqb_neq; exact N500).
  replace ((status_code r <? 500)%Z && (400 <=? status_code r)%Z)
    with ((400 <=? status_code r)%Z && (status_code r <=? 499)%Z).
  - destruct ((400 <=? status_code r)%Z && (status_code r <=? 499)%Z);
      reflexivity.
  - rewrite andb_comm. f_equal.
    destruct (Z.leb_spec (status_code r) 499), (Z.ltb_spec (status_code r) 500);
      try reflexivity; lia.
Qed.

(** X10: how a status check classifies a response that is neither 200/202
    nor 500.  It is never retried: after exactly one request the check
    raises the "not found" error for a status from 400 to 499 and the
    generic failure for any other status, among them every 5xx other than
    500. *)
Theorem check_failure_classes
    (resource_id : Json) (rt : ResourceType) (s : St) (r : Response) :
  never_stale s ->
  api_replies s 0 r ->
  status_code r <> 200%Z -> status_code r <> 202%Z -> status_code r <> 500%Z ->
  let req := check_request resource_id rt (Token.token (token (self s))) in
  _check_resource_type resource_id rt s
  = (Raise (RuntimeError
             (if (400 <=? status_code r)%Z && (status_code r <=? 499)%Z
              then NotFound rt resource_id r
              else SubmitFailed r)),
     attempted req s).
Proof.
  intros V R N200 N202 N500 req.
  apply backoff_retry_fatal.
  - exact (check_wrapped_rejected resource_id rt s r V R N200 N202 N500).
  - intros i. discriminate.
Qed.

Lemma check_failure_classes_witness :
  let s := mkSt (cached_client 100) (frozen_world 7 (api_status 503)) in
  _check_resource_type (JStr "r-1") VISION s
  = (Raise (RuntimeError (SubmitFailed (mkResponse 503 None))),
     attempted (check_request (JStr "r-1") VISION (JStr "cached")) s).
Proof.
  intro s.
  assert (V : never_stale s) by (intros i; simpl; discriminate).
  assert (R : api_replies s 0 (mkResponse 503 None)) by (intros req; reflexivity).
  exact (check_failure_classes (JStr "r-1") VISION s _ V R
           ltac:(discriminate) ltac:(discriminate) ltac:(discriminate)).
Defined.

(** X11: a status check retries on status 500 like a submission does.
    After two responses 500 and a third response 200 or 202 with a JSON
    body it returns that body, whatever JSON it is, after exactly three
    requests and the waits of bound 1 and 2; after three responses 500 it
    raises [RetryableError]. *)
Theorem check_retries_on_500
    (resource_id : Json) (rt : ResourceType) (s : St) (r1 r2 r3 : Response) :
  never_stale s ->
  api_replies s 0 r1 -> api_replies s 1 r2 -> api_replies s 2 r3 ->
  status_code r1 = 500%Z -> status_code r2 = 500%Z ->
  let req := check_request resource_id rt (Token.token (token (self s))) in
  let s' := attempted req (backed_off 2 (attempted req (backed_off 1
              (attempted req s)))) in
  (forall j,
      is_200_or_202 (status_code r3) = true -> body r3 = Some j ->
      _check_resource_type resource_id rt s = (Ok j, s')) /\
  (status_code r3 = 500%Z ->
   _check_resource_type resource_id rt s
   = (Raise (RetryableError (CheckRetry rt resource_id)), s')) /\
  trace_of s'
  = [EvRequest req; EvBackoff 2; EvRequest req; EvBackoff 1; EvRequest req]
      ++ trace_of s.
Proof.
  intros V R1 R2 R3 C1 C2 req s'.
  set (attempt := _check_resource_type_wrapped resource_id rt).
  set (s1 := attempted req s).
  set (s2 := attempted req (backed_off 1 s1)).
  assert (A1 : attempt s
               = (Raise (RetryableError (CheckRetry rt resource_id)), s1)).
  { unfold attempt. rewrite (check_wrapped_reply _ _ _ V). fold req.
    specialize (R1 req). rewrite Nat.add_0_r in R1. rewrite R1.
    unfold is_200_or_202. rewrite C1. reflexivity. }
  assert (V1 : never_stale (backed_off 1 s1))
    by (apply never_stale_backed_off, never_stale_attempted, V).
  assert (A2 : attempt (backed_off 1 s1)
               = (Raise (RetryableError (CheckRetry rt resource_id)), s2)).
  { unfold attempt. rewrite (check_wrapped_reply _ _ _ V1).
    change (self (backed_off 1 s1)) with (self s). fold req.
    change (api_server (world (backed_off 1 s1))
              (api_calls (world (backed_off 1 s1))) req)
      with (api_server (world s) (S (api_calls (world s))) req).
    specialize (R2 req). rewrite Nat.add_1_r in R2. rewrite R2.
    unfold is_200_or_202. rewrite C2. reflexivity. }
  assert (V2 : never_stale (backed_off 2 s2))
    by (apply never_stale_backed_off, never_stale_attempted, V1).
  assert (A3 : attempt (backed_off 2 s2)
               = (if is_200_or_202 (status_code r3)
                  then response_json r3 s'
                  else if (status_code r3 =? 500)%Z
                  then (Raise (RetryableError (CheckRetry rt resource_id)), s')
                  else if (status_code r3 <? 500)%Z && (400 <=? status_code r3)%Z
                  then (Raise (RuntimeError (NotFound rt resource_id r3)), s')
                  else (Raise (RuntimeError (SubmitFailed r3)), s'))).
  { unfold attempt. rewrite (check_wrapped_reply _ _ _ V2).
    change (self (backed_off 2 s2)) with (self s). fold req.
    change (api_server (world (backed_off 2 s2))
              (api_calls (world (backed_off 2 s2))) req)
      with (api_server (world s) (S (S (api_calls (world s)))) req).
    specialize (R3 req).
    replace (api_calls (world s) + 2)%nat with (S (S (api_calls (world s))))
      in R3 by lia.
    rewrite R3. reflexivity. }
  assert (U : _check_resource_type resource_id rt s = attempt (backed_off 2 s2)).
  { unfold _check_resource_type. fold attempt.
    exact (on_exception_3_third _ _ _ _ _ _ A1 A2). }
  split; [|split; [|reflexivity]].
  - intros j C B. rewrite U, A3, C. unfold response_json. rewrite B. reflexivity.
  - intros C3. rewrite U, A3. unfold is_200_or_202. rewrite C3. reflexivity.
Qed.

Lemma check_retries_on_500_witness :
  let s := mkSt (cached_client 100)
             (frozen_world 7 (api_script [500; 500; 202]%Z (JArr []))) in
  fst (_check_resource_type (JStr "r-1") CONTEXT s) = Ok (JArr []) /\
  fst (_check_resource_type (JStr "r-1") CONTEXT
         (mkSt (cached_client 100) (frozen_world 7 (api_status 500))))
  = Raise (RetryableError (CheckRetry CONTEXT (JStr "r-1"))).
Proof.
  intro s. split.
  - assert (V : never_stale s) by (intros i; simpl; discriminate).
    assert (R1 : api_replies s 0 (mkResponse 500 (Some (JArr []))))
      by (intros req; reflexivity).
    assert (R2 : api_replies s 1 (mkResponse 500 (Some (JArr []))))
      by (intros req; reflexivity).
    assert (R3 : api_replies s 2 (mkResponse 202 (Some (JArr []))))
      by (intros req; reflexivity).
    destruct (check_retries_on_500 (JStr "r-1") CONTEXT s _ _ _ V R1 R2 R3
                eq_refl eq_refl) as (Returns & _).
    rewrite (Returns (JArr []) eq_refl eq_refl). reflexivity.
  - set (s0 := mkSt (cached_client 100) (frozen_world 7 (api_status 500))).
    assert (V : never_stale s0) by (intros i; simpl; discriminate).
    assert (R : forall k, api_replies s0 k (mkResponse 500 None))
      by (intros k req; reflexivity).
    destruct (check_retries_on_500 (JStr "r-1") CONTEXT s0 _ _ _ V
                (R 0%nat) (R 1%nat) (R 2%nat) eq_refl eq_refl) as (_ & GivesUp & _).
    rewrite (GivesUp eq_refl). reflexivity.
Defined.

(** X12: a request made right after a refresh carries the new token.  When
    the cached token is stale, the identity provider grants and the API
    accepts, a submission makes one credential exchange, then one [POST]
    whose [Authorization] header is built from the granted token, and
    returns the identifier. *)
Theorem submit_after_refresh
    (resource : string) (rt : ResourceType) (opts : Dict) (s : St)
    (c : Z) (d : Dict) (tokv e : Json) (q : Q) (c' : Z) (d' : Dict)
    (resource_id : Json) :
  (Token.expiration_time (token (self s))
   < clock (world s) (ticks (world s)) - (1#2))%Q ->
  auth_server (world s) (auth_calls (world s))
    (_auth_url (self s)) (_auth_payload (self s)) = answer c (JObj d) ->
  dict_get "error" d = None ->
  dict_get "access_token" d = Some tokv ->
  dict_get "expires_in" d = Some e ->
  seconds_of e = Some q ->
  api_server (world s) (api_calls (world s)) (submit_request resource rt opts tokv)
  = answer c' (JObj d') ->
  is_200_or_202 c' = true ->
  dict_get "id" d' = Some resource_id ->
  exists s',
    _submit_resource_type resource rt opts s = (Ok resource_id, s') /\
    trace_of s'
    = [EvRequest (submit_request resource rt opts tokv);
       EvAuthPost (_auth_url (self s)) (_auth_payload (self s))] ++ trace_of s /\
    Token.token (token (self s')) = tokv.
Proof.
  intros Stale R E A X Sec R' C' I.
  eexists. split.
  - apply backoff_retry_ok.
    unfold _submit_resource_type_wrapped. fold (submit_body resource opts).
    unfold bind at 1. unfold headers, bind at 1.
    rewrite (bearer_token_stale s Stale).
    rewrite (new_token_ok_intro (_auth_url (self s)) (_auth_payload (self s))
               (tick (world s))
               (tick (auth_called (_auth_url (self s)) (_auth_payload (self s))
                        (tick (world s))))
               (Token.mk tokv (clock (world s) (S (ticks (world s))) + q)%Q))
      by (exists c, d, e, q; repeat split; assumption).
    cbn [Token.token]. unfold ret at 1. unfold bind at 1, lift, session_send.
    cbn [world self tick auth_called api_server api_calls].
    fold (headers_of tokv). fold (submit_request resource rt opts tokv).
    rewrite R'. unfold answer. cbn [of_reply status_code]. rewrite C'.
    unfold bind, response_json. cbn [body]. unfold ret, subscript.
    rewrite I. reflexivity.
  - split; reflexivity.
Qed.

Lemma submit_after_refresh_witness :
  let s := mkSt (cached_client 100)
             (frozen_world 101 (api_script [200]%Z (JObj [("id", JStr "r-1")]))) in
  fst (_submit_resource_type "some text" CONTEXT [] s) = Ok (JStr "r-1") /\
  Token.token (token (self (snd (_submit_resource_type "some text" CONTEXT [] s))))
  = JStr "fresh".
Proof.
  intro s.
  destruct (submit_after_refresh "some text" CONTEXT [] s
              200 [("access_token", JStr "fresh"); ("expires_in", JNum 3600)]
              (JStr "fresh") (JNum 3600) 3600%Q
              200 [("id", JStr "r-1")] (JStr "r-1"))
    as (s' & Run & _ & Tok); try reflexivity.
  rewrite Run. split; [reflexivity | exact Tok].
Defined.

(** ** Edges of the orchestrator *)

(** X13: errors of either step end the call.  A submission that raises
    makes [submit_and_wait_resource] raise the same exception in the same
    state: nothing is logged and no status is checked.  After an accepted
    submission, a first status check answered with a status from 400 to 499
    makes the call raise the "not found" error after that one check,
    without sleeping and without a second check. *)
Theorem orchestrator_errors_are_fatal
    (resource : string) (rt : ResourceType) (opts : Dict)
    (max_retries max_time check_interval : Z) (s : St) :
  (forall e s1,
      _submit_resource_type resource rt opts s = (Raise e, s1) ->
      submit_and_wait_resource resource rt opts max_retries max_time
        check_interval s = (Raise e, s1)) /\
  (forall resource_id r,
      never_stale s ->
      accepted s (submit_request resource rt opts (Token.token (token (self s))))
               resource_id ->
      api_replies s 1 r ->
      (400 <= status_code r <= 499)%Z ->
      (0 <= max_retries)%Z ->
      within_budget (world s) max_time ->
      exists s',
        submit_and_wait_resource resource rt opts max_retries max_time
          check_interval s
        = (Raise (RuntimeError (NotFound rt resource_id r)), s') /\
        status_checks (trace_of s') = S (status_checks (trace_of s)) /\
        sleeps (trace_of s') = sleeps (trace_of s)).
Proof.
  split.
  - intros e s1 H. unfold submit_and_wait_resource, bind. rewrite H. reflexivity.
  - intros rid r V A R C M B.
    rewrite (submit_and_wait_enters_loop _ _ _ _ _ _ _ _ V A).
    set (req := submit_request resource rt opts (Token.token (token (self s)))).
    set (s1 := logged (EvInfoSubmitted rid) (attempted req s)).
    set (s2 := on_world tick s1).
    assert (V2 : never_stale (on_world tick s2)) by (intros i; apply V).
    assert (R2 : api_replies (on_world tick s2) 0 r).
    { intros q. specialize (R q). rewrite Nat.add_1_r in R.
      cbn. rewrite Nat.add_0_r. exact R. }
    pose proof (check_wrapped_rejected rid rt (on_world tick s2) r V2 R2
                  ltac:(lia) ltac:(lia) ltac:(lia)) as K.
    replace ((400 <=? status_code r)%Z && (status_code r <=? 499)%Z) with true in K
      by (symmetry; apply andb_true_iff; split; apply Z.leb_le; lia).
    apply (backoff_retry_fatal _ 2 0) in K; [|intros j; discriminate].
    fold (on_exception 3 (_check_resource_type_wrapped rid rt)) in K.
    fold (_check_resource_type rid rt) in K.
    eexists. split.
    + unfold poll_fuel.
      apply (poll_check_raised rid rt max_retries max_time check_interval _ _ 0
               (JStr "") s2 _ _ M (B _ _) K).
    + split; reflexivity.
Qed.

Lemma orchestrator_errors_are_fatal_witness :
  let gone := mkSt (cached_client 100) (frozen_world 7 (api_status 404)) in
  let lost := mkSt (cached_client 100)
                (frozen_world 7 (api_script [200; 404]%Z
                                            (JObj [("id", JStr "r-1")]))) in
  fst (submit_and_wait_resource "some text" CONTEXT [] 60 600 10 gone)
  = Raise (RuntimeError (SubmitFailed (mkResponse 404 None))) /\
  fst (submit_and_wait_resource "some text" CONTEXT [] 60 600 10 lost)
  = Raise (RuntimeError
             (NotFound CONTEXT (JStr "r-1")
                (mkResponse 404 (Some (JObj [("id", JStr "r-1")]))))).
Proof.
  intros gone lost. split.
  - destruct (orchestrator_errors_are_fatal "some text" CONTEXT [] 60 600 10 gone)
      as (Submit & _).
    rewrite (Submit (RuntimeError (SubmitFailed (mkResponse 404 None)))
               (snd (_submit_resource_type "some text" CONTEXT [] gone)) eq_refl).
    reflexivity.
  - destruct (orchestrator_errors_are_fatal "some text" CONTEXT [] 60 600 10 lost)
      as (_ & Check).
    assert (V : never_stale lost) by (intros i; simpl; discriminate).
    assert (A : accepted lost
                  (submit_request "some text" CONTEXT []
                     (Token.token (token (self lost)))) (JStr "r-1")).
    { exists 200%Z, [("id", JStr "r-1")]. repeat split. }
    assert (R : api_replies lost 1
                  (mkResponse 404 (Some (JObj [("id", JStr "r-1")]))))
      by (intros req; reflexivity).
    assert (B : within_budget (world lost) 600) by (intros i j; reflexivity).
    destruct (Check (JStr "r-1") _ V A R ltac:(cbn; lia) ltac:(lia) B)
      as (s' & E & _).
    rewrite E. reflexivity.
Defined.

Lemma inject_Z_nonpos (z : Z) : (z <= 0)%Z -> (inject_Z z <= 0)%Q.
Proof.
  intro H. change 0%Q with (inject_Z 0). rewrite <- Zle_Qle. exact H.
Qed.

(** X14: an empty budget still submits.  Once the submission has returned
    an identifier, a negative [max_retries] makes the call raise the timeout
    error with zero retries without any status check; so does a [max_time]
    that is zero or negative, provided the clock does not go back between
    the reading that sets the cutoff and the first reading of the loop. *)
Theorem empty_budget_never_checks
    (resource : string) (rt : ResourceType) (opts : Dict)
    (max_retries max_time check_interval : Z) (s s1 : St) (resource_id : Json) :
  _submit_resource_type resource rt opts s = (Ok resource_id, s1) ->
  let s2 := logged (EvInfoSubmitted resource_id) s1 in
  ((max_retries < 0)%Z ->
   submit_and_wait_resource resource rt opts max_retries max_time check_interval s
   = (Raise (RuntimeError (Retried 0 max_time (JStr ""))), on_world tick s2)) /\
  ((0 <= max_retries)%Z ->
   (max_time <= 0)%Z ->
   (clock (world s1) (ticks (world s1))
    <= clock (world s1) (S (ticks (world s1))))%Q ->
   submit_and_wait_resource resource rt opts max_retries max_time check_interval s
   = (Raise (RuntimeError (Retried 0 max_time (JStr ""))),
      on_world tick (on_world tick s2))).
Proof.
  intros H s2.
  assert (U : submit_and_wait_resource resource rt opts max_retries max_time
                check_interval s
              = poll (poll_fuel max_retries) resource_id rt max_retries max_time
                     check_interval
                     (clock (world s2) (ticks (world s2)) + inject_Z max_time)%Q
                     0 (JStr "") (on_world tick s2)).
  { unfold submit_and_wait_resource. unfold bind at 1. rewrite H. reflexivity. }
  rewrite U. unfold poll_fuel. split.
  - intro M. apply poll_exhausted_retries. exact M.
  - intros M T C. apply poll_exhausted_time; [exact M|].
    change (clock (world (on_world tick s2)) (ticks (world (on_world tick s2))))
      with (clock (world s1) (S (ticks (world s1)))).
    change (clock (world s2) (ticks (world s2)))
      with (clock (world s1) (ticks (world s1))).
    pose proof (inject_Z_nonpos max_time T). lra.
Qed.

Lemma empty_budget_never_checks_witness :
  let s := mkSt (cached_client 100)
             (frozen_world 7 (api_script [200]%Z (JObj [("id", JStr "r-1")]))) in
  fst (submit_and_wait_resource "some text" CONTEXT [] (-1) 600 10 s)
  = Raise (RuntimeError (Retried 0 600 (JStr ""))) /\
  fst (submit_and_wait_resource "some text" CONTEXT [] 60 0 10 s)
  = Raise (RuntimeError (Retried 0 0 (JStr ""))).
Proof.
  intro s.
  set (s1 := attempted (submit_request "some text" CONTEXT [] (JStr "cached")) s).
  assert (H : _submit_resource_type "some text" CONTEXT [] s = (Ok (JStr "r-1"), s1))
    by reflexivity.
  split.
  - destruct (empty_budget_never_checks "some text" CONTEXT [] (-1) 600 10 s s1
                (JStr "r-1") H) as (Retries & _).
    rewrite (Retries ltac:(lia)). reflexivity.
  - destruct (empty_budget_never_checks "some text" CONTEXT [] 60 0 10 s s1
                (JStr "r-1") H) as (_ & Budget).
    rewrite (Budget ltac:(lia) ltac:(lia) ltac:(cbn; discriminate)). reflexivity.
Defined.

(** X15: a "success" payload whose payload part is not a mapping breaks the
    call.  When the status check returns an object tagged "success" with an
    [input] and a [context] that is not a JSON object, or without [context]
    but with [options] and an [analysis] that is not a JSON object, the pass
    raises [TypeError]: nothing is returned and polling stops. *)
Theorem success_payload_not_a_mapping
    (fuel : nat) (resource_id : Json) (rt : ResourceType)
    (max_retries max_time check_interval : Z) (cutoff : Q)
    (retries : Z) (error : Json) (s s1 : St) (d : Dict) (i : Json) :
  (retries <= max_retries)%Z ->
  (clock (world s) (ticks (world s)) < cutoff)%Q ->
  _check_resource_type resource_id rt (on_world tick s) = (Ok (JObj d), s1) ->
  dict_get "status" d = Some (JStr "success") ->
  dict_get "input" d = Some i ->
  (forall c, dict_get "context" d = Some c -> (forall o, c <> JObj o) ->
     poll (S fuel) resource_id rt max_retries max_time check_interval cutoff
          retries error s = (Raise TypeError, s1)) /\
  (forall o a, dict_get "context" d = None -> dict_get "options" d = Some o ->
     dict_get "analysis" d = Some a -> (forall m, a <> JObj m) ->
     poll (S fuel) resource_id rt max_retries max_time check_interval cutoff
          retries error s = (Raise TypeError, s1)).
Proof.
  intros L T K St I. split.
  - intros c C N.
    exact (context_not_a_mapping fuel resource_id rt max_retries max_time
             check_interval cutoff retries error s s1 d c i L T K St C I N).
  - intros o a C O A N.
    rewrite (poll_checked _ _ _ _ _ _ _ _ _ _ _ _ L T K).
    cbn [case_context case_analysis].
    rewrite (status_is_here d "success" St), C, O, I, A.
    destruct a; try reflexivity. exfalso. exact (N _ eq_refl).
Qed.

Lemma success_payload_not_a_mapping_witness :
  let d := [("status", JStr "success"); ("context", JNull);
            ("input", JStr "claim text")] in
  let s := mkSt (cached_client 1000)
             (frozen_world 7
                (api_stub (JObj [("id", JStr "r-1")]) (fun _ => JObj d))) in
  poll 1 (JStr "r-1") CONTEXT 60 600 10 100 0 (JStr "") s
  = (Raise TypeError,
     attempted (check_request (JStr "r-1") CONTEXT (JStr "cached"))
       (on_world tick s)).
Proof.
  intros d s.
  destruct (success_payload_not_a_mapping 0 (JStr "r-1") CONTEXT 60 600 10 100 0
              (JStr "") s
              (attempted (check_request (JStr "r-1") CONTEXT (JStr "cached"))
                 (on_world tick s))
              d (JStr "claim text")
              ltac:(discriminate) eq_refl eq_refl eq_refl eq_refl)
    as (Ctx & _).
  apply (Ctx JNull); [reflexivity | intros o; discriminate].
Defined.

(** X16: what else the last [case] takes.  A status payload that is not an
    object, or whose [status] is missing, not a string or none of the three
    known strings, or that is "failed" without an [error], is logged as
    unknown; the loop sleeps [check_interval] and goes on with [retries + 1],
    and the recorded error stays what it was. *)
Theorem unrecognised_status_is_retried
    (fuel : nat) (resource_id : Json) (rt : ResourceType)
    (max_retries max_time check_interval : Z) (cutoff : Q)
    (retries : Z) (error : Json) (s s1 : St) (check : Json) :
  (retries <= max_retries)%Z ->
  (clock (world s) (ticks (world s)) < cutoff)%Q ->
  _check_resource_type resource_id rt (on_world tick s) = (Ok check, s1) ->
  unrecognised check ->
  poll (S fuel) resource_id rt max_retries max_time check_interval cutoff
       retries error s
  = poll fuel resource_id rt max_retries max_time check_interval cutoff
         (retries + 1)%Z error
         (slept check_interval (logged (EvWarnUnknown check) s1)).
Proof.
  intros L T K U.
  rewrite (poll_checked _ _ _ _ _ _ _ _ _ _ _ _ L T K).
  assert (C : case_context check = None /\ case_analysis check = None /\
              case_processing check = false /\ case_failed check = None).
  { destruct check; try (repeat split; fail).
    cbn [unrecognised] in U.
    cbn [case_context case_analysis case_processing case_failed].
    unfold status_is.
    destruct (dict_get "status" d) as [[| | | st | |]|]; try (repeat split; fail).
    destruct U as [[-> E] | (N1 & N2 & N3)].
    - cbn. rewrite E. repeat split.
    - apply String.eqb_neq in N1, N2, N3. rewrite N1, N2, N3. repeat split. }
  destruct C as (-> & -> & -> & ->). reflexivity.
Qed.

Lemma unrecognised_status_is_retried_witness :
  let d := [("status", JStr "failed"); ("reason", JStr "boom")] in
  let s := mkSt (cached_client 1000)
             (frozen_world 7
                (api_stub (JObj [("id", JStr "r-1")]) (fun _ => JObj d))) in
  let s1 := attempted (check_request (JStr "r-1") CONTEXT (JStr "cached"))
              (on_world tick s) in
  poll 1 (JStr "r-1") CONTEXT 60 600 10 100 0 (JStr "earlier") s
  = poll 0 (JStr "r-1") CONTEXT 60 600 10 100 1 (JStr "earlier")
         (slept 10 (logged (EvWarnUnknown (JObj d)) s1)).
Proof.
  intros d s s1.
  apply (unrecognised_status_is_retried 0 (JStr "r-1") CONTEXT 60 600 10 100 0
           (JStr "earlier") s s1 (JObj d)).
  - discriminate.
  - reflexivity.
  - reflexivity.
  - left. split; reflexivity.
Defined.

(** ** Construction and start-up *)

Lemma init_client_grant (client_id client_secret username password : option string)
    (w : World) :
  str_truthy username && str_truthy password = false ->
  __init__ client_id client_secret username password w
  = __init__ client_id client_secret None None w.
Proof.
  intros H. unfold __init__. rewrite H. reflexivity.
Qed.

(** X17: the client-credential grant.  When the username and password pair
    is not complete (either one absent or empty) and both client id and
    secret are non-empty, the constructor sends exactly one request, to the
    OAuth2 token endpoint with body
    [{client_id, client_secret, grant_type: "client_credentials"}], whatever
    was given as username or password; a client that comes out of it is
    configured with that endpoint and body. *)
Theorem init_client_credentials
    (client_id client_secret : string) (username password : option string)
    (w : World) :
  str_truthy username && str_truthy password = false ->
  client_id <> "" -> client_secret <> "" ->
  let url := "https://blackbird-ai.auth.us-west-2.amazoncognito.com/oauth2/token" in
  let payload := [("client_id", JStr client_id);
                  ("client_secret", JStr client_secret);
                  ("grant_type", JStr "client_credentials")] in
  let run := __init__ (Some client_id) (Some client_secret) username password w in
  run = (tok <- __new_token url payload ;; ret (BlackbirdApiClient.mk url payload tok)) w /\
  trace (snd run) = EvAuthPost url payload :: trace w /\
  (forall c, fst run = Ok c -> _auth_url c = url /\ _auth_payload c = payload).
Proof.
  intros Hup Hi Hs url payload run.
  assert (Ti : str_truthy (Some client_id) = true)
    by (simpl; apply negb_true_iff, String.eqb_neq; exact Hi).
  assert (Ts : str_truthy (Some client_secret) = true)
    by (simpl; apply negb_true_iff, String.eqb_neq; exact Hs).
  assert (E : run = (tok <- __new_token url payload ;;
                     ret (BlackbirdApiClient.mk url payload tok)) w).
  { unfold run, __init__. rewrite Hup, Ti, Ts. reflexivity. }
  split; [exact E|]. rewrite E. unfold bind.
  pose proof (new_token_trace url payload w) as T.
  destruct (__new_token url payload w) as [[tok|e] w']; simpl in *.
  - split; [exact T|]. intros c Hc. injection Hc as <-. split; reflexivity.
  - split; [exact T|]. intros c Hc. discriminate Hc.
Qed.

Lemma init_client_credentials_witness :
  fst (__init__ (Some "id") (Some "key") (Some "alice") None
         (frozen_world 0 (api_status 200)))
  = Ok (BlackbirdApiClient.mk
          "https://blackbird-ai.auth.us-west-2.amazoncognito.com/oauth2/token"
          [("client_id", JStr "id"); ("client_secret", JStr "key");
           ("grant_type", JStr "client_credentials")]
          (Token.mk (JStr "fresh") (0 + 3600))).
Proof.
  destruct (init_client_credentials "id" "key" (Some "alice") None
              (frozen_world 0 (api_status 200)) eq_refl
              ltac:(discriminate) ltac:(discriminate)) as (E & _).
  rewrite E. reflexivity.
Defined.

(** X18: no client without a granted token.  When the constructor returns
    a client, exactly one request was made, to the endpoint and with the
    payload the client is configured with; its response was an object
    without [error], and the client's token is the [access_token] of that
    response, expiring [expires_in] seconds after the reading of the clock
    taken at construction.  When the constructor raises, either it is the
    configuration error and nothing was done, or one request was made. *)
Theorem init_outcomes
    (client_id client_secret username password : option string) (w w' : World) :
  (forall c,
      __init__ client_id client_secret username password w = (Ok c, w') ->
      exists (code : Z) (d : Dict) (e : Json) (q : Q),
        auth_server w (auth_calls w) (_auth_url c) (_auth_payload c)
        = answer code (JObj d) /\
        dict_get "error" d = None /\
        dict_get "access_token" d = Some (Token.token (token c)) /\
        dict_get "expires_in" d = Some e /\
        seconds_of e = Some q /\
        Token.expiration_time (token c) = (clock w (ticks w) + q)%Q /\
        w' = tick (auth_called (_auth_url c) (_auth_payload c) w)) /\
  (forall e,
      __init__ client_id client_secret username password w = (Raise e, w') ->
      (w' = w /\ exists msg, e = ValueError msg)
      \/ auth_calls w' = S (auth_calls w)).
Proof.
  assert (Build : forall url payload c,
            (tok <- __new_token url payload ;;
             ret (BlackbirdApiClient.mk url payload tok)) w = (Ok c, w') ->
            __new_token url payload w = (Ok (token c), w') /\
            _auth_url c = url /\ _auth_payload c = payload).
  { intros url payload c H. unfold bind in H.
    destruct (__new_token url payload w) as [[tok|e] w1]; [|discriminate H].
    injection H as <- <-. repeat split. }
  assert (Fail : forall url payload e,
            (tok <- __new_token url payload ;;
             ret (BlackbirdApiClient.mk url payload tok)) w = (Raise e, w') ->
            auth_calls w' = S (auth_calls w)).
  { intros url payload e H. unfold bind in H.
    pose proof (new_token_counters url payload w) as (A & _).
    destruct (__new_token url payload w) as [[tok|e1] w1]; [discriminate H|].
    injection H as _ <-. exact A. }
  split.
  - intros c H. unfold __init__ in H.
    destruct (str_truthy username && str_truthy password).
    + apply Build in H as (N & U & P). rewrite U, P.
      apply new_token_ok_inv. exact N.
    + destruct (str_truthy client_id && str_truthy client_secret);
        [|discriminate H].
      apply Build in H as (N & U & P). rewrite U, P.
      apply new_token_ok_inv. exact N.
  - intros e H. unfold __init__ in H.
    destruct (str_truthy username && str_truthy password).
    + right. exact (Fail _ _ _ H).
    + destruct (str_truthy client_id && str_truthy client_secret).
      * right. exact (Fail _ _ _ H).
      * left. injection H as <- <-. split; [reflexivity|]. eexists. reflexivity.
Qed.

Lemma init_outcomes_witness :
  let w := provider_world 7 (answer 401 (JObj [("error", JStr "invalid_grant")])) in
  let run := __init__ None None (Some "alice") (Some "secret") w in
  (snd run = w /\ exists msg,
      RuntimeError (TokenRejected (JObj [("error", JStr "invalid_grant")]))
      = ValueError msg)
  \/ auth_calls (snd run) = S (auth_calls w).
Proof.
  intros w run.
  destruct (init_outcomes None None (Some "alice") (Some "secret") w (snd run))
    as (_ & Raises).
  apply Raises. reflexivity.
Defined.

(** X19: how start-up picks the grant from the environment.  A variable
    that is unset counts as empty.  With either of [BLACKBIRD_USERNAME] and
    [BLACKBIRD_PASSWORD] empty and either of [BLACKBIRD_CLIENT_KEY] and
    [BLACKBIRD_SECRET_KEY] empty, loading the module raises [ValueError]
    before any request.  With both username and password set, the client is
    built as if no key had been given; otherwise, with both keys set, as if
    no username or password had been given. *)
Theorem startup_modes (environ : string -> option string) (w : World) :
  let user := BLACKBIRD_USERNAME environ in
  let pass := BLACKBIRD_PASSWORD environ in
  let key := BLACKBIRD_CLIENT_KEY environ in
  let secret := BLACKBIRD_SECRET_KEY environ in
  ((user = "" \/ pass = "") -> (key = "" \/ secret = "") ->
   blackbird_api environ w
   = (Raise (ValueError
        "Either username and password or client_id and client_secret must be provided"),
      w)) /\
  (user <> "" -> pass <> "" ->
   blackbird_api environ w = __init__ None None (Some user) (Some pass) w) /\
  ((user = "" \/ pass = "") -> key <> "" -> secret <> "" ->
   blackbird_api environ w = __init__ (Some key) (Some secret) None None w).
Proof.
  intros user pass key secret.
  assert (Empty : forall a b : string,
            a = "" \/ b = "" -> str_truthy (Some a) && str_truthy (Some b) = false).
  { intros a b [-> | ->]; [reflexivity|]. apply andb_false_r. }
  assert (Full : forall a : string, a <> "" -> str_truthy (Some a) = true).
  { intros a Ha. simpl. apply negb_true_iff, String.eqb_neq. exact Ha. }
  unfold blackbird_api. fold user pass key secret.
  split; [|split].
  - intros Hup Hks. unfold __init__.
    rewrite (Empty _ _ Hup), (Empty _ _ Hks). reflexivity.
  - intros Hu Hp. apply init_password_grant; apply Full; assumption.
  - intros Hup Hk Hs. apply init_client_grant, Empty, Hup.
Qed.

Lemma startup_modes_witness :
  let w := frozen_world 0 (api_status 200) in
  fst (blackbird_api (environ_of [("BLACKBIRD_USERNAME", "alice")]) w)
  = Raise (ValueError
      "Either username and password or client_id and client_secret must be provided") /\
  blackbird_api (environ_of [("BLACKBIRD_USERNAME", "alice");
                             ("BLACKBIRD_PASSWORD", "secret");
                             ("BLACKBIRD_CLIENT_KEY", "id")]) w
  = __init__ None None (Some "alice") (Some "secret") w /\
  blackbird_api (environ_of [("BLACKBIRD_USERNAME", "alice");
                             ("BLACKBIRD_CLIENT_KEY", "id");
                             ("BLACKBIRD_SECRET_KEY", "key")]) w
  = __init__ (Some "id") (Some "key") None None w.
Proof.
  intro w. split; [|split].
  - destruct (startup_modes (environ_of [("BLACKBIRD_USERNAME", "alice")]) w)
      as (Neither & _).
    rewrite Neither; [reflexivity | right; reflexivity | left; reflexivity].
  - destruct (startup_modes
                (environ_of [("BLACKBIRD_USERNAME", "alice");
                             ("BLACKBIRD_PASSWORD", "secret");
                             ("BLACKBIRD_CLIENT_KEY", "id")]) w)
      as (_ & Password & _).
    apply Password; discriminate.
  - destruct (startup_modes
                (environ_of [("BLACKBIRD_USERNAME", "alice");
                             ("BLACKBIRD_CLIENT_KEY", "id");
                             ("BLACKBIRD_SECRET_KEY", "key")]) w)
      as (_ & _ & Client).
    apply Client; [right; reflexivity | discriminate | discriminate].
Defined.

(** ** The two tools *)

Lemma tool_run (json_dumps : Json -> string) (m : M St (option Json))
    (s s' : St) (r : Res (option string)) :
  (result <- m ;; ret (option_map json_dumps result)) s = (r, s') ->
  exists r0, m s = (r0, s') /\
             r = match r0 with
                 | Ok v => Ok (option_map json_dumps v)
                 | Raise e => Raise e
                 end.
Proof.
  unfold bind, ret. intro H.
  destruct (m s) as [[v|e] s1]; injection H as <- <-; eexists; split; reflexivity.
Qed.

(** The first attempt of a submission, when the token is not judged stale:
    whatever the reply, the clock has been read once and the request
    sent. *)
Lemma submit_wrapped_first (resource : string) (rt : ResourceType) (opts : Dict)
    (s : St) :
  fresh_now s ->
  snd (_submit_resource_type_wrapped resource rt opts s)
  = attempted (submit_request resource rt opts (Token.token (token (self s)))) s.
Proof.
  intros F. unfold _submit_resource_type_wrapped.
  fold (submit_body resource opts).
  unfold bind at 1. unfold headers, bind at 1.
  rewrite bearer_token_cached by (apply Qgtb_false; exact F).
  unfold ret at 1. unfold bind at 1, lift, session_send.
  cbn [world self on_world tick api_server api_calls].
  fold (headers_of (Token.token (token (self s)))).
  fold (submit_request resource rt opts (Token.token (token (self s)))).
  destruct (api_server (world s) (api_calls (world s)) _) as [response|];
    cbn [of_reply]; [|reflexivity].
  destruct (is_200_or_202 (status_code response)).
  - unfold bind, response_json. destruct (body response) as [j|]; [|reflexivity].
    unfold ret. destruct j; try reflexivity.
    cbn [subscript]. destruct (dict_get "id" d); reflexivity.
  - destruct (status_code response =? 500)%Z; reflexivity.
Qed.

(** A submission, when the token is not judged stale: the oldest event it
    adds is its request. *)
Lemma submit_first_event (resource : string) (rt : ResourceType) (opts : Dict)
    (s s1 : St) (r1 : Res Json) :
  fresh_now s ->
  _submit_resource_type resource rt opts s = (r1, s1) ->
  exists n1,
    trace_of s1
    = n1 ++ EvRequest (submit_request resource rt opts
                         (Token.token (token (self s)))) :: trace_of s.
Proof.
  intros F H.
  set (req := submit_request resource rt opts (Token.token (token (self s)))).
  pose proof (submit_wrapped_first resource rt opts s F) as First. fold req in First.
  unfold _submit_resource_type, on_exception in H. cbn [pred] in H.
  destruct (_submit_resource_type_wrapped resource rt opts s) as [[v|e] sf] eqn:T;
    cbn [snd] in First; subst sf.
  - rewrite (backoff_retry_ok _ _ _ _ _ _ T) in H. injection H as _ <-.
    exists []. reflexivity.
  - destruct e;
      try (rewrite (backoff_retry_fatal _ _ _ _ _ _ T) in H
             by (intros j; discriminate);
           injection H as _ <-; exists []; reflexivity).
    rewrite (backoff_retry_again _ _ _ _ _ _ T) in H.
    destruct (tame_backoff_retry _ 1
                (tame_submit_wrapped resource rt opts) 1 _ _ _ H)
      as ((n & Tn & _) & _).
    exists (n ++ [EvBackoff (2 ^ Z.of_nat 0)]).
    rewrite Tn, <- app_assoc. reflexivity.
Qed.

(** What follows an accepted submission only adds to the trace. *)
Lemma polling_extends (rt : ResourceType)
    (max_retries max_time check_interval : Z) (resource_id : Json)
    (s1 s' : St) (r : Res (option Json)) :
  (lift (log (EvInfoSubmitted resource_id)) ;;;
   now <- lift time_time ;;
   poll (poll_fuel max_retries) resource_id rt max_retries max_time
        check_interval (now + inject_Z max_time)%Q 0 (JStr "")) s1 = (r, s') ->
  exists n, trace_of s' = n ++ trace_of s1.
Proof.
  intros H.
  set (url := _auth_url (self s1)). set (data := _auth_payload (self s1)).
  set (E := expected url data "" rt [] check_interval).
  assert (Y : yields url data
                (fits (budget_add (budget_one KLog)
                         (budget_add budget_zero
                            (budget_scale (Z.to_nat (max_retries + 1 - 0))
                               pass_budget))) E)
                (fun v => v = None \/ has_input v)
                (lift (log (EvInfoSubmitted resource_id)) ;;;
                 now <- lift time_time ;;
                 poll (poll_fuel max_retries) resource_id rt max_retries max_time
                      check_interval (now + inject_Z max_time)%Q 0 (JStr ""))).
  { apply (yields_bind url data E _ _ (fun _ => True));
      [apply (yields_log url data E (EvInfoSubmitted resource_id)); exact I|].
    intros _ _.
    apply (yields_bind url data E _ _ (fun _ => True)); [apply yields_time|].
    intros now _. apply yields_poll. }
  destruct (Y _ _ _ (configured_self s1) H) as (_ & (n & T & _) & _).
  exists n. exact T.
Qed.

(** The whole call, when the token is not judged stale at its first
    reading: the oldest event it adds is the submission of the resource. *)
Lemma submit_and_wait_first_event (resource : string) (rt : ResourceType)
    (opts : Dict) (max_retries max_time check_interval : Z)
    (s s' : St) (r : Res (option Json)) :
  fresh_now s ->
  submit_and_wait_resource resource rt opts max_retries max_time check_interval s
  = (r, s') ->
  exists rest,
    trace_of s'
    = rest ++ EvRequest (submit_request resource rt opts
                           (Token.token (token (self s)))) :: trace_of s.
Proof.
  intros F H. unfold submit_and_wait_resource in H. unfold bind at 1 in H.
  destruct (_submit_resource_type resource rt opts s) as [[rid|e] s1] eqn:Su.
  - destruct (submit_first_event _ _ _ _ _ _ F Su) as (n1 & T1).
    destruct (polling_extends _ _ _ _ _ _ _ _ H) as (n & T).
    exists (n ++ n1). rewrite T, T1, <- app_assoc. reflexivity.
  - injection H as _ <-. exact (submit_first_event _ _ _ _ _ _ F Su).
Qed.

(** X20: what the two tools send.  [check_context] submits
    [{"input": text}], without an [options] key, to the context endpoint;
    [check_vision] submits [{"input": url, "options": {"explain": true}}]
    to the vision endpoint.  When the cached token is not judged stale at
    the first reading of the clock, that [POST], carrying the cached token,
    is the first thing a tool call does, whatever happens next.  In any
    world and whatever the outcome, every event of a tool call is one
    expected for that resource, with sleeps of exactly 10 seconds, and the
    call makes at most 3 submissions, 183 status requests and 61 sleeps. *)
Theorem tools_effects (json_dumps : Json -> string) (text : string)
    (s s' : St) (r : Res (option string)) :
  (check_context json_dumps text s = (r, s') ->
   exists new,
     trace_of s' = new ++ trace_of s /\
     (fresh_now s ->
      exists rest,
        new = rest ++ [EvRequest
                         (POST "https://api.blackbird.ai/compass/contextChecks"
                               (headers_of (Token.token (token (self s))))
                               [("input", JStr text)])]) /\
     Forall (expected (_auth_url (self s)) (_auth_payload (self s))
                      text CONTEXT [] 10) new /\
     (count KPost new <= 3)%nat /\ (count KGet new <= 183)%nat /\
     (count KSleep new <= 61)%nat) /\
  (check_vision json_dumps text s = (r, s') ->
   exists new,
     trace_of s' = new ++ trace_of s /\
     (fresh_now s ->
      exists rest,
        new = rest ++ [EvRequest
                         (POST "https://api.blackbird.ai/compass/visionAnalyses"
                               (headers_of (Token.token (token (self s))))
                               [("input", JStr text);
                                ("options", JObj [("explain", JBool true)])])]) /\
     Forall (expected (_auth_url (self s)) (_auth_payload (self s))
                      text VISION [("explain", JBool true)] 10) new /\
     (count KPost new <= 3)%nat /\ (count KGet new <= 183)%nat /\
     (count KSleep new <= 61)%nat) /\
  submit_body text [] = [("input", JStr text)] /\
  submit_body text [("explain", JBool true)]
  = [("input", JStr text); ("options", JObj [("explain", JBool true)])].
Proof.
  assert (Run : forall rt opts r0,
            submit_and_wait_resource text rt opts BLACKBIRD_CONTEXT_MAX_RETRIES
              BLACKBIRD_CONTEXT_MAX_TIME BLACKBIRD_CONTEXT_CHECK_INTERVAL s
            = (r0, s') ->
            exists new,
              trace_of s' = new ++ trace_of s /\
              (fresh_now s ->
               exists rest,
                 new = rest ++ [EvRequest
                                  (submit_request text rt opts
                                     (Token.token (token (self s))))]) /\
              Forall (expected (_auth_url (self s)) (_auth_payload (self s))
                               text rt opts 10) new /\
              (count KPost new <= 3)%nat /\ (count KGet new <= 183)%nat /\
              (count KSleep new <= 61)%nat).
  { intros rt opts r0 H.
    destruct (yields_submit_and_wait _ _ text rt opts
                BLACKBIRD_CONTEXT_CHECK_INTERVAL BLACKBIRD_CONTEXT_MAX_RETRIES
                BLACKBIRD_CONTEXT_MAX_TIME s r0 s' (configured_self s) H)
      as (_ & (new & T & W & F) & _).
    exists new. split; [exact T|]. split.
    - intros Fr.
      destruct (submit_and_wait_first_event _ _ _ _ _ _ _ _ _ Fr H) as (rest & T').
      exists rest. rewrite T in T'.
      change (rest ++ EvRequest (submit_request text rt opts
                                   (Token.token (token (self s)))) :: trace_of s)
        with (rest ++ [EvRequest (submit_request text rt opts
                                    (Token.token (token (self s))))] ++ trace_of s)
        in T'.
      rewrite app_assoc in T'. exact (app_inv_tail _ _ _ T').
    - split; [exact F|].
      pose proof (W KPost) as P. pose proof (W KGet) as G.
      pose proof (W KSleep) as Z0.
      vm_compute in P, G, Z0. repeat split; assumption. }
  split; [|split; [|split; reflexivity]].
  - intro H. apply tool_run in H as (r0 & H & _). exact (Run CONTEXT [] _ H).
  - intro H. apply tool_run in H as (r0 & H & _).
    exact (Run VISION [("explain", JBool true)] _ H).
Qed.

Lemma tools_effects_witness :
  let s := mkSt (cached_client 1000)
             (frozen_world 7
                (api_stub (JObj [("id", JStr "r-2")])
                   (fun _ => JObj [("status", JStr "processing")]))) in
  let vision := check_vision (fun _ => "{}") "http://img" s in
  let context := check_context (fun _ => "{}") "claim text" s in
  (exists new rest,
      trace_of (snd vision) = new ++ trace_of s /\
      new = rest ++ [EvRequest
                       (POST "https://api.blackbird.ai/compass/visionAnalyses"
                             (headers_of (JStr "cached"))
                             [("input", JStr "http://img");
                              ("options", JObj [("explain", JBool true)])])] /\
      (count KSleep new <= 61)%nat) /\
  (exists new rest,
      trace_of (snd context) = new ++ trace_of s /\
      new = rest ++ [EvRequest
                       (POST "https://api.blackbird.ai/compass/contextChecks"
                             (headers_of (JStr "cached"))
                             [("input", JStr "claim text")])] /\
      (count KSleep new <= 61)%nat).
Proof.
  intros s vision context.
  assert (Fr : fresh_now s) by (unfold fresh_now; simpl; discriminate).
  split.
  - destruct (tools_effects (fun _ => "{}") "http://img" s (snd vision)
                (fst vision)) as (_ & Vision & _).
    destruct (Vision (surjective_pairing vision))
      as (new & T & First & _ & _ & _ & Sl).
    destruct (First Fr) as (rest & N).
    exists new, rest. repeat split; assumption.
  - destruct (tools_effects (fun _ => "{}") "claim text" s (snd context)
                (fst context)) as (Context & _).
    destruct (Context (surjective_pairing context))
      as (new & T & First & _ & _ & _ & Sl).
    destruct (First Fr) as (rest & N).
    exists new, rest. repeat split; assumption.
Defined.

(** X21: what the two tools return.  A tool returns the serialisation of
    what [submit_and_wait_resource] returned, which is a mapping with an
    [input] key; it never returns without a result. *)
Theorem tools_results (json_dumps : Json -> string) (text : string)
    (s s' : St) (v : option string) :
  check_context json_dumps text s = (Ok v, s')
  \/ check_vision json_dumps text s = (Ok v, s') ->
  exists d i,
    v = Some (json_dumps (JObj d)) /\ dict_get "input" d = Some i.
Proof.
  assert (Run : forall rt opts r0,
            submit_and_wait_resource text rt opts BLACKBIRD_CONTEXT_MAX_RETRIES
              BLACKBIRD_CONTEXT_MAX_TIME BLACKBIRD_CONTEXT_CHECK_INTERVAL s
            = (r0, s') ->
            Ok v = match r0 with
                   | Ok v0 => Ok (option_map json_dumps v0)
                   | Raise e => Raise e
                   end ->
            exists d i,
              v = Some (json_dumps (JObj d)) /\ dict_get "input" d = Some i).
  { intros rt opts r0 H Hv. destruct r0 as [v0|e]; [|discriminate Hv].
    injection Hv as ->.
    destruct (returned_has_input _ _ _ _ _ _ _ _ _ H) as (N & [E | Hv]);
      [contradiction|].
    destruct Hv as (d & i & -> & I).
    exists d, i. split; [reflexivity | exact I]. }
  intros [H | H]; apply tool_run in H as (r0 & H & Hv); exact (Run _ _ _ H Hv).
Qed.

Lemma tools_results_witness :
  exists d i,
    Some "{}" = Some ((fun _ : Json => "{}") (JObj d)) /\ dict_get "input" d = Some i.
Proof.
  set (s := mkSt (cached_client 1000)
              (frozen_world 7
                 (api_stub (JObj [("id", JStr "r-1")])
                    (fun _ => JObj [("status", JStr "success");
                                    ("context", JObj [("verdict", JStr "false")]);
                                    ("input", JStr "claim text")])))).
  apply (tools_results (fun _ => "{}") "claim text" s
           (snd (check_context (fun _ => "{}") "claim text" s)) (Some "{}")).
  left. vm_compute. reflexivity.
Defined.

(** ** What a call leaves unchanged *)

Section Preserves.
Variable R : St -> St -> Prop.
Hypothesis R_refl : forall s, R s s.
Hypothesis R_trans : forall s1 s2 s3, R s1 s2 -> R s2 s3 -> R s1 s3.
Hypothesis R_world :
  forall s w', clock w' = clock (world s) ->
               auth_calls w' = auth_calls (world s) ->
               R s (mkSt (self s) w').
Hypothesis R_bearer : preserves R bearer_token.

Lemma preserves_ret {A} (a : A) : preserves R (ret a).
Proof. intros s r s' H. injection H as _ <-. apply R_refl. Qed.

Lemma preserves_raise {A} (e : Exn) : preserves R (@raise St A e).
Proof. intros s r s' H. injection H as _ <-. apply R_refl. Qed.

Lemma preserves_bind {A B} (m : M St A) (k : A -> M St B) :
  preserves R m -> (forall a, preserves R (k a)) -> preserves R (bind m k).
Proof.
  intros Hm Hk s r s' H. unfold bind in H.
  destruct (m s) as [[a|e] s1] eqn:Em.
  - exact (R_trans _ _ _ (Hm _ _ _ Em) (Hk a _ _ _ H)).
  - injection H as _ <-. exact (Hm _ _ _ Em).
Qed.

Lemma preserves_time : preserves R (lift time_time).
Proof. intros s r s' H. injection H as _ <-. apply R_world; reflexivity. Qed.

Lemma preserves_send (req : Request) : preserves R (lift (session_send req)).
Proof. intros s r s' H. injection H as _ <-. apply R_world; reflexivity. Qed.

Lemma preserves_log (e : Event) : preserves R (lift (log e)).
Proof. intros s r s' H. injection H as _ <-. apply R_world; reflexivity. Qed.

Lemma preserves_response_json (response : Response) :
  preserves R (response_json response).
Proof.
  unfold response_json. destruct (body response);
    [apply preserves_ret | apply preserves_raise].
Qed.

Lemma preserves_subscript (j : Json) (key : string) : preserves R (subscript j key).
Proof.
  destruct j; cbn [subscript]; try apply preserves_raise.
  destruct (dict_get key d); [apply preserves_ret | apply preserves_raise].
Qed.

Lemma preserves_unpack (j : Json) : preserves R (unpack j).
Proof.
  destruct j; cbn [unpack]; first [apply preserves_raise | apply preserves_ret].
Qed.

Lemma preserves_headers : preserves R headers.
Proof.
  unfold headers. apply preserves_bind; [exact R_bearer|].
  intro auth. apply preserves_ret.
Qed.

Lemma preserves_submit_wrapped (resource : string) (rt : ResourceType) (opts : Dict) :
  preserves R (_submit_resource_type_wrapped resource rt opts).
Proof.
  unfold _submit_resource_type_wrapped.
  apply preserves_bind; [apply preserves_headers | intro hdrs].
  apply preserves_bind; [apply preserves_send | intro response].
  destruct (is_200_or_202 (status_code response)).
  - apply preserves_bind; [apply preserves_response_json | intro j].
    apply preserves_subscript.
  - destruct (status_code response =? 500)%Z; apply preserves_raise.
Qed.

Lemma preserves_check_wrapped (resource_id : Json) (rt : ResourceType) :
  preserves R (_check_resource_type_wrapped resource_id rt).
Proof.
  unfold _check_resource_type_wrapped.
  apply preserves_bind; [apply preserves_headers | intro hdrs].
  apply preserves_bind; [apply preserves_send | intro response].
  destruct (is_200_or_202 (status_code response));
    [apply preserves_response_json|].
  destruct (status_code response =? 500)%Z; [apply preserves_raise|].
  destruct ((status_code response <? 500)%Z && (400 <=? status_code response)%Z);
    apply preserves_raise.
Qed.

Lemma preserves_backoff_retry {A} (target : M St A) :
  preserves R target ->
  forall more n, preserves R (backoff_retry more n target).
Proof.
  intro Ht. induction more as [|more IH]; intros n s r s' H;
    cbn [backoff_retry] in H.
  - destruct (target s) as [[v|e] s1] eqn:T.
    + injection H as _ <-. exact (Ht _ _ _ T).
    + destruct e; injection H as _ <-; exact (Ht _ _ _ T).
  - destruct (target s) as [[v|e] s1] eqn:T.
    + injection H as _ <-. exact (Ht _ _ _ T).
    + destruct e; try (injection H as _ <-; exact (Ht _ _ _ T)).
      apply (R_trans _ s1); [exact (Ht _ _ _ T)|].
      revert H. apply preserves_bind; [apply preserves_log|].
      intros _. apply IH.
Qed.

Lemma preserves_poll (resource_id : Json) (rt : ResourceType)
    (max_retries max_time check_interval : Z) (cutoff : Q) (fuel : nat) :
  forall retries error,
    preserves R (poll fuel resource_id rt max_retries max_time check_interval
                      cutoff retries error).
Proof.
  induction fuel as [|fuel IH]; intros retries error; cbn [poll];
    [apply preserves_ret|].
  apply preserves_bind.
  { destruct (retries <=? max_retries)%Z; [|apply preserves_ret].
    apply preserves_bind; [apply preserves_time | intro now; apply preserves_ret]. }
  intros [|]; [|apply preserves_raise].
  apply preserves_bind;
    [apply preserves_backoff_retry, preserves_check_wrapped | intro check].
  assert (Sleep : forall err,
             preserves R
               (lift (asyncio_sleep check_interval) ;;;
                poll fuel resource_id rt max_retries max_time check_interval
                     cutoff (retries + 1)%Z err)).
  { intro err. apply preserves_bind; [apply preserves_log | intros _; apply IH]. }
  destruct (case_context check) as [[cdata _input]|].
  { apply preserves_bind; [apply preserves_unpack | intro d; apply preserves_ret]. }
  destruct (case_analysis check) as [[[options _input] analysis]|].
  { apply preserves_bind; [apply preserves_unpack | intro d; apply preserves_ret]. }
  destruct (case_processing check); [apply Sleep|].
  destruct (case_failed check) as [err|];
    (apply preserves_bind; [apply preserves_log | intros _; apply Sleep]).
Qed.

Lemma preserves_submit_and_wait (resource : string) (rt : ResourceType)
    (opts : Dict) (max_retries max_time check_interval : Z) :
  preserves R (submit_and_wait_resource resource rt opts max_retries max_time
                 check_interval).
Proof.
  unfold submit_and_wait_resource.
  apply preserves_bind;
    [apply preserves_backoff_retry, preserves_submit_wrapped | intro resource_id].
  apply preserves_bind; [apply preserves_log | intros _].
  apply preserves_bind; [apply preserves_time | intro now].
  apply preserves_poll.
Qed.

End Preserves.

Lemma token_frame_refl (s : St) : token_frame s s.
Proof. split; [apply Nat.le_refl | left; reflexivity]. Qed.

Lemma token_frame_trans (s1 s2 s3 : St) :
  token_frame s1 s2 -> token_frame s2 s3 -> token_frame s1 s3.
Proof.
  intros [L1 [E1|N1]] [L2 [E2|N2]]; (split; [lia|]);
    first [left; congruence | right; lia].
Qed.

Lemma token_frame_world (s : St) (w' : World) :
  clock w' = clock (world s) -> auth_calls w' = auth_calls (world s) ->
  token_frame s (mkSt (self s) w').
Proof.
  intros _ A. split; cbn [world self]; [lia | left; reflexivity].
Qed.

Lemma token_frame_bearer : preserves token_frame bearer_token.
Proof.
  intros s r s' H.
  unfold bearer_token, bind, lift, time_time, get_self, set_token, ret in H.
  cbv beta iota in H. cbn [world self] in H.
  destruct (Qgtb _ _).
  - cbv beta iota in H. cbn [world self] in H.
    pose proof (new_token_counters (_auth_url (self s)) (_auth_payload (self s))
                  (tick (world s))) as (A & _).
    destruct (__new_token _ _ _) as [[tok|e] w1]; cbn [snd] in A;
      injection H as _ <-; split; cbn [world self auth_calls tick] in *;
      solve [lia | right; lia].
  - injection H as _ <-. apply token_frame_world; reflexivity.
Qed.

Lemma valid_frame_refl (s : St) : valid_frame s s.
Proof. intros _. repeat split. Qed.

Lemma valid_frame_trans (s1 s2 s3 : St) :
  valid_frame s1 s2 -> valid_frame s2 s3 -> valid_frame s1 s3.
Proof.
  intros F1 F2 V. destruct (F1 V) as (S1 & C1 & A1).
  assert (V2 : never_stale s2).
  { intros i. unfold never_stale in V. rewrite S1, C1. apply V. }
  destruct (F2 V2) as (S2 & C2 & A2).
  repeat split; congruence.
Qed.

Lemma valid_frame_world (s : St) (w' : World) :
  clock w' = clock (world s) -> auth_calls w' = auth_calls (world s) ->
  valid_frame s (mkSt (self s) w').
Proof. intros C A _. repeat split; assumption. Qed.

Lemma valid_frame_bearer : preserves valid_frame bearer_token.
Proof.
  intros s r s' H V.
  rewrite bearer_token_cached in H by (apply Qgtb_false, V).
  injection H as _ <-. repeat split.
Qed.

(** X22: a valid token is all a call needs.  If the cached token is never
    judged stale, a call of [submit_and_wait_resource] makes no credential
    exchange and leaves the client, token and configuration, exactly as it
    was, whatever the API answers and however the call ends. *)
Theorem valid_token_is_kept
    (resource : string) (rt : ResourceType) (opts : Dict)
    (max_retries max_time check_interval : Z) (s s' : St) (r : Res (option Json)) :
  never_stale s ->
  submit_and_wait_resource resource rt opts max_retries max_time check_interval s
  = (r, s') ->
  self s' = self s /\
  auth_calls (world s') = auth_calls (world s).
Proof.
  intros V H.
  destruct (preserves_submit_and_wait valid_frame valid_frame_refl
              valid_frame_trans valid_frame_world valid_frame_bearer
              resource rt opts max_retries max_time check_interval s r s' H V)
    as (Sf & _ & A).
  split; [exact Sf | exact A].
Qed.

Lemma valid_token_is_kept_witness :
  let s := mkSt (cached_client 1000) (frozen_world 7 (api_status 500)) in
  let run := submit_and_wait_resource "some text" CONTEXT [] 2 600 0 s in
  self (snd run) = self s /\ auth_calls (world (snd run)) = auth_calls (world s).
Proof.
  intros s run.
  assert (V : never_stale s) by (intros i; simpl; discriminate).
  exact (valid_token_is_kept "some text" CONTEXT [] 2 600 0 s (snd run) (fst run)
           V (surjective_pairing run)).
Defined.

(** X23: the cached token changes only through a credential exchange.  In
    any world, after a call of [submit_and_wait_resource] the number of
    exchanges made has not gone down, and if it is the same as before then
    the client holds the same token as before. *)
Theorem token_changes_only_by_exchange
    (resource : string) (rt : ResourceType) (opts : Dict)
    (max_retries max_time check_interval : Z) (s s' : St) (r : Res (option Json)) :
  submit_and_wait_resource resource rt opts max_retries max_time check_interval s
  = (r, s') ->
  (auth_calls (world s) <= auth_calls (world s'))%nat /\
  (auth_calls (world s') = auth_calls (world s) -> token (self s') = token (self s)).
Proof.
  intros H.
  destruct (preserves_submit_and_wait token_frame token_frame_refl
              token_frame_trans token_frame_world token_frame_bearer
              resource rt opts max_retries max_time check_interval s r s' H)
    as (L & [E | N]).
  - split; [exact L | intros _; exact E].
  - split; [exact L | intros E; lia].
Qed.

Lemma token_changes_only_by_exchange_witness :
  let s := mkSt (cached_client 100)
             (frozen_world 101
                (api_stub (JObj [("id", JStr "r-1")])
                   (fun _ => JObj [("status", JStr "processing")]))) in
  let run := submit_and_wait_resource "some text" CONTEXT [] 2 600 0 s in
  (auth_calls (world s) <= auth_calls (world (snd run)))%nat /\
  (auth_calls (world (snd run)) = auth_calls (world s) ->
   token (self (snd run)) = token (self s)).
Proof.
  intros s run.
  exact (token_changes_only_by_exchange "some text" CONTEXT [] 2 600 0 s
           (snd run) (fst run) (surjective_pairing run)).
Defined.
